(** * Document-processing pipeline: a shallow embedding of the orchestration

    The development follows the Python sources of the pipeline:

    - [function_app.py]: the HTTP starters and queries, the batch orchestrator
      [run] and the per-document sub-orchestrator [process_blob];
    - [activities/runDocIntel.py], [activities/callAoai.py],
      [activities/writeToBlob.py]: the three activities;
    - [pipelineUtils/prompts.py], [pipelineUtils/azure_openai.py],
      [pipelineUtils/blob_functions.py]: the helpers the activities call.

    Python values are a small dynamically typed universe ([pyval]); exceptions
    are explicit ([outcome]); the external collaborators (storage, document
    analysis, the model, the prompt store) are oracles collected in a record
    ([services]) whose answers may depend on everything that happened before.
    A Python [str] is modelled by its UTF-8 encoding, a string of bytes: a
    string literal of this file is the text it spells. *)

From Stdlib Require Import String Ascii List ZArith NArith Arith Bool Lia.
From Stdlib Require Import Sorting.Sorted Sorting.Permutation.
Import ListNotations.

Local Open Scope string_scope.
Local Open Scope list_scope.
Set Warnings "-register-all".

(** ** Python values and exceptions *)

Module Py.

(** The values that cross the activity and HTTP boundaries are JSON-like. *)
Inductive pyval : Type :=
| PNone
| PBool (b : bool)
| PInt (z : Z)
| PStr (s : string)
| PList (l : list pyval)
| PDict (d : list (string * pyval)).

(** A raised Python exception: its class and its message. *)
Record pyerr : Type := PyError { err_type : string; err_msg : string }.

(** The result of running a piece of Python: a value or a raised exception. *)
Inductive outcome (E A : Type) : Type :=
| Returned (a : A)
| Raised (e : E).
Arguments Returned {E A} a.
Arguments Raised {E A} e.

Definition is_returned {E A} (o : outcome E A) : bool :=
  match o with Returned _ => true | Raised _ => false end.

(** Truth value of an object ([if x:], [not x], [x or y]). *)
Definition truthy (v : pyval) : bool :=
  match v with
  | PNone => false
  | PBool b => b
  | PInt z => negb (Z.eqb z 0)
  | PStr s => negb (String.eqb s "")
  | PList l => match l with [] => false | _ => true end
  | PDict d => match d with [] => false | _ => true end
  end.

(** [d.get(k)] and [k in d] on a dict kept as an association list. *)
Fixpoint dict_get (d : list (string * pyval)) (k : string) : option pyval :=
  match d with
  | [] => None
  | (k', v) :: d' => if String.eqb k' k then Some v else dict_get d' k
  end.

Definition dict_get_or (d : list (string * pyval)) (k : string) (dflt : pyval) : pyval :=
  match dict_get d k with Some v => v | None => dflt end.

Definition isinstance_str (v : pyval) : bool :=
  match v with PStr _ => true | _ => false end.
Definition isinstance_dict (v : pyval) : bool :=
  match v with PDict _ => true | _ => false end.
Definition isinstance_list (v : pyval) : bool :=
  match v with PList _ => true | _ => false end.

(** *** Strings

    A [str] is kept as the bytes of its UTF-8 encoding.  An ASCII character
    is one byte below 128; every other character is a lead byte (192 or
    more) followed by continuation bytes (128..191), so a byte below 128 is
    never part of another character. *)

Definition ascii_in (lo hi : nat) (c : ascii) : bool :=
  (lo <=? nat_of_ascii c)%nat && (nat_of_ascii c <=? hi)%nat.

Definition is_byte (n : nat) (c : ascii) : bool := Nat.eqb (nat_of_ascii c) n.

(** The white space of [str.strip()] and [str.isspace()]:
    U+0009..U+000D, U+001C..U+0020, U+0085, U+00A0, U+1680, U+2000..U+200A,
    U+2028, U+2029, U+202F, U+205F and U+3000.  [is_space] tells the ones of
    one byte, [is_space2] those of two bytes (U+0085, U+00A0) and [is_space3]
    those of three. *)
Definition is_space (c : ascii) : bool :=
  ascii_in 9 13 c || ascii_in 28 32 c.

Definition is_space2 (c1 c2 : ascii) : bool :=
  is_byte 194 c1 && (is_byte 133 c2 || is_byte 160 c2).

Definition is_space3 (c1 c2 c3 : ascii) : bool :=
  (is_byte 225 c1 && is_byte 154 c2 && is_byte 128 c3)
  || (is_byte 226 c1 && is_byte 128 c2
      && (ascii_in 128 138 c3 || ascii_in 168 169 c3 || is_byte 175 c3))
  || (is_byte 226 c1 && is_byte 129 c2 && is_byte 159 c3)
  || (is_byte 227 c1 && is_byte 128 c2 && is_byte 128 c3).

Definition is_backtick (c : ascii) : bool := Ascii.eqb c "`"%char.

(** [s.lstrip(chars)], [s.rstrip(chars)] and [s.strip(chars)] for ASCII
    [chars], given by a test on one byte. *)
Fixpoint lstrip_by (p : ascii -> bool) (s : string) : string :=
  match s with
  | EmptyString => EmptyString
  | String c s' => if p c then lstrip_by p s' else s
  end.

Fixpoint rstrip_by (p : ascii -> bool) (s : string) : string :=
  match s with
  | EmptyString => EmptyString
  | String c s' =>
      match rstrip_by p s' with
      | EmptyString => if p c then EmptyString else String c EmptyString
      | r => String c r
      end
  end.

Definition strip_by (p : ascii -> bool) (s : string) : string :=
  rstrip_by p (lstrip_by p s).

(** [s.lstrip()]: the white-space characters at the start are removed. *)
Fixpoint lstrip (s : string) : string :=
  match s with
  | EmptyString => EmptyString
  | String c1 s1 =>
      if is_space c1 then lstrip s1
      else
        match s1 with
        | EmptyString => s
        | String c2 s2 =>
            if is_space2 c1 c2 then lstrip s2
            else
              match s2 with
              | EmptyString => s
              | String c3 s3 => if is_space3 c1 c2 c3 then lstrip s3 else s
              end
        end
  end.

(** [s.rstrip()]: the text is cut where white space only is left.  (White
    space only can be left only where a character starts.) *)
Fixpoint rstrip (s : string) : string :=
  match s with
  | EmptyString => EmptyString
  | String c s' =>
      if String.eqb (lstrip s) EmptyString then EmptyString else String c (rstrip s')
  end.

(** [s.strip()]. *)
Definition strip (s : string) : string := rstrip (lstrip s).

(** [s.startswith(p)]. *)
Fixpoint startswith (s p : string) : bool :=
  match p, s with
  | EmptyString, _ => true
  | String _ _, EmptyString => false
  | String a p', String b s' => Ascii.eqb a b && startswith s' p'
  end.

Definition lower_ascii (c : ascii) : ascii :=
  if ascii_in 65 90 c then ascii_of_nat (nat_of_ascii c + 32) else c.
Definition upper_ascii (c : ascii) : ascii :=
  if ascii_in 97 122 c then ascii_of_nat (nat_of_ascii c - 32) else c.

(** The text of the given bytes. *)
Fixpoint bytes (l : list nat) : string :=
  match l with
  | [] => EmptyString
  | n :: l' => String (ascii_of_nat n) (bytes l')
  end.

(** [s.lower()], where it can be told by an ASCII letter: the letters A..Z,
    the Kelvin sign U+212A (lower case [k]) and U+0130 (lower case [i]
    followed by U+0307).  No other character has an ASCII letter in its
    lower case, so every other character is left as it is: the code only
    compares the result with ASCII words. *)
Fixpoint lower (s : string) : string :=
  match s with
  | EmptyString => EmptyString
  | String c1 s1 =>
      match s1 with
      | EmptyString => String (lower_ascii c1) EmptyString
      | String c2 s2 =>
          if is_byte 196 c1 && is_byte 176 c2 then bytes [105; 204; 135] ++ lower s2
          else
            match s2 with
            | EmptyString => String (lower_ascii c1) (lower s1)
            | String c3 s3 =>
                if is_byte 226 c1 && is_byte 132 c2 && is_byte 170 c3
                then String "k" (lower s3)
                else String (lower_ascii c1) (lower s1)
            end
      end
  end.

(** The upper case of the characters of two or three bytes that have an
    ASCII letter in it: U+00DF, U+0131, U+0149, U+017F, U+01F0,
    U+1E96..U+1E9A and the ligatures U+FB00..U+FB06. *)
Definition upper2 (c1 c2 : ascii) : option string :=
  if is_byte 195 c1 && is_byte 159 c2 then Some "SS"
  else if is_byte 196 c1 && is_byte 177 c2 then Some "I"
  else if is_byte 197 c1 && is_byte 137 c2 then Some (bytes [202; 188; 78])
  else if is_byte 197 c1 && is_byte 191 c2 then Some "S"
  else if is_byte 199 c1 && is_byte 176 c2 then Some (bytes [74; 204; 140])
  else None.

Definition upper3 (c1 c2 c3 : ascii) : option string :=
  if is_byte 225 c1 && is_byte 186 c2 then
    if is_byte 150 c3 then Some (bytes [72; 204; 177])
    else if is_byte 151 c3 then Some (bytes [84; 204; 136])
    else if is_byte 152 c3 then Some (bytes [87; 204; 138])
    else if is_byte 153 c3 then Some (bytes [89; 204; 138])
    else if is_byte 154 c3 then Some (bytes [65; 202; 190])
    else None
  else if is_byte 239 c1 && is_byte 172 c2 then
    if is_byte 128 c3 then Some "FF"
    else if is_byte 129 c3 then Some "FI"
    else if is_byte 130 c3 then Some "FL"
    else if is_byte 131 c3 then Some "FFI"
    else if is_byte 132 c3 then Some "FFL"
    else if is_byte 133 c3 then Some "ST"
    else if is_byte 134 c3 then Some "ST"
    else None
  else None.

(** [s.upper()], where it can be told by an ASCII letter: the letters a..z
    and the characters above.  Every other character is left as it is: the
    code only compares the result with an ASCII word. *)
Fixpoint upper (s : string) : string :=
  match s with
  | EmptyString => EmptyString
  | String c1 s1 =>
      match s1 with
      | EmptyString => String (upper_ascii c1) EmptyString
      | String c2 s2 =>
          match upper2 c1 c2 with
          | Some u => u ++ upper s2
          | None =>
              match s2 with
              | EmptyString => String (upper_ascii c1) (upper s1)
              | String c3 s3 =>
                  match upper3 c1 c2 c3 with
                  | Some u => u ++ upper s3
                  | None => String (upper_ascii c1) (upper s1)
                  end
              end
          end
      end
  end.

(** The slice [s[n:]]. *)
Fixpoint drop (n : nat) (s : string) : string :=
  match n, s with
  | O, _ => s
  | S n', String _ s' => drop n' s'
  | S _, EmptyString => EmptyString
  end.

(** The slice [s[:n]]. *)
Fixpoint take (n : nat) (s : string) : string :=
  match n, s with
  | S n', String c s' => String c (take n' s')
  | _, _ => EmptyString
  end.

Fixpoint string_forall (p : ascii -> bool) (s : string) : bool :=
  match s with
  | EmptyString => true
  | String c s' => p c && string_forall p s'
  end.

(** [sep.join(parts)]. *)
Fixpoint join (sep : string) (parts : list string) : string :=
  match parts with
  | [] => EmptyString
  | [p] => p
  | p :: rest => p ++ sep ++ join sep rest
  end.

(** The characters used below that a string literal cannot spell directly:
    the line feed, the double quote and the no-break space U+00A0. *)
Definition nl : string := String (ascii_of_nat 10) EmptyString.
Definition dq : string := String (ascii_of_nat 34) EmptyString.
Definition nbsp : string := bytes [194; 160].



(** [str(v)] as an f-string applies it.  Strings, [None], booleans and
    integers are spelled out; the [repr] of containers is the interpreter's
    business and kept as a parameter. *)
Definition decimal (z : Z) : string :=
  let digits := fix go (fuel : nat) (n : N) (acc : string) : string :=
      match fuel with
      | O => acc
      | S fuel' =>
          let acc' := String (ascii_of_N (48 + N.modulo n 10)) acc in
          if N.eqb (N.div n 10) 0 then acc' else go fuel' (N.div n 10) acc'
      end in
  let mag := digits (S (N.to_nat (N.log2 (Z.abs_N z)))) (Z.abs_N z) EmptyString in
  if Z.ltb z 0 then String "-"%char mag else mag.

Definition py_str (repr_container : pyval -> string) (v : pyval) : string :=
  match v with
  | PStr s => s
  | PNone => "None"
  | PBool true => "True"
  | PBool false => "False"
  | PInt z => decimal z
  | _ => repr_container v
  end.

End Py.
Export Py.

(** ** The durable-execution substrate

    Orchestrators and activities run on a host that schedules activities,
    retries them, joins sub-orchestrations and records the terminal state of
    every instance.  The host is a library, not part of the sources; what the
    orchestrators rely on is modelled here.  The model follows the logical
    execution of an orchestrator (what the host's replay reconstructs). *)

Module Durable.

(** What an orchestration can fail with: a stage that exhausted its retry
    policy, or an exception raised by the orchestrator's own code. *)
Inductive orch_err : Type :=
| StageFailure (stage : string) (attempts : nat) (last : pyerr)
| OrchRaised (e : pyerr).

Inductive terminal_status : Type :=
| Completed (output : pyval)
| Failed (failure : orch_err).

(** A call to an external collaborator, as an activity logs it. *)
Inductive service_call : Type :=
| Call (service : string) (args : list pyval).

(** The observable history of an execution, oldest event first. *)
Inductive event : Type :=
| EvTrack (name : string) (custom_dimensions : list (string * pyval))
| EvActivity (name : string) (attempt : nat) (input : pyval)
| EvTimer (ms : Z)
| EvCall (c : service_call)
| EvTerminal (instance_id : string) (status : terminal_status).

Definition history : Type := list event.

(** What a computation may add to the history: activities add service calls
    only, orchestrators add any event. *)
Class Emits (V : Type) : Type := as_event : V -> event.
#[export] Instance emits_call : Emits service_call := EvCall.
#[export] Instance emits_event : Emits event := fun e => e.

(** A computation reads the history so far and yields an outcome together
    with what it added.  What was added survives an exception. *)
Definition M (V E A : Type) : Type := history -> outcome E A * list V.

(** Activities and orchestrators. *)
Definition Act (A : Type) : Type := M service_call pyerr A.
Definition Orch (A : Type) : Type := M event orch_err A.

Definition ret {V E A} (a : A) : M V E A := fun _ => (Returned a, []).
Definition raise {V E A} (e : E) : M V E A := fun _ => (Raised e, []).
Definition lift_outcome {V E A} (o : outcome E A) : M V E A := fun _ => (o, []).

Definition bind {V} {em : Emits V} {E A B} (m : M V E A) (f : A -> M V E B) : M V E B :=
  fun h =>
    match m h with
    | (Returned a, l1) => let (r, l2) := f a (h ++ map as_event l1) in (r, l1 ++ l2)
    | (Raised e, l1) => (Raised e, l1)
    end.

(** [try: m  except Exception as e: handler e]. *)
Definition try_except {V} {em : Emits V} {E E' A} (m : M V E A) (handler : E -> M V E' A)
    : M V E' A :=
  fun h =>
    match m h with
    | (Returned a, l1) => (Returned a, l1)
    | (Raised e, l1) => let (r, l2) := handler e (h ++ map as_event l1) in (r, l1 ++ l2)
    end.

Definition emit (ev : event) : Orch unit := fun _ => (Returned tt, [ev]).

(** A call to an external collaborator: logged, answered by the oracle. *)
Definition call {A} (c : service_call) (oracle : history -> outcome pyerr A) : Act A :=
  fun h => (oracle h, [c]).

Declare Scope py_scope.
Delimit Scope py_scope with py.
Notation "x <- m ;; k" := (bind m (fun x => k))
  (at level 61, m at next level, right associativity) : py_scope.
Notation "m ;;; k" := (bind m (fun _ => k))
  (at level 61, right associativity) : py_scope.

(** *** Retry options

    [RetryOptions(first_retry_interval_in_milliseconds, max_number_of_attempts)]
    with the two attributes the orchestrator sets afterwards. *)
Record RetryOptions : Type := mkRetryOptions {
  first_retry_interval_in_milliseconds : Z;
  max_number_of_attempts : nat;
  backoff_coefficient : Z;
  max_retry_interval : Z  (* milliseconds *)
}.

(** Modelled from the spec: the wait before attempt [i] (for [i > 1]) of a
    stage, [min(base * c^(i-2), m)]; the host's timer is not in the sources. *)
Definition retry_delay (opts : RetryOptions) (i : nat) : Z :=
  Z.min (first_retry_interval_in_milliseconds opts
         * backoff_coefficient opts ^ Z.of_nat (i - 2))
        (max_retry_interval opts).

(** Modelled from the spec: the stage executor behind
    [context.call_activity_with_retry], which is not in the sources.  It runs
    the activity; a returned value ends the stage at once; an exception is
    retried after the computed wait while attempts remain; when the last
    attempt raises, the stage fails with its name, the number of attempts and
    the last error.  [attempt] is the number of the attempt being made and
    [remaining] how many may follow it. *)
Fixpoint retry_from (name : string) (opts : RetryOptions)
    (activity : pyval -> Act pyval) (input : pyval)
    (attempt remaining : nat) : Orch pyval :=
  fun h =>
    let ev := EvActivity name attempt input in
    match activity input (h ++ [ev]) with
    | (Returned v, calls) => (Returned v, ev :: map EvCall calls)
    | (Raised e, calls) =>
        match remaining with
        | O => (Raised (StageFailure name attempt e), ev :: map EvCall calls)
        | S remaining' =>
            let wait := EvTimer (retry_delay opts (S attempt)) in
            let (r, l) :=
              retry_from name opts activity input (S attempt) remaining'
                         (h ++ ev :: map EvCall calls ++ [wait]) in
            (r, ev :: map EvCall calls ++ wait :: l)
        end
    end.

Definition call_activity_with_retry (name : string) (opts : RetryOptions)
    (activity : pyval -> Act pyval) (input : pyval) : Orch pyval :=
  retry_from name opts activity input 1 (max_number_of_attempts opts - 1).

(** Modelled from the spec: the host records the terminal state of an
    instance when its orchestrator function returns or raises. *)
Definition orchestration (instance_id : string) (body : Orch pyval) : Orch pyval :=
  fun h =>
    let (r, l) := body h in
    (r, l ++ [EvTerminal instance_id
                match r with Returned v => Completed v | Raised e => Failed e end]).

(** Modelled from the spec: the join behind [context.task_all], which is not
    in the sources.  The children run to their terminal state one after the
    other in the order the scheduler picks them ([sched] gives, at each step,
    which of the still pending children finishes next); the join ends when no
    child is pending.  [completions] pairs each child's position in the task
    list with its outcome, in completion order. *)
Fixpoint completions (n : nat) (sched : list nat)
    (pending : list (nat * Orch pyval))
    : history -> list (nat * outcome orch_err pyval) * list event :=
  fun h =>
    match n with
    | O => ([], [])
    | S n' =>
        let c := Nat.modulo (hd O sched) (length pending) in
        match nth_error pending c with
        | None => ([], [])
        | Some (i, task) =>
            let (r, l1) := task h in
            let (rs, l2) :=
              completions n' (tl sched)
                          (firstn c pending ++ skipn (S c) pending) (h ++ l1) in
            ((i, r) :: rs, l1 ++ l2)
        end
    end.

Fixpoint lookup_outcome (i : nat) (done : list (nat * outcome orch_err pyval))
    : option (outcome orch_err pyval) :=
  match done with
  | [] => None
  | (j, r) :: done' => if Nat.eqb i j then Some r else lookup_outcome i done'
  end.

(** The results of the children in task order, or the first failure. *)
Fixpoint collect (outs : list (option (outcome orch_err pyval)))
    : outcome orch_err (list pyval) :=
  match outs with
  | [] => Returned []
  | Some (Returned v) :: outs' =>
      match collect outs' with
      | Returned vs => Returned (v :: vs)
      | Raised e => Raised e
      end
  | Some (Raised e) :: _ => Raised e
  | None :: _ => Raised (OrchRaised (PyError "RuntimeError" "task never completed"))
  end.

Fixpoint number_from {A} (i : nat) (l : list A) : list (nat * A) :=
  match l with
  | [] => []
  | a :: l' => (i, a) :: number_from (S i) l'
  end.

(** [context.task_all(tasks)].  The orchestrator has no handler around the
    join: a child that raises is not turned into an entry, the join raises. *)
Definition task_all (sched : list nat) (tasks : list (Orch pyval))
    : Orch (list pyval) :=
  fun h =>
    let (done, l) := completions (length tasks) sched (number_from 0 tasks) h in
    (collect (map (fun i => lookup_outcome i done) (seq 0 (length tasks))), l).

End Durable.
Export Durable.

(** ** A reference JSON codec

    [json.loads] and [json.dumps] belong to the interpreter and are parameters
    of the model.  To run the model on concrete responses, this codec covers
    the fragment of JSON without string escapes and without floats: [null],
    booleans, integers, plain strings, arrays and objects.  A text outside
    the fragment is refused like a text that is not JSON.  The codec only
    runs the examples: what is proved holds for every [json_loads] and
    [json_dumps]. *)

Module MiniJson.

Definition json_ws (c : ascii) : bool :=
  Ascii.eqb c " "%char || ascii_in 9 10 c || ascii_in 13 13 c.

Definition skip_ws (s : string) : string := lstrip_by json_ws s.

Definition is_digit (c : ascii) : bool := ascii_in 48 57 c.

(** The characters of a string up to its closing quote. *)
Fixpoint parse_string (s : string) : option (string * string) :=
  match s with
  | EmptyString => None
  | String c s' =>
      if Ascii.eqb c (ascii_of_nat 34) then Some (EmptyString, s')
      else if Ascii.eqb c (ascii_of_nat 92) || ascii_in 0 31 c then None
      else match parse_string s' with
           | Some (str, rest) => Some (String c str, rest)
           | None => None
           end
  end.

Fixpoint parse_digits (s : string) (acc : Z) : Z * string :=
  match s with
  | String c s' =>
      if is_digit c
      then parse_digits s' (10 * acc + Z.of_nat (nat_of_ascii c - 48))
      else (acc, s)
  | EmptyString => (acc, s)
  end.

Definition ends_number (rest : string) : bool :=
  match rest with
  | String c _ => negb (Ascii.eqb c "."%char || Ascii.eqb c "e"%char || Ascii.eqb c "E"%char)
  | EmptyString => true
  end.

(** An integer literal: no leading zero, no fraction, no exponent. *)
Definition parse_nat (s : string) : option (Z * string) :=
  match s with
  | String c s' =>
      if Ascii.eqb c "0"%char then
        match s' with
        | String d _ => if is_digit d then None
                        else if ends_number s' then Some (0%Z, s') else None
        | EmptyString => Some (0%Z, s')
        end
      else if is_digit c then
        let (n, rest) := parse_digits s 0 in
        if ends_number rest then Some (n, rest) else None
      else None
  | EmptyString => None
  end.

(** [d[k] = v]. *)
Fixpoint dict_set (d : list (string * pyval)) (k : string) (v : pyval)
    : list (string * pyval) :=
  match d with
  | [] => [(k, v)]
  | (k', v') :: d' =>
      if String.eqb k' k then (k', v) :: d' else (k', v') :: dict_set d' k v
  end.

Fixpoint parse_value (fuel : nat) (s : string) {struct fuel} : option (pyval * string) :=
  match fuel with
  | O => None
  | S fuel' =>
      match skip_ws s with
      | EmptyString => None
      | String c rest =>
          if Ascii.eqb c "{"%char then
            match skip_ws rest with
            | String "}"%char rest' => Some (PDict [], rest')
            | _ => match parse_members fuel' rest [] with
                   | Some (d, rest') => Some (PDict d, rest')
                   | None => None
                   end
            end
          else if Ascii.eqb c "["%char then
            match skip_ws rest with
            | String "]"%char rest' => Some (PList [], rest')
            | _ => match parse_elements fuel' rest with
                   | Some (l, rest') => Some (PList l, rest')
                   | None => None
                   end
            end
          else if Ascii.eqb c (ascii_of_nat 34) then
            match parse_string rest with
            | Some (str, rest') => Some (PStr str, rest')
            | None => None
            end
          else if startswith (String c rest) "null" then Some (PNone, drop 4 (String c rest))
          else if startswith (String c rest) "true" then Some (PBool true, drop 4 (String c rest))
          else if startswith (String c rest) "false" then Some (PBool false, drop 5 (String c rest))
          else if Ascii.eqb c "-"%char then
            match parse_nat rest with
            | Some (n, rest') => Some (PInt (- n), rest')
            | None => None
            end
          else
            match parse_nat (String c rest) with
            | Some (n, rest') => Some (PInt n, rest')
            | None => None
            end
      end
  end
with parse_elements (fuel : nat) (s : string) {struct fuel} : option (list pyval * string) :=
  match fuel with
  | O => None
  | S fuel' =>
      match parse_value fuel' s with
      | Some (v, rest) =>
          match skip_ws rest with
          | String ","%char rest' =>
              match parse_elements fuel' rest' with
              | Some (vs, rest'') => Some (v :: vs, rest'')
              | None => None
              end
          | String "]"%char rest' => Some ([v], rest')
          | _ => None
          end
      | None => None
      end
  end
with parse_members (fuel : nat) (s : string) (acc : list (string * pyval)) {struct fuel}
    : option (list (string * pyval) * string) :=
  match fuel with
  | O => None
  | S fuel' =>
      match skip_ws s with
      | String c rest =>
          if Ascii.eqb c (ascii_of_nat 34) then
            match parse_string rest with
            | Some (key, rest1) =>
                match skip_ws rest1 with
                | String ":"%char rest2 =>
                    match parse_value fuel' rest2 with
                    | Some (v, rest3) =>
                        match skip_ws rest3 with
                        | String ","%char rest4 =>
                            parse_members fuel' rest4 (dict_set acc key v)
                        | String "}"%char rest4 => Some (dict_set acc key v, rest4)
                        | _ => None
                        end
                    | None => None
                    end
                | _ => None
                end
            | None => None
            end
          else None
      | EmptyString => None
      end
  end.

Definition loads (s : string) : option pyval :=
  match parse_value (2 * String.length s + 2) s with
  | Some (v, rest) =>
      match skip_ws rest with
      | EmptyString => Some v
      | _ => None
      end
  | None => None
  end.

(** As [json.loads] answers: the value, or [json.JSONDecodeError]. *)
Definition json_loads (s : string) : outcome pyerr pyval :=
  match loads s with
  | Some v => Returned v
  | None => Raised (PyError "JSONDecodeError" "Expecting value")
  end.

Definition quoted (s : string) : string := (dq ++ s ++ dq)%string.

(** [json.dumps(v, ensure_ascii=False, separators=(",", ":"))] on the values
    [loads] produces. *)
Fixpoint dumps (v : pyval) : string :=
  match v with
  | PNone => "null"
  | PBool true => "true"
  | PBool false => "false"
  | PInt z => decimal z
  | PStr s => quoted s
  | PList l => ("[" ++ join "," (map dumps l) ++ "]")%string
  | PDict d =>
      ("{" ++ join "," (map (fun kv => (quoted (fst kv) ++ ":" ++ dumps (snd kv))%string) d)
       ++ "}")%string
  end.

End MiniJson.

(** ** External collaborators *)

Local Open Scope py_scope.

(** Library functions of the interpreter and the services behind the
    pipeline.  A service answers a call from the history so far and the
    arguments of the call, so that it may answer differently each time. *)
Record services : Type := mkServices {
  (* json.loads: the value, or the exception raised: json.JSONDecodeError for
     text that is not JSON, another one otherwise (ValueError for an integer
     of more than 4300 digits, RecursionError) *)
  json_loads : string -> outcome pyerr pyval;
  (* json.dumps(v, ensure_ascii=False, separators=(",", ":")) *)
  json_dumps : pyval -> string;
  (* yaml.safe_load *)
  yaml_safe_load : string -> outcome pyerr pyval;
  (* repr of lists and dicts inside an f-string *)
  repr_container : pyval -> string;
  (* config.get_value(key) *)
  config_get_value : history -> string -> outcome pyerr string;
  (* config.get_value("NEXT_STAGE"), read once when writeToBlob is loaded *)
  NEXT_STAGE : string;
  (* blob_client.download_blob().readall() for (container, path) *)
  download_blob : history -> string -> string -> outcome pyerr string;
  (* blob_client.upload_blob(data, overwrite=True) for (container, path) *)
  upload_blob : history -> string -> string -> string -> outcome pyerr unit;
  (* client.begin_analyze_document("prebuilt-read", ...).result().paragraphs:
     None, or the content of each paragraph *)
  analyze_document : history -> string -> outcome pyerr (option (list string));
  (* config.get_prompts_cosmos_document_id() and
     config.get_prompts_cosmos_config(): the settings read, or the exception
     of the one that raises *)
  cosmos_settings : history -> outcome pyerr pyval;
  (* _create_openai_client() *)
  create_openai_client : history -> outcome pyerr unit;
  (* save_chat_message(conversation_id, role, content) *)
  save_chat_message : history -> pyval -> string -> pyval -> outcome pyerr unit;
  (* client.chat.completions.create(...).choices[0].message.content *)
  chat_completion : history -> pyval -> string -> outcome pyerr pyval;
  (* the instance id the host gives the i-th sub-orchestration of a parent *)
  child_instance_id : string -> nat -> string
}.

Definition fstr (svc : services) (v : pyval) : string :=
  py_str (repr_container svc) v.

(** *** pipelineUtils/blob_functions.py *)

Definition get_blob_content (svc : services) (container_name blob_path : string)
    : Act string :=
  call (Call "download_blob" [PStr container_name; PStr blob_path])
       (fun h => download_blob svc h container_name blob_path).

Definition write_to_blob (svc : services) (container_name blob_path data : string)
    : Act bool :=
  call (Call "upload_blob" [PStr container_name; PStr blob_path; PStr data])
       (fun h => upload_blob svc h container_name blob_path data) ;;;
  ret true.

(** *** pipelineUtils/prompts.py *)

(** The YAML file of the prompts; the JSON round trip of the parsed document
    is the identity on these values. *)
Definition load_prompts_from_blob (svc : services) (prompt_file : string)
    : Act pyval :=
  try_except
    (prompt_yaml <- get_blob_content svc "prompts" prompt_file ;;
     lift_outcome (yaml_safe_load svc prompt_yaml))
    (fun e => raise (PyError "RuntimeError"
                       ("Failed to load prompts file '" ++ prompt_file
                        ++ "' from blob storage. Error: " ++ err_msg e)%string)).

(** [load_prompts_from_cosmos(document_id, partition)] as [load_prompts]
    calls it: prompts.py binds no function of that name (the definition that
    was meant is not one), so the call raises [NameError]. *)
Definition load_prompts_from_cosmos : Act pyval :=
  raise (PyError "NameError" "name 'load_prompts_from_cosmos' is not defined").

(** [key not in prompts]: membership as the type of [prompts] defines it. *)
Definition py_contains (v : pyval) (key : string) : outcome pyerr bool :=
  match v with
  | PDict d => Returned (match dict_get d key with Some _ => true | None => false end)
  | PList l =>
      Returned (existsb (fun x => match x with PStr s => String.eqb s key | _ => false end) l)
  | PStr s => Returned (match String.index 0 key s with Some _ => true | None => false end)
  | _ => Raised (PyError "TypeError" "argument is not iterable")
  end.

Definition load_prompts (svc : services) : Act pyval :=
  prompt_source <- call (Call "config.get_value" [PStr "PROMPT_FILE"])
                        (fun h => config_get_value svc h "PROMPT_FILE") ;;
  if String.eqb prompt_source "" then
    raise (PyError "ValueError" "Environment variable PROMPT_FILE is not set.")
  else
    prompts <- (if String.eqb (upper prompt_source) "COSMOS"
                then call (Call "config.cosmos_settings" []) (cosmos_settings svc) ;;;
                     load_prompts_from_cosmos
                else load_prompts_from_blob svc prompt_source) ;;
    has_system <- lift_outcome (py_contains prompts "system_prompt") ;;
    if negb has_system then
      raise (PyError "KeyError" "Missing required prompt key: system_prompt")
    else
      has_user <- lift_outcome (py_contains prompts "user_prompt") ;;
      if negb has_user then
        raise (PyError "KeyError" "Missing required prompt key: user_prompt")
      else ret prompts.

(** *** pipelineUtils/azure_openai.py *)

Definition run_prompt (svc : services) (pipeline_id system_prompt : pyval)
    (user_prompt : string) : Act pyval :=
  call (Call "create_openai_client" []) (create_openai_client svc) ;;;
  call (Call "save_chat_message" [pipeline_id; PStr "system"; system_prompt])
       (fun h => save_chat_message svc h pipeline_id "system" system_prompt) ;;;
  call (Call "save_chat_message" [pipeline_id; PStr "user"; PStr user_prompt])
       (fun h => save_chat_message svc h pipeline_id "user" (PStr user_prompt)) ;;;
  try_except
    (assistant_msg <- call (Call "chat_completion" [system_prompt; PStr user_prompt])
                           (fun h => chat_completion svc h system_prompt user_prompt) ;;
     call (Call "save_chat_message" [pipeline_id; PStr "assistant"; assistant_msg])
          (fun h => save_chat_message svc h pipeline_id "assistant" assistant_msg) ;;;
     ret assistant_msg)
    (fun _ => ret PNone).

(** [obj[key]] for a string key. *)
Definition subscript (obj : pyval) (key : string) : outcome pyerr pyval :=
  match obj with
  | PDict d =>
      match dict_get d key with
      | Some v => Returned v
      | None => Raised (PyError "KeyError" key)
      end
  | PStr _ => Raised (PyError "TypeError" "string indices must be integers")
  | PList _ => Raised (PyError "TypeError" "list indices must be integers or slices")
  | _ => Raised (PyError "TypeError" "object is not subscriptable")
  end.

(** [obj.get(key)], defined on dicts only. *)
Definition py_get (obj : pyval) (key : string) : outcome pyerr pyval :=
  match obj with
  | PDict d => Returned (dict_get_or d key PNone)
  | _ => Raised (PyError "AttributeError" "object has no attribute 'get'")
  end.

(** *** os.path (posixpath) *)

(** [s.rfind(c)]: the position of the last [c] in [s]. *)
Fixpoint rfind (c : ascii) (s : string) : option nat :=
  match s with
  | EmptyString => None
  | String a s' =>
      match rfind c s' with
      | Some i => Some (S i)
      | None => if Ascii.eqb a c then Some O else None
      end
  end.

Definition after_sep (p : string) : nat :=
  match rfind "/"%char p with Some i => S i | None => O end.

Definition basename (p : string) : string := drop (after_sep p) p.

Fixpoint all_dots (s : string) : bool :=
  match s with
  | EmptyString => true
  | String c s' => Ascii.eqb c "."%char && all_dots s'
  end.

(** [os.path.splitext]: split at the last dot of the last component, unless
    that component has nothing but dots before it. *)
Definition splitext (p : string) : string * string :=
  match rfind "."%char p with
  | Some dot =>
      if (after_sep p <=? dot)%nat then
        if all_dots (take (dot - after_sep p) (drop (after_sep p) p))
        then (p, EmptyString)
        else (take dot p, drop dot p)
      else (p, EmptyString)
  | None => (p, EmptyString)
  end.

(** ** activities/runDocIntel.py *)

Module runDocIntel.

Definition normalize_blob_name (container raw_name : string) : string :=
  if startswith raw_name (container ++ "/")%string
  then drop (String.length container + 1) raw_name
  else raw_name.

(** The body of the [try] block.  The local [paragraphs] is bound only when
    [result.paragraphs] is truthy; returning it unbound raises. *)
Definition analyze (svc : services) (blobObj : pyval) : Act pyval :=
  container <- lift_outcome (subscript blobObj "container") ;;
  raw_name <- lift_outcome (subscript blobObj "name") ;;
  match container, raw_name with
  | PStr container, PStr raw_name =>
      let blob_name := normalize_blob_name container raw_name in
      blob_content <- get_blob_content svc container blob_name ;;
      result_paragraphs <-
        call (Call "begin_analyze_document" [PStr blob_content])
             (fun h => analyze_document svc h blob_content) ;;
      let paragraphs : option string :=
        match result_paragraphs with
        | Some (p :: ps) => Some (join nl (p :: ps))
        | _ => None
        end in
      match paragraphs with
      | Some text => ret (PStr text)
      | None => raise (PyError "UnboundLocalError"
                         "cannot access local variable 'paragraphs'")
      end
  | _, PStr _ => raise (PyError "TypeError" "unsupported operand type(s) for +")
  | _, _ => raise (PyError "AttributeError" "object has no attribute 'startswith'")
  end.

Definition extract_text_from_blob (svc : services) (blobObj : pyval) : Act pyval :=
  blobObj <- match blobObj with
             | PStr s =>
                 match json_loads svc s with
                 | Returned v => ret v
                 | Raised _ =>
                     raise (PyError "TypeError"
                              "runDocIntel expected dict or JSON string; got str that failed JSON decode")
                 end
             | _ => ret blobObj
             end ;;
  if negb (isinstance_dict blobObj) then
    raise (PyError "TypeError" "runDocIntel expected dict")
  else
    try_except (analyze svc blobObj) (fun _ => ret PNone).

End runDocIntel.

(** ** activities/callAoai.py *)

Module callAoai.

(** Lines 50-56 of [run]: trim, and unwrap a fenced response. *)
Definition unwrap_fence (response_content : string) : string :=
  let trimmed := strip response_content in
  if startswith trimmed "```" then
    let trimmed := strip_by is_backtick trimmed in
    if startswith (lower trimmed) "json" then strip (drop 4 trimmed) else trimmed
  else trimmed.

Definition is_json_decode_error (e : pyerr) : bool :=
  String.eqb (err_type e) "JSONDecodeError".

(** Lines 50-66 of [run]: the string returned for a response of the model.
    [except json.JSONDecodeError] catches that exception only; any other
    exception of [json.loads] leaves the block. *)
Definition normalize (svc : services) (response_content : string)
    : outcome pyerr string :=
  let trimmed := unwrap_fence response_content in
  match json_loads svc trimmed with
  | Returned parsed => Returned (json_dumps svc parsed)
  | Raised e => if is_json_decode_error e then Returned trimmed else Raised e
  end.

(** The body of the [try] block. *)
Definition call_model (svc : services) (inputData instance_id : pyval) : Act pyval :=
  match inputData with
  | PDict d =>
      let text_result := dict_get_or d "text_result" PNone in
      if negb (truthy text_result) then
        raise (PyError "ValueError" "callAoai requires 'text_result' to be a non-empty string.")
      else
        prompt_json <- load_prompts svc ;;
        system_prompt <- lift_outcome (py_get prompt_json "system_prompt") ;;
        user_prompt_template <- lift_outcome (py_get prompt_json "user_prompt") ;;
        if negb (truthy system_prompt) || negb (truthy user_prompt_template) then
          raise (PyError "KeyError"
                   "Prompt configuration must include 'system_prompt' and 'user_prompt'.")
        else
          match user_prompt_template with
          | PStr template =>
              let full_user_prompt :=
                (rstrip template ++ nl ++ nl ++ fstr svc text_result)%string in
              response_content <- run_prompt svc instance_id system_prompt full_user_prompt ;;
              match response_content with
              | PNone => raise (PyError "RuntimeError" "Azure OpenAI returned no content.")
              | PStr content =>
                  json_str <- lift_outcome (normalize svc content) ;;
                  ret (PStr json_str)
              | _ => raise (PyError "AttributeError" "object has no attribute 'strip'")
              end
          | _ => raise (PyError "AttributeError" "object has no attribute 'rstrip'")
          end
  | _ => raise (PyError "TypeError" "callAoai expected dict input")
  end.

Definition run (svc : services) (inputData : pyval) : Act pyval :=
  let instance_id :=
    match inputData with PDict d => dict_get_or d "instance_id" PNone | _ => PNone end in
  try_except (call_model svc inputData instance_id) (fun _ => ret PNone).

End callAoai.

(** ** activities/writeToBlob.py *)

Module writeToBlob.

(** The body of the [try] block. *)
Definition write_output (svc : services) (args : pyval) : Act pyval :=
  match args with
  | PDict d =>
      match dict_get_or d "json_str" PNone with
      | PStr json_str =>
          if String.eqb (strip json_str) "" then
            raise (PyError "ValueError"
                     "writeToBlob requires 'json_str' to be a non-empty string.")
          else
            blob_name <- lift_outcome (subscript args "blob_name") ;;
            match blob_name with
            | PStr name =>
                let sourcefile := fst (splitext (basename name)) in
                let output_blob :=
                  (fstr svc (dict_get_or d "instance_id" (PStr "general"))
                   ++ "/" ++ sourcefile ++ "-output.json")%string in
                result <- write_to_blob svc (NEXT_STAGE svc) output_blob json_str ;;
                if (result : bool) then
                  ret (PDict [("success", PBool true);
                              ("blob_name", blob_name);
                              ("output_blob", PStr output_blob)])
                else
                  ret (PDict [("success", PBool false);
                              ("error", PStr "Failed to write output")])
            | _ => raise (PyError "TypeError" "expected str, bytes or os.PathLike object")
            end
      | _ => raise (PyError "ValueError"
                      "writeToBlob requires 'json_str' to be a non-empty string.")
      end
  | _ => raise (PyError "AttributeError" "object has no attribute 'get'")
  end.

(** The [except] handler: it reads [args['blob_name']] again. *)
Definition report_error (svc : services) (args : pyval) (e : pyerr) : Act pyval :=
  blob_name <- lift_outcome (subscript args "blob_name") ;;
  ret (PDict [("success", PBool false);
              ("error", PStr ("Error writing output for blob " ++ fstr svc blob_name
                              ++ ": " ++ err_msg e)%string)]).

Definition extract_text_from_blob (svc : services) (args : pyval) : Act pyval :=
  try_except (write_output svc args) (report_error svc args).

End writeToBlob.

(** ** function_app.py: the orchestrators *)

Module function_app.

(** The record [_track_event] logs: [custom_dimensions] under the event name. *)
Definition tracked (event_name : string)
    (correlation_id instance_id : option string) (kwargs : list (string * pyval))
    : event :=
  let dim (key : string) (v : option string) : list (string * pyval) :=
    match v with
    | Some s => if String.eqb s "" then [] else [(key, PStr s)]
    | None => []
    end in
  EvTrack event_name
    ([("event", PStr event_name)] ++ dim "correlationId" correlation_id
     ++ dim "instanceId" instance_id ++ kwargs).

Definition _track_event (event_name : string)
    (correlation_id instance_id : option string) (kwargs : list (string * pyval))
    : Orch unit :=
  emit (tracked event_name correlation_id instance_id kwargs).

(** What an orchestrator sees of its own instance. *)
Record context : Type := mkContext {
  instance_id : string;
  parent_instance_id : option string
}.

Definition py_opt (o : option string) : pyval :=
  match o with Some s => PStr s | None => PNone end.

Definition doc_retry : RetryOptions := mkRetryOptions 5 3 2 30000.
Definition aoai_retry : RetryOptions := mkRetryOptions 10 3 2 60000.
Definition write_retry : RetryOptions := mkRetryOptions 5 5 2 30000.

Definition orch {A} (o : outcome pyerr A) : Orch A :=
  lift_outcome match o with Returned a => Returned a | Raised e => Raised (OrchRaised e) end.

(** [context.parent_instance_id or context.instance_id]. *)
Definition destination_instance (ctx : context) : string :=
  match parent_instance_id ctx with
  | Some p => if String.eqb p "" then instance_id ctx else p
  | None => instance_id ctx
  end.

(** The sub-orchestrator [ProcessBlob]: one pass through the generator, from
    its start to its return or to the exception that leaves it.  (The host
    runs the generator again from the start each time a task of it has
    completed, and answers the tasks already done from its history; what is
    outside the tasks, as the record of the start, is then run again.  The
    trace of one pass says which tasks are scheduled and in which order, not
    how often a record is logged.) *)
Definition process_blob (svc : services) (ctx : context) (blob_metadata : pyval)
    : Orch pyval :=
  let sub_orchestration_id := instance_id ctx in
  let parent_id := parent_instance_id ctx in
  _track_event "ProcessBlobStarted" None (Some sub_orchestration_id)
    [("parentInstanceId", py_opt parent_id);
     ("blobName", match blob_metadata with
                  | PDict d => dict_get_or d "name" PNone
                  | _ => PStr (fstr svc blob_metadata)
                  end)] ;;;
  text_result <- call_activity_with_retry "runDocIntel" doc_retry
                   (runDocIntel.extract_text_from_blob svc) blob_metadata ;;
  let call_aoai_input :=
    PDict [("text_result", text_result); ("instance_id", PStr sub_orchestration_id)] in
  json_str <- call_activity_with_retry "callAoai" aoai_retry
                (callAoai.run svc) call_aoai_input ;;
  blob_name <- orch (subscript blob_metadata "name") ;;
  task_result <- call_activity_with_retry "writeToBlob" write_retry
                   (writeToBlob.extract_text_from_blob svc)
                   (PDict [("json_str", json_str);
                           ("blob_name", blob_name);
                           ("instance_id", PStr (destination_instance ctx))]) ;;
  let result_payload :=
    PDict [("blob", blob_metadata);
           ("text_result", text_result);
           ("task_result", task_result)] in
  _track_event "ProcessBlobCompleted" None (Some sub_orchestration_id)
    [("parentInstanceId", py_opt parent_id);
     ("success", match task_result with
                 | PDict d => dict_get_or d "success" PNone | _ => PNone end);
     ("outputBlob", match task_result with
                    | PDict d => dict_get_or d "output_blob" PNone | _ => PNone end)] ;;;
  ret result_payload.

(** [for blob_metadata in input_data]: what iterating the input yields. *)
Fixpoint chars (s : string) : list pyval :=
  match s with
  | EmptyString => []
  | String c s' => PStr (String c EmptyString) :: chars s'
  end.

Definition py_iter (v : pyval) : outcome pyerr (list pyval) :=
  match v with
  | PList l => Returned l
  | PDict d => Returned (map (fun kv => PStr (fst kv)) d)
  | PStr s => Returned (chars s)
  | _ => Raised (PyError "TypeError" "object is not iterable")
  end.

(** [context.call_sub_orchestrator("ProcessBlob", blob_metadata)] for the
    [i]-th element of the input. *)
Definition call_sub_orchestrator (svc : services) (ctx : context)
    (numbered : nat * pyval) : Orch pyval :=
  let child := child_instance_id svc (instance_id ctx) (fst numbered) in
  orchestration child
    (process_blob svc (mkContext child (Some (instance_id ctx))) (snd numbered)).

(** The orchestrator [run]. *)
Definition run (svc : services) (ctx : context) (sched : list nat) (input_data : pyval)
    : Orch pyval :=
  blobs <- orch (py_iter input_data) ;;
  let sub_tasks := map (call_sub_orchestrator svc ctx) (number_from 0 blobs) in
  results <- task_all sched sub_tasks ;;
  _track_event "OrchestrationCompleted" None (Some (instance_id ctx))
    [("resultCount", PInt (Z.of_nat (length results)))] ;;;
  ret (PList results).

(** A batch instance: [run] under the host, which records its terminal state. *)
Definition batch (svc : services) (batch_id : string) (sched : list nat)
    (input_data : pyval) : Orch pyval :=
  orchestration batch_id (run svc (mkContext batch_id None) sched input_data).

End function_app.

(** ** function_app.py: the HTTP surface

    The handlers work on the decoded request and on the state they share:
    the rate limiter's deque and the instances the durable client knows.
    Readings of the monotonic clock are integers. *)

Module http.

Record HttpRequest : Type := mkRequest {
  headers : list (string * string);   (* the header fields, as received *)
  params : list (string * string);
  get_json : option pyval   (* None: the body is not JSON (ValueError) *)
}.

(** A [datetime]: the reading of calendar and clock, counted from
    [datetime.min], and the offset from UTC of an offset-aware one. *)
Record datetime : Type := mkDatetime {
  wall : N;
  utcoffset : option Z    (* None: a naive datetime *)
}.

Definition is_aware (d : datetime) : bool :=
  match utcoffset d with Some _ => true | None => false end.

Definition datetime_min : datetime := mkDatetime 0 None.

(** [d.replace(tzinfo=None)]. *)
Definition replace_tzinfo_none (d : datetime) : datetime := mkDatetime (wall d) None.

(** The place on the time line by which two datetimes of one kind compare:
    the reading of a naive one, the reading in UTC of an aware one. *)
Definition instant (d : datetime) : Z :=
  match utcoffset d with
  | Some offset => Z.of_N (wall d) - offset
  | None => Z.of_N (wall d)
  end.

Definition type_error_naive_aware : pyerr :=
  PyError "TypeError" "can't compare offset-naive and offset-aware datetimes".

(** [a >= b]: a naive and an aware datetime do not compare. *)
Definition datetime_ge (a b : datetime) : outcome pyerr bool :=
  if Bool.eqb (is_aware a) (is_aware b) then Returned (instant b <=? instant a)%Z
  else Raised type_error_naive_aware.

Record HttpResponse : Type := mkResponse {
  status_code : Z;
  payload : list (string * pyval)
}.

(** What [client.get_status] reports for an instance. *)
Record DurableOrchestrationStatus : Type := mkStatus {
  instance_id : string;
  name : string;
  runtime_status : option string;
  created_time : option datetime;
  last_updated_time : option datetime;
  input : pyval;
  output : pyval
}.

(** What a handler takes from its surroundings. *)
Record environment : Type := mkEnvironment {
  API_KEY : option string;          (* config.get_api_key() *)
  uuid4 : string;                   (* str(uuid.uuid4()) *)
  monotonic : Z;                    (* time.monotonic() *)
  utcnow : datetime;                (* the host's clock when an instance starts *)
  new_instance_id : string;         (* the id the host gives a new instance *)
  check_status_payload : pyval;     (* decoded check-status body, {} if undecodable *)
  fromisoformat : string -> option datetime;  (* datetime.fromisoformat, None: ValueError *)
  isoformat : datetime -> string;   (* datetime.isoformat *)
  py_int : string -> option Z       (* int(text), None: ValueError *)
}.

Record app_state : Type := mkState {
  rate_hits : list Z;
  instances : list DurableOrchestrationStatus
}.

Fixpoint lookup (l : list (string * string)) (k : string) : option string :=
  match l with
  | [] => None
  | (k', v) :: l' => if String.eqb k' k then Some v else lookup l' k
  end.

Definition _json_response (success : bool) (message : string) (status_code : Z)
    (correlation_id : string) (data : option (list (string * pyval))) : HttpResponse :=
  mkResponse status_code
    ([("success", PBool success);
      ("message", PStr message);
      ("correlationId", PStr correlation_id)]
     ++ match data with
        | Some (kv :: d) => [("data", PDict (kv :: d))]
        | _ => []
        end).

(** [req.headers.get(name)] for the ASCII names the code asks for: the
    headers of [azure.functions] keep the fields under their names in lower
    case and look a name up in lower case, so of two fields of one name the
    later one counts. *)
Fixpoint header_get (headers : list (string * string)) (name : string) : option string :=
  match headers with
  | [] => None
  | (k, v) :: rest =>
      match header_get rest name with
      | Some later => Some later
      | None => if String.eqb (lower k) (lower name) then Some v else None
      end
  end.

(** [a or b] on optional strings. *)
Definition py_or (a b : option string) : option string :=
  match a with
  | Some s => if String.eqb s "" then b else a
  | None => b
  end.

Definition _authenticate_request (env : environment) (req : HttpRequest)
    (correlation_id : string) : bool * option HttpResponse :=
  match API_KEY env with
  | None => (true, None)
  | Some key =>
      let supplied_key :=
        py_or (py_or (header_get (headers req) "x-api-key")
                     (header_get (headers req) "X-API-Key"))
              (lookup (params req) "code") in
      let supplied_key := option_map strip supplied_key in
      match supplied_key with
      | Some k =>
          if String.eqb k key then (true, None)
          else (false, Some (_json_response false "Unauthorized." 401 correlation_id None))
      | None => (false, Some (_json_response false "Unauthorized." 401 correlation_id None))
      end
  end.

(** [while hits and now - hits[0] > window_seconds: hits.popleft()].  The
    limit is positive at both call sites (20 and 60). *)
Fixpoint expire (hits : list Z) (now window_seconds : Z) : list Z :=
  match hits with
  | [] => []
  | t :: hits' => if (window_seconds <? now - t)%Z then expire hits' now window_seconds else hits
  end.

(** The limiter, for the limits the handlers pass (20 and 60): with a
    positive limit the deque is not empty where [hits[0]] is read.  The
    readings of [time.monotonic()] are floats in the code; here they are
    whole ticks of the clock, so what is proved of the limiter is about the
    order of the readings and the count of the hits, not about rounding. *)
Definition _enforce_rate_limit (hits : list Z) (limit : nat) (window_seconds now : Z)
    : (bool * option Z) * list Z :=
  let hits := expire hits now window_seconds in
  if (limit <=? length hits)%nat then
    ((false, Some (Z.max 0 (window_seconds - (now - hd now hits)))), hits)
  else ((true, None), hits ++ [now]).

Definition required : list string := ["name"; "url"; "container"].

(** [k not in b or not isinstance(b[k], str) or not b[k].strip()], negated. *)
Definition has_text (b : list (string * pyval)) (k : string) : bool :=
  match dict_get b k with
  | Some (PStr s) => negb (String.eqb (strip s) "")
  | _ => false
  end.

(** The validation loop over [enumerate(blobs)]: the message of the first
    entry that is refused, if any. *)
Fixpoint first_refusal (i : nat) (blobs : list pyval) : option string :=
  match blobs with
  | [] => None
  | b :: blobs' =>
      match b with
      | PDict d =>
          if forallb (has_text d) required then first_refusal (S i) blobs'
          else Some ("Invalid request: blobs[" ++ decimal (Z.of_nat i)
                     ++ "] must contain non-empty string keys ('name', 'url', 'container').")%string
      | _ => Some ("Invalid request: blobs[" ++ decimal (Z.of_nat i)
                   ++ "] must be an object.")%string
      end
  end.

(** [client.start_new('orchestrator', client_input=blobs)]. *)
Definition start_new (env : environment) (known : list DurableOrchestrationStatus)
    (orchestrator : string) (client_input : pyval) : list DurableOrchestrationStatus :=
  known ++ [mkStatus (new_instance_id env) orchestrator (Some "Pending")
              (Some (utcnow env)) (Some (utcnow env)) client_input PNone].

Definition start_orchestrator_http (env : environment) (st : app_state) (req : HttpRequest)
    : outcome pyerr HttpResponse * app_state :=
  let correlation_id := uuid4 env in
  match _authenticate_request env req correlation_id with
  | (false, Some auth_response) => (Returned auth_response, st)
  | (false, None) => (Raised (PyError "TypeError" "no response"), st)
  | (true, _) =>
      match _enforce_rate_limit (rate_hits st) 20 60 (monotonic env) with
      | ((false, retry_after), hits) =>
          (Returned (_json_response false
                       ("Too many requests. Try again in "
                        ++ decimal (match retry_after with Some r => r | None => 0%Z end)
                        ++ " seconds.")%string 429 correlation_id None),
           mkState hits (instances st))
      | ((true, _), hits) =>
          let st := mkState hits (instances st) in
          match get_json req with
          | None =>
              (Returned (_json_response false "Invalid JSON payload." 400 correlation_id None), st)
          | Some body =>
              match py_get body "blobs" with
              | Raised e => (Raised e, st)
              | Returned (PList (b :: blobs)) =>
                  match first_refusal 0 (b :: blobs) with
                  | Some message =>
                      (Returned (_json_response false message 400 correlation_id None), st)
                  | None =>
                      let known := start_new env (instances st) "orchestrator"
                                     (PList (b :: blobs)) in
                      let data := [("instanceId", PStr (new_instance_id env));
                                   ("durableStatus", check_status_payload env)] in
                      (Returned (_json_response true "Orchestration started." 202
                                   correlation_id (Some data)),
                       mkState hits known)
                  end
              | Returned _ =>
                  (Returned (_json_response false
                               "Invalid request: 'blobs' must be a non-empty array."
                               400 correlation_id None), st)
              end
          end
      end
  end.

(** An [int(s)] for the examples: a decimal literal in ASCII digits, with
    white space around it, a sign, single underscores between digits, and at
    most 4300 digits. *)
Fixpoint parse_decimal (s : string) (acc : Z) (after_digit : bool) (digits : nat)
    : option Z :=
  match s with
  | EmptyString => if after_digit && (digits <=? 4300)%nat then Some acc else None
  | String c s' =>
      if MiniJson.is_digit c then
        parse_decimal s' (10 * acc + Z.of_nat (nat_of_ascii c - 48)) true (S digits)
      else if Ascii.eqb c "_"%char && after_digit then parse_decimal s' acc false digits
      else None
  end.

Definition ascii_int (s : string) : option Z :=
  match strip s with
  | String "+"%char digits => parse_decimal digits 0 false 0
  | String "-"%char digits => option_map Z.opp (parse_decimal digits 0 false 0)
  | digits => parse_decimal digits 0 false 0
  end.

(** The sort key [s.created_time or datetime.min]. *)
Definition created_key (s : DurableOrchestrationStatus) : datetime :=
  match created_time s with Some t => t | None => datetime_min end.

Definition created_instant (s : DurableOrchestrationStatus) : Z :=
  instant (created_key s).

(** The order of a stable sort on the keys, largest key first. *)
Fixpoint insert_newest (x : DurableOrchestrationStatus)
    (sorted : list DurableOrchestrationStatus) : list DurableOrchestrationStatus :=
  match sorted with
  | [] => [x]
  | y :: sorted' =>
      if (created_instant y <=? created_instant x)%Z then x :: y :: sorted'
      else y :: insert_newest x sorted'
  end.

Definition sort_newest_first (statuses : list DurableOrchestrationStatus)
    : list DurableOrchestrationStatus :=
  fold_right insert_newest [] statuses.

(** The keys compare with each other: all are naive or all are aware. *)
Definition keys_compare (statuses : list DurableOrchestrationStatus) : bool :=
  forallb (fun s => is_aware (created_key s)) statuses
  || forallb (fun s => negb (is_aware (created_key s))) statuses.

(** [statuses.sort(key=lambda s: s.created_time or datetime.min,
    reverse=True)]: the sort has to compare a naive key with an aware one as
    soon as both kinds are there, and raises. *)
Definition sort_statuses (statuses : list DurableOrchestrationStatus)
    : outcome pyerr (list DurableOrchestrationStatus) :=
  if keys_compare statuses then Returned (sort_newest_first statuses)
  else Raised type_error_naive_aware.

(** [[s for s in statuses if s.created_time and
    s.created_time.replace(tzinfo=None) >= since_time]]. *)
Fixpoint created_since (since_time : datetime) (statuses : list DurableOrchestrationStatus)
    : outcome pyerr (list DurableOrchestrationStatus) :=
  match statuses with
  | [] => Returned []
  | s :: statuses' =>
      match created_time s with
      | None => created_since since_time statuses'
      | Some t =>
          match datetime_ge (replace_tzinfo_none t) since_time with
          | Raised e => Raised e
          | Returned keep =>
              match created_since since_time statuses' with
              | Raised e => Raised e
              | Returned kept => Returned (if keep then s :: kept else kept)
              end
          end
      end
  end.

(** Lines 313-321: the statuses that are listed, in the order of the listing. *)
Definition select_recent (since_time : option datetime) (limit : Z)
    (statuses : list DurableOrchestrationStatus)
    : outcome pyerr (list DurableOrchestrationStatus) :=
  match (match since_time with
         | Some t => created_since t statuses
         | None => Returned statuses
         end) with
  | Raised e => Raised e
  | Returned statuses =>
      match sort_statuses statuses with
      | Raised e => Raised e
      | Returned sorted => Returned (firstn (Z.to_nat limit) sorted)
      end
  end.

Definition summary (env : environment) (status : DurableOrchestrationStatus) : pyval :=
  PDict [("instanceId", PStr (instance_id status));
         ("name", PStr (name status));
         ("runtimeStatus", match runtime_status status with
                           | Some r => if String.eqb r "" then PNone else PStr r
                           | None => PNone
                           end);
         ("createdTime", match created_time status with
                         | Some t => PStr (isoformat env t) | None => PNone end);
         ("lastUpdatedTime", match last_updated_time status with
                             | Some t => PStr (isoformat env t) | None => PNone end);
         ("outputAvailable", PBool (match output status with PNone => false | _ => true end))].

(** The [limit] query parameter: default 20, clamped to 1..100. *)
Definition parse_limit (env : environment) (limit_param : option string) : option Z :=
  let limit :=
    match limit_param with
    | Some s => if String.eqb s "" then Some 20%Z else py_int env s
    | None => Some 20%Z
    end in
  option_map (fun limit => Z.max 1 (Z.min limit 100)) limit.

(** [get_status_all] is the answer of [client.get_status_all()].  The
    comparisons of datetimes are outside every [try] block. *)
Definition list_orchestration_history (env : environment) (req : HttpRequest)
    (get_status_all : outcome pyerr (list DurableOrchestrationStatus))
    : outcome pyerr HttpResponse :=
  let correlation_id := uuid4 env in
  match _authenticate_request env req correlation_id with
  | (false, Some auth_response) => Returned auth_response
  | (false, None) => Returned (_json_response false "Unauthorized." 401 correlation_id None)
  | (true, _) =>
      match parse_limit env (lookup (params req) "limit") with
      | None => Returned (_json_response false "Query parameter 'limit' must be an integer."
                            400 correlation_id None)
      | Some limit =>
          let since_param := lookup (params req) "since" in
          let since_time : outcome unit (option datetime) :=
            match since_param with
            | Some s =>
                if String.eqb s "" then Returned None
                else match fromisoformat env s with
                     | Some t => Returned (Some t)
                     | None => Raised tt
                     end
            | None => Returned None
            end in
          match since_time with
          | Raised _ =>
              Returned
                (_json_response false
                   "Query parameter 'since' must be ISO-8601 (e.g., 2025-11-11T15:00:00)."
                   400 correlation_id None)
          | Returned since_time =>
              match get_status_all with
              | Raised _ =>
                  Returned (_json_response false "Failed to retrieve orchestration history."
                              500 correlation_id None)
              | Returned statuses =>
                  match select_recent since_time limit statuses with
                  | Raised e => Raised e
                  | Returned listed =>
                      let items := map (summary env) listed in
                      let data := [("items", PList items); ("continuationToken", PNone)] in
                      Returned (_json_response true "History retrieved." 200
                                  correlation_id (Some data))
                  end
              end
          end
      end
  end.

End http.

(** ** Observing a history *)

Definition activity_names (tr : list event) : list string :=
  flat_map (fun ev => match ev with EvActivity n _ _ => [n] | _ => [] end) tr.

Definition timers (tr : list event) : list Z :=
  flat_map (fun ev => match ev with EvTimer ms => [ms] | _ => [] end) tr.

Definition service_calls (tr : list event) : list service_call :=
  flat_map (fun ev => match ev with EvCall c => [c] | _ => [] end) tr.

Definition terminal_events (tr : list event) : list (string * terminal_status) :=
  flat_map (fun ev => match ev with EvTerminal i st => [(i, st)] | _ => [] end) tr.

(** The destination of a write to storage: (container, key). *)
Definition upload_of (c : service_call) : list (string * string) :=
  match c with
  | Call service args =>
      if String.eqb service "upload_blob" then
        match args with
        | [PStr container; PStr key; _] => [(container, key)]
        | _ => []
        end
      else []
  end.

Definition uploads (tr : list event) : list (string * string) :=
  flat_map upload_of (service_calls tr).

(** ** Concrete collaborators, to run the model *)

Module Examples.

Definition prompts : pyval :=
  PDict [("system_prompt", PStr "Extract the fields as JSON.");
         ("user_prompt", PStr "Document:")].

(** The model's answer: a fenced JSON object with one field [a] = 1. *)
Definition inner_json : string := ("{" ++ dq ++ "a" ++ dq ++ ":1}")%string.
Definition fenced_answer : string := ("```json" ++ nl ++ inner_json ++ nl ++ "```")%string.

(** Every collaborator answers; analysis finds two paragraphs. *)
Definition svc_ok : services := {|
  json_loads := MiniJson.json_loads;
  json_dumps := MiniJson.dumps;
  yaml_safe_load := fun _ => Returned prompts;
  repr_container := fun _ => "<container>";
  config_get_value := fun _ _ => Returned "prompts.yaml";
  NEXT_STAGE := "silver";
  download_blob := fun _ _ _ => Returned "%PDF";
  upload_blob := fun _ _ _ _ => Returned tt;
  analyze_document := fun _ _ => Returned (Some ["Invoice 42"; "Total: 10"]);
  cosmos_settings := fun _ => Returned (PStr "prompts");
  create_openai_client := fun _ => Returned tt;
  save_chat_message := fun _ _ _ _ => Returned tt;
  chat_completion := fun _ _ _ => Returned (PStr fenced_answer);
  child_instance_id := fun parent i => (parent ++ ":" ++ decimal (Z.of_nat i))%string
|}.

(** As [svc_ok] with some services replaced. *)
Definition with_download (svc : services)
    (f : history -> string -> string -> outcome pyerr string) : services :=
  mkServices (json_loads svc) (json_dumps svc) (yaml_safe_load svc) (repr_container svc)
    (config_get_value svc) (NEXT_STAGE svc) f (upload_blob svc) (analyze_document svc)
    (cosmos_settings svc) (create_openai_client svc) (save_chat_message svc)
    (chat_completion svc) (child_instance_id svc).

Definition with_analysis (svc : services)
    (f : history -> string -> outcome pyerr (option (list string))) : services :=
  mkServices (json_loads svc) (json_dumps svc) (yaml_safe_load svc) (repr_container svc)
    (config_get_value svc) (NEXT_STAGE svc) (download_blob svc) (upload_blob svc) f
    (cosmos_settings svc) (create_openai_client svc) (save_chat_message svc)
    (chat_completion svc) (child_instance_id svc).

Definition with_completion (svc : services)
    (f : history -> pyval -> string -> outcome pyerr pyval) : services :=
  mkServices (json_loads svc) (json_dumps svc) (yaml_safe_load svc) (repr_container svc)
    (config_get_value svc) (NEXT_STAGE svc) (download_blob svc) (upload_blob svc)
    (analyze_document svc) (cosmos_settings svc) (create_openai_client svc)
    (save_chat_message svc) f (child_instance_id svc).

(** The blob [missing.pdf] cannot be downloaded; every other blob can. *)
Definition svc_missing_blob : services :=
  with_download svc_ok
    (fun _ _ path =>
       if String.eqb path "missing.pdf"
       then Raised (PyError "ResourceNotFoundError" "The specified blob does not exist.")
       else Returned "%PDF").

(** The model call fails on every request. *)
Definition svc_model_down : services :=
  with_completion svc_ok (fun _ _ _ => Raised (PyError "APIConnectionError" "Connection error.")).

(** The analysis succeeds and finds no paragraph. *)
Definition svc_blank_page : services :=
  with_analysis svc_ok (fun _ _ => Returned (Some [])).

Definition ref (name : string) : pyval :=
  PDict [("name", PStr name);
         ("url", PStr ("https://store/bronze/" ++ name)%string);
         ("container", PStr "bronze")].

Definition doc_ctx : function_app.context :=
  function_app.mkContext "batch-1:0" (Some "batch-1").

(** An open deployment (no API key) with an idle rate limiter. *)
Definition env0 : http.environment := {|
  http.API_KEY := None;
  http.uuid4 := "c0ffee";
  http.monotonic := 100;
  http.utcnow := http.mkDatetime 11 (Some 0%Z);
  http.new_instance_id := "batch-1";
  http.check_status_payload := PDict [("id", PStr "batch-1")];
  http.fromisoformat := fun _ => None;
  http.isoformat := fun t => decimal (Z.of_N (http.wall t));
  http.py_int := http.ascii_int
|}.

Definition status_at (t : N) : http.DurableOrchestrationStatus :=
  http.mkStatus ("inst-" ++ decimal (Z.of_N t))%string "orchestrator" (Some "Completed")
    (Some (http.mkDatetime t (Some 0%Z))) (Some (http.mkDatetime t (Some 0%Z)))
    (PList []) (PList []).

(** Ten completed instances, created at times 1..10, in no particular order. *)
Definition ten_statuses : list http.DurableOrchestrationStatus :=
  map status_at [3; 9; 1; 7; 5; 10; 2; 8; 4; 6]%N.

Definition state0 : http.app_state := http.mkState [] ten_statuses.

Definition list_request : http.HttpRequest :=
  http.mkRequest [] [("limit", "5")] None.

(** A clock that reads two spellings of one time of day, with and without
    an offset from UTC. *)
Definition env_iso : http.environment := {|
  http.API_KEY := None;
  http.uuid4 := "c0ffee";
  http.monotonic := 100;
  http.utcnow := http.mkDatetime 11 (Some 0%Z);
  http.new_instance_id := "batch-1";
  http.check_status_payload := PDict [("id", PStr "batch-1")];
  http.fromisoformat := fun s =>
    if String.eqb s "2025-11-11T15:00:00+00:00" then Some (http.mkDatetime 5 (Some 0%Z))
    else if String.eqb s "2025-11-11T15:00:00" then Some (http.mkDatetime 5 None)
    else None;
  http.isoformat := fun t => decimal (Z.of_N (http.wall t));
  http.py_int := http.ascii_int
|}.

Definition since_request (since : string) : http.HttpRequest :=
  http.mkRequest [] [("since", since)] None.

Definition start_request (blobs : list pyval) : http.HttpRequest :=
  http.mkRequest [] [] (Some (PDict [("blobs", PList blobs)])).

(** A reference whose name is a blank. *)
Definition blank_name : pyval :=
  PDict [("name", PStr " "); ("url", PStr "https://store/bronze/a.pdf");
         ("container", PStr "bronze")].

(** A reference whose name is a no-break space. *)
Definition nbsp_name : pyval :=
  PDict [("name", PStr nbsp); ("url", PStr "https://store/bronze/a.pdf");
         ("container", PStr "bronze")].


End Examples.

(** ** Statements about a stage *)


(** ** The stages of a document workflow

    The three stage executions of [process_blob] and its two telemetry
    records, named so that statements can refer to them. *)

Definition extraction_stage (svc : services) (blob_metadata : pyval) : Orch pyval :=
  call_activity_with_retry "runDocIntel" function_app.doc_retry
    (runDocIntel.extract_text_from_blob svc) blob_metadata.

Definition transformation_stage (svc : services) (ctx : function_app.context)
    (text_result : pyval) : Orch pyval :=
  call_activity_with_retry "callAoai" function_app.aoai_retry (callAoai.run svc)
    (PDict [("text_result", text_result);
            ("instance_id", PStr (function_app.instance_id ctx))]).

Definition persistence_stage (svc : services) (ctx : function_app.context)
    (json_str blob_name : pyval) : Orch pyval :=
  call_activity_with_retry "writeToBlob" function_app.write_retry
    (writeToBlob.extract_text_from_blob svc)
    (PDict [("json_str", json_str);
            ("blob_name", blob_name);
            ("instance_id", PStr (function_app.destination_instance ctx))]).

Definition started_event (svc : services) (ctx : function_app.context)
    (blob_metadata : pyval) : event :=
  function_app.tracked "ProcessBlobStarted" None (Some (function_app.instance_id ctx))
    [("parentInstanceId", function_app.py_opt (function_app.parent_instance_id ctx));
     ("blobName", match blob_metadata with
                  | PDict d => dict_get_or d "name" PNone
                  | _ => PStr (fstr svc blob_metadata)
                  end)].

Definition completed_event (ctx : function_app.context) (task_result : pyval) : event :=
  function_app.tracked "ProcessBlobCompleted" None (Some (function_app.instance_id ctx))
    [("parentInstanceId", function_app.py_opt (function_app.parent_instance_id ctx));
     ("success", match task_result with
                 | PDict d => dict_get_or d "success" PNone | _ => PNone end);
     ("outputBlob", match task_result with
                    | PDict d => dict_get_or d "output_blob" PNone | _ => PNone end)].

Definition result_payload (blob_metadata text_result task_result : pyval) : pyval :=
  PDict [("blob", blob_metadata);
         ("text_result", text_result);
         ("task_result", task_result)].

(** [process_blob] stage by stage: each stage runs on the history the
    previous ones left, and the first failure ends the workflow. *)
Definition process_blob_by_stage (svc : services) (ctx : function_app.context)
    (blob_metadata : pyval) (h : history) : outcome orch_err pyval * list event :=
  let started := started_event svc ctx blob_metadata in
  match extraction_stage svc blob_metadata (h ++ [started]) with
  | (Raised e, tr1) => (Raised e, started :: tr1)
  | (Returned text_result, tr1) =>
      match transformation_stage svc ctx text_result ((h ++ [started]) ++ tr1) with
      | (Raised e, tr2) => (Raised e, started :: tr1 ++ tr2)
      | (Returned json_str, tr2) =>
          match subscript blob_metadata "name" with
          | Raised e => (Raised (OrchRaised e), started :: tr1 ++ tr2)
          | Returned blob_name =>
              match persistence_stage svc ctx json_str blob_name
                      (((h ++ [started]) ++ tr1) ++ tr2) with
              | (Raised e, tr3) => (Raised e, started :: tr1 ++ tr2 ++ tr3)
              | (Returned task_result, tr3) =>
                  (Returned (result_payload blob_metadata text_result task_result),
                   started :: tr1 ++ tr2 ++ tr3 ++ [completed_event ctx task_result])
              end
          end
      end
  end.


(** Everything a computation adds to the history satisfies [P]. *)
Definition emits {V E A} (P : V -> Prop) (m : M V E A) : Prop :=
  forall h, Forall P (snd (m h)).

(** A service call that writes nothing to storage. *)
Definition no_upload (c : service_call) : Prop := upload_of c = [].

(** The destination key of the output of a document named [name] in the
    batch [batch_id]. *)
Definition destination_key (batch_id name : string) : string :=
  (batch_id ++ "/" ++ fst (splitext (basename name)) ++ "-output.json")%string.

(** A reference the workflow can name: a dict with a [name]. *)
Definition has_name (blob_metadata : pyval) : bool :=
  match blob_metadata with
  | PDict d => match dict_get d "name" with Some _ => true | None => false end
  | _ => false
  end.

(** An entry of the batch result for [blob_metadata]: the reference, the
    extracted text ([None] when the extraction failed) and the record of the
    persistence, whose [success] field tells a success from a failure. *)
Definition entry_for (blob_metadata entry : pyval) : Prop :=
  exists text_result task_result d ok,
    entry = result_payload blob_metadata text_result task_result
    /\ task_result = PDict d
    /\ dict_get d "success" = Some (PBool ok).

(** The batch [batch_id] over [blobs], started on history [h] with the
    children finishing in the order [sched] picks, completes with [results]
    after the events [children] of its children: the last two events are the
    telemetry record of the completion and the terminal state of the batch. *)
Definition batch_completes_with (svc : services) (batch_id : string) (sched : list nat)
    (blobs : list pyval) (h : history) (results : list pyval) (children : list event)
    : Prop :=
  function_app.batch svc batch_id sched (PList blobs) h
  = (Returned (PList results),
     children
     ++ [function_app.tracked "OrchestrationCompleted" None (Some batch_id)
           [("resultCount", PInt (Z.of_nat (length results)))];
         EvTerminal batch_id (Completed (PList results))]).

Definition is_completed (st : string * terminal_status) : Prop :=
  exists v, snd st = Completed v.

(** The [i]-th result is an entry for the [i]-th reference. *)
Definition entry_at (blobs : list pyval) (i : nat) (entry : pyval) : Prop :=
  exists blob_metadata, nth_error blobs i = Some blob_metadata /\ entry_for blob_metadata entry.

(** ** Statements about the HTTP surface *)

(** A listing is newest first: no status is listed before a newer one. *)
Definition newer_or_equal (a b : http.DurableOrchestrationStatus) : Prop :=
  (http.created_instant b <= http.created_instant a)%Z.

Definition newest_first (l : list http.DurableOrchestrationStatus) : Prop :=
  StronglySorted newer_or_equal l.

(** Created at or after the naive [since_time], by the reading of the
    calendar. *)
Definition at_or_after (since_time : http.datetime) (s : http.DurableOrchestrationStatus)
    : bool :=
  match http.created_time s with
  | Some t => (http.wall since_time <=? http.wall t)%N
  | None => false
  end.

(** The statuses a listing chooses from. *)
Definition candidates (since_time : option http.datetime)
    (statuses : list http.DurableOrchestrationStatus)
    : list http.DurableOrchestrationStatus :=
  match since_time with
  | Some t => filter (at_or_after t) statuses
  | None => statuses
  end.

(** The filter can compare: [since_time] is absent or naive, or no instance
    has a creation time to compare with it. *)
Definition since_usable (since_time : option http.datetime)
    (statuses : list http.DurableOrchestrationStatus) : bool :=
  match since_time with
  | Some t =>
      negb (http.is_aware t)
      || forallb (fun s => match http.created_time s with Some _ => false | None => true end)
           statuses
  | None => true
  end.

(** The datetimes a listing compares are of one kind, naive or aware: the
    filter can compare, and so can the sort of what the filter keeps. *)
Definition listable (since_time : option http.datetime)
    (statuses : list http.DurableOrchestrationStatus) : bool :=
  since_usable since_time statuses
  && http.keys_compare (candidates since_time statuses).

(** An entry the validation of the starter accepts: a dict whose [name],
    [url] and [container] are strings with something other than white
    space. *)
Definition accepted_entry (b : pyval) : bool :=
  match b with
  | PDict d => forallb (http.has_text d) http.required
  | _ => false
  end.

(** An entry with a non-empty string [name], [url] and [container]. *)
Definition has_nonempty (d : list (string * pyval)) (k : string) : bool :=
  match dict_get d k with
  | Some (PStr s) => negb (String.eqb s "")
  | _ => false
  end.

Definition nonempty_entry (b : pyval) : bool :=
  match b with
  | PDict d => forallb (has_nonempty d) http.required
  | _ => false
  end.

(** The request passes the guards at the edge: authentication and the rate
    limiter. *)
Definition passes_guards (env : http.environment) (st : http.app_state)
    (req : http.HttpRequest) : Prop :=
  fst (http._authenticate_request env req (http.uuid4 env)) = true
  /\ fst (fst (http._enforce_rate_limit (http.rate_hits st) 20 60 (http.monotonic env)))
     = true.

(** A pending child that, whenever it runs, returns a value satisfying [Q]
    and reaches its terminal state as the last thing it does. *)
Definition completes (child_id : nat -> string) (Q : nat -> pyval -> Prop)
    (it : nat * Orch pyval) : Prop :=
  forall h, exists v tr,
    snd it h = (Returned v, tr ++ [EvTerminal (child_id (fst it)) (Completed v)])
    /\ terminal_events tr = [] /\ Q (fst it) v.




(** A child that finished by returning a value satisfying [Q]. *)
Definition done_well (Q : nat -> pyval -> Prop) (ir : nat * outcome orch_err pyval)
    : Prop :=
  exists v, snd ir = Returned v /\ Q (fst ir) v.


(** ** Statements about the model's response *)



(** A text is a part of another. *)
Definition part_of (a b : string) : Prop :=
  exists before after, b = (before ++ a ++ after)%string.

(** ** configuration/configuration.py

    The configuration object: the mode it runs in, the environment of the
    process and the App Configuration store when one was loaded. *)

Module configuration.

Record Configuration : Type := mkConfiguration {
  env_mode : string;
  environ : list (string * string);
  config : option (list (string * string))
}.

(** [s.split(sep)] for a one-character separator. *)
Fixpoint split_on (sep : ascii) (s : string) : list string :=
  match s with
  | EmptyString => [EmptyString]
  | String c s' =>
      if Ascii.eqb c sep then EmptyString :: split_on sep s'
      else match split_on sep s' with
           | [] => [String c EmptyString]
           | w :: ws => String c w :: ws
           end
  end.

Definition environ_get (environ : list (string * string)) (key dflt : string) : string :=
  match http.lookup environ key with Some v => v | None => dflt end.

(** [__init__], lines 30 and 66-99: the mode and the loading of the store.
    [load_endpoint] and [load_connection] are the two ways of [load]. *)
Definition init (environ : list (string * string))
    (load_endpoint load_connection : string -> outcome pyerr (list (string * string)))
    : outcome pyerr Configuration :=
  let env_mode := lower (environ_get environ "FUNCTIONAPP_ENV" "cloud") in
  let local := String.eqb env_mode "local" in
  let unable (e : pyerr) : pyerr :=
    PyError "Exception"
      ("Unable to connect to Azure App Configuration. Please check your connection string or endpoint. Error: "
       ++ err_msg e)%string in
  if local && String.eqb (lower (environ_get environ "allow_environment_variables" "false")) "true"
  then Returned (mkConfiguration env_mode environ None)
  else
    let first_try : outcome pyerr (list (string * string)) :=
      match http.lookup environ "APP_CONFIGURATION_URI" with
      | Some uri =>
          if String.eqb uri "" then Raised (PyError "KeyError" "'APP_CONFIGURATION_URI not set'")
          else load_endpoint uri
      | None => Raised (PyError "KeyError" "'APP_CONFIGURATION_URI not set'")
      end in
    match first_try with
    | Returned store => Returned (mkConfiguration env_mode environ (Some store))
    | Raised e =>
        let second_try : outcome pyerr (option (list (string * string))) :=
          match http.lookup environ "AZURE_APPCONFIG_CONNECTION_STRING" with
          | Some cs =>
              if String.eqb cs "" then
                if local then Returned None else Raised (unable e)
              else match load_connection cs with
                   | Returned store => Returned (Some store)
                   | Raised e' => Raised e'
                   end
          | None => if local then Returned None else Raised (unable e)
          end in
        match second_try with
        | Returned store => Returned (mkConfiguration env_mode environ store)
        | Raised e' =>
            if local then Returned (mkConfiguration env_mode environ None)
            else Raised (unable e')
        end
    end.

Definition allow_env_vars (self : Configuration) : bool :=
  String.eqb (env_mode self) "local"
  || String.eqb (lower (environ_get (environ self) "allow_environment_variables" "false"))
                "true".

(** [get_config_with_retry] as [get_value] sees it: the value of the key, or
    nothing when the lookup raised on every attempt. *)
Definition get_config_with_retry (store : list (string * string)) (name : string)
    : option string :=
  http.lookup store name.

Definition get_value (self : Configuration) (key : string) (default : option string)
    : outcome pyerr string :=
  let value := if allow_env_vars self then http.lookup (environ self) key else None in
  let value :=
    match value, config self with
    | None, Some store => get_config_with_retry store key
    | _, _ => value
    end in
  match value with
  | Some v => Returned v
  | None =>
      match default with
      | Some d => Returned d
      | None =>
          Raised (PyError "Exception"
                    ("The configuration variable " ++ key
                     ++ " not found in environment or App Configuration.")%string)
      end
  end.

Definition sentinel : string := "__CONFIG_OPTIONAL_MISSING__".

Definition try_get_value (self : Configuration) (key : string)
    : outcome pyerr (option string) :=
  match get_value self key (Some sentinel) with
  | Returned value => Returned (if String.eqb value sentinel then None else Some value)
  | Raised e => Raised e
  end.

(** [read_env_variable(var_name, default)]. *)
Definition read_env_variable (self : Configuration) (var_name : string)
    (default : option string) : outcome pyerr (option string) :=
  match get_value self var_name default with
  | Returned value =>
      Returned (if String.eqb value "" then default else Some (strip value))
  | Raised e => Raised e
  end.

Definition read_env_list (self : Configuration) (var_name : string)
    : outcome pyerr (list string) :=
  match get_value self var_name (Some "") with
  | Returned value =>
      Returned (map strip
                  (filter (fun item => negb (String.eqb (strip item) ""))
                          (split_on ","%char value)))
  | Raised e => Raised e
  end.

Definition read_env_boolean (self : Configuration) (var_name : string) (default : bool)
    : outcome pyerr bool :=
  match get_value self var_name (Some (if default then "True" else "False")) with
  | Returned value =>
      let value := lower (strip value) in
      Returned (String.eqb value "true" || String.eqb value "1" || String.eqb value "yes")
  | Raised e => Raised e
  end.

Definition is_local_mode (self : Configuration) : bool :=
  String.eqb (env_mode self) "local".

Definition get_api_key (self : Configuration) : outcome pyerr (option string) :=
  try_get_value self "API_KEY".

Definition get_prompts_cosmos_document_id (self : Configuration) : outcome pyerr string :=
  match try_get_value self "PROMPTS_COSMOS_DOCUMENT_ID" with
  | Returned (Some document_id) =>
      if String.eqb document_id "" then
        Raised (PyError "Exception"
                  "PROMPTS_COSMOS_DOCUMENT_ID must be set when PROMPT_FILE is 'COSMOS'.")
      else Returned document_id
  | Returned None =>
      Raised (PyError "Exception"
                "PROMPTS_COSMOS_DOCUMENT_ID must be set when PROMPT_FILE is 'COSMOS'.")
  | Raised e => Raised e
  end.

End configuration.

(** ** function_app.py: the blob starter, the queries and the chat *)

Module handlers.

(** [BlobMetadata] of pipelineUtils/blob_functions.py. *)
Record BlobMetadata : Type := mkBlobMetadata {
  name : string;
  url : string;
  container : string
}.

Definition to_dict (self : BlobMetadata) : pyval :=
  PDict [("name", PStr (name self)); ("url", PStr (url self));
         ("container", PStr (container self))].

(** [start_orchestrator_blob] for a blob with the given [name] and [uri]. *)
Definition start_orchestrator_blob (env : http.environment)
    (known : list http.DurableOrchestrationStatus) (blob_name blob_uri : string)
    : list http.DurableOrchestrationStatus :=
  let blob_metadata := mkBlobMetadata blob_name blob_uri "bronze" in
  http.start_new env known "orchestrator" (PList [to_dict blob_metadata]).

(** What [client.get_status] reports beyond the fields of the listing. *)
Record StatusDetails : Type := mkDetails {
  status : http.DurableOrchestrationStatus;
  custom_status : pyval;
  history : pyval
}.

(** [get_orchestration_status]: [route_instance_id] is
    [req.route_params.get("instanceId")] and [get_status] the answer of
    [client.get_status] for an id and the history flag. *)
Definition get_orchestration_status (env : http.environment) (req : http.HttpRequest)
    (route_instance_id : option string)
    (get_status : string -> bool -> outcome pyerr (option StatusDetails))
    : http.HttpResponse :=
  let correlation_id := http.uuid4 env in
  match http._authenticate_request env req correlation_id with
  | (false, Some auth_response) => auth_response
  | (false, None) => http._json_response false "Unauthorized." 401 correlation_id None
  | (true, _) =>
      match http.py_or route_instance_id None with
      | None => http._json_response false "Instance ID is required." 400 correlation_id None
      | Some instance_id =>
          let show_history :=
            String.eqb
              (lower (match http.lookup (http.params req) "history" with
                      | Some v => v | None => "false" end)) "true" in
          match get_status instance_id show_history with
          | Raised _ =>
              http._json_response false "Failed to retrieve orchestration status."
                500 correlation_id None
          | Returned None =>
              http._json_response false
                ("Orchestration '" ++ instance_id ++ "' not found.")%string
                404 correlation_id None
          | Returned (Some details) =>
              let st := status details in
              let data :=
                [("instanceId", PStr (http.instance_id st));
                 ("name", PStr (http.name st));
                 ("runtimeStatus", match http.runtime_status st with
                                   | Some r => if String.eqb r "" then PNone else PStr r
                                   | None => PNone
                                   end);
                 ("createdTime", match http.created_time st with
                                 | Some t => PStr (http.isoformat env t) | None => PNone end);
                 ("lastUpdatedTime", match http.last_updated_time st with
                                     | Some t => PStr (http.isoformat env t)
                                     | None => PNone end);
                 ("customStatus", custom_status details);
                 ("output", http.output st)]
                ++ (if show_history && truthy (history details)
                    then [("history", history details)] else []) in
              http._json_response true "Status retrieved." 200 correlation_id (Some data)
          end
      end
  end.

(** [get_orchestration_results]. *)
Definition get_orchestration_results (env : http.environment) (req : http.HttpRequest)
    (route_instance_id : option string)
    (get_status : string -> outcome pyerr (option http.DurableOrchestrationStatus))
    : http.HttpResponse :=
  let correlation_id := http.uuid4 env in
  match http._authenticate_request env req correlation_id with
  | (false, Some auth_response) => auth_response
  | (false, None) => http._json_response false "Unauthorized." 401 correlation_id None
  | (true, _) =>
      match http.py_or route_instance_id None with
      | None => http._json_response false "Instance ID is required." 400 correlation_id None
      | Some instance_id =>
          match get_status instance_id with
          | Raised _ =>
              http._json_response false "Failed to retrieve orchestration output."
                500 correlation_id None
          | Returned None =>
              http._json_response false
                ("Orchestration '" ++ instance_id ++ "' not found.")%string
                404 correlation_id None
          | Returned (Some st) =>
              match http.output st with
              | PNone =>
                  http._json_response false
                    ("Orchestration '" ++ instance_id ++ "' has no output yet.")%string
                    404 correlation_id None
              | output =>
                  http._json_response true "Output retrieved." 200 correlation_id
                    (Some [("instanceId", PStr instance_id); ("output", output)])
              end
          end
      end
  end.

(** [direct_chat]: the deque of the chat limiter after the request, and the
    answer, which may call the model.  [fresh_uuid] is the second
    [uuid.uuid4()], drawn for the pipeline id. *)
Definition direct_chat (svc : services) (env : http.environment) (fresh_uuid : string)
    (hits : list Z) (req : http.HttpRequest) : list Z * Act http.HttpResponse :=
  let correlation_id := http.uuid4 env in
  match http._authenticate_request env req correlation_id with
  | (false, Some auth_response) => (hits, ret auth_response)
  | (false, None) => (hits, raise (PyError "TypeError" "no response"))
  | (true, _) =>
      match http._enforce_rate_limit hits 60 60 (http.monotonic env) with
      | ((false, retry_after), hits) =>
          (hits,
           ret (http._json_response false
                  ("Too many chat requests. Try again in "
                   ++ decimal (match retry_after with Some r => r | None => 0%Z end)
                   ++ " seconds.")%string 429 correlation_id None))
      | ((true, _), hits) =>
          (hits,
           match http.get_json req with
           | None =>
               ret (http._json_response false "Invalid JSON payload." 400 correlation_id None)
           | Some body =>
               query <- lift_outcome (py_get body "query") ;;
               let context :=
                 match body with PDict d => dict_get_or d "context" (PStr "") | _ => PNone end in
               let pipeline_id :=
                 match body with
                 | PDict d =>
                     let given := dict_get_or d "pipelineId" PNone in
                     if truthy given then given else PStr ("http-" ++ fresh_uuid)%string
                 | _ => PNone
                 end in
               match query with
               | PStr query =>
                   if String.eqb (strip query) "" then
                     ret (http._json_response false
                            "Invalid request: 'query' must be a non-empty string."
                            400 correlation_id None)
                   else
                     let system_prompt :=
                       ("You are a helpful assistant. Use any provided context to answer the user's query."
                        ++ nl ++ "Context:" ++ nl ++ fstr svc context)%string in
                     result <- run_prompt svc pipeline_id (PStr system_prompt) (strip query) ;;
                     match result with
                     | PNone =>
                         ret (http._json_response false
                                "Failed to generate response from Azure OpenAI."
                                502 correlation_id None)
                     | _ =>
                         ret (http._json_response true "Response generated." 200
                                correlation_id
                                (Some [("pipelineId", pipeline_id); ("response", result)]))
                     end
               | _ =>
                   ret (http._json_response false
                          "Invalid request: 'query' must be a non-empty string."
                          400 correlation_id None)
               end
           end)
      end
  end.

End handlers.

(** ** Statements about the handlers *)

(** The credential a request presents: the first non-empty one among the
    header [x-api-key], the header [X-API-Key] and the query parameter
    [code], with the white space around it removed. *)
Definition supplied_key (req : http.HttpRequest) : option string :=
  option_map strip
    (http.py_or (http.py_or (http.header_get (http.headers req) "x-api-key")
                            (http.header_get (http.headers req) "X-API-Key"))
                (http.lookup (http.params req) "code")).

Definition unauthorized (correlation_id : string) : http.HttpResponse :=
  http._json_response false "Unauthorized." 401 correlation_id None.

(** The envelope of an answer: it carries the correlation id of the request,
    and [success] is true exactly for the status codes 200 and 202. *)
Definition envelope (correlation_id : string) (response : http.HttpResponse) : Prop :=
  dict_get (http.payload response) "correlationId" = Some (PStr correlation_id)
  /\ dict_get (http.payload response) "success"
     = Some (PBool (Z.eqb (http.status_code response) 200
                    || Z.eqb (http.status_code response) 202))
  /\ In (http.status_code response) [200; 202; 400; 401; 404; 429; 500; 502]%Z.

(** ** More concrete inputs *)

Module MoreExamples.

(** A deployment that asks for the key [s3cret]. *)
Definition env_locked : http.environment := {|
  http.API_KEY := Some "s3cret";
  http.uuid4 := "c0ffee";
  http.monotonic := 100;
  http.utcnow := http.mkDatetime 11 (Some 0%Z);
  http.new_instance_id := "batch-1";
  http.check_status_payload := PDict [("id", PStr "batch-1")];
  http.fromisoformat := fun _ => None;
  http.isoformat := fun t => decimal (Z.of_N (http.wall t));
  http.py_int := http.ascii_int
|}.


(** A deployment whose key is the empty string. *)
Definition env_empty_key : http.environment := {|
  http.API_KEY := Some "";
  http.uuid4 := "c0ffee";
  http.monotonic := 100;
  http.utcnow := http.mkDatetime 11 (Some 0%Z);
  http.new_instance_id := "batch-1";
  http.check_status_payload := PNone;
  http.fromisoformat := fun _ => None;
  http.isoformat := fun t => decimal (Z.of_N (http.wall t));
  http.py_int := http.ascii_int
|}.

(** A request with a wrong key in the header and the right one in the query. *)
Definition mixed_keys : http.HttpRequest :=
  http.mkRequest [("x-api-key", "guess")] [("code", "s3cret")]
    (Some (PDict [("blobs", PList [Examples.ref "a.pdf"])])).

(** A request with the right key, padded with blanks. *)
Definition right_key (body : option pyval) : http.HttpRequest :=
  http.mkRequest [("X-API-Key", " s3cret ")] [] body.

(** A request with the right key between no-break spaces, under a header
    whose name is spelled in yet another way. *)
Definition spelled_key : http.HttpRequest :=
  http.mkRequest [("X-Api-Key", (nbsp ++ "s3cret" ++ nbsp)%string)] [] None.

End MoreExamples.

(** ** Statements about the workflow's reference *)

(** The dict the extraction works on: the reference itself, or what a JSON
    string decodes to. *)
Definition reference_dict (svc : services) (blobObj : pyval)
    : option (list (string * pyval)) :=
  match blobObj with
  | PDict d => Some d
  | PStr s => match json_loads svc s with Returned (PDict d) => Some d | _ => None end
  | _ => None
  end.

(** The attempts a history records: the activity and the attempt number. *)
Definition attempts (tr : list event) : list (string * nat) :=
  flat_map (fun ev => match ev with EvActivity n i _ => [(n, i)] | _ => [] end) tr.

(** The character [c] does not occur in [s]. *)
Definition no_char (c : ascii) (s : string) : bool :=
  string_forall (fun a => negb (Ascii.eqb a c)) s.

(** ** A run of the batch starter *)

(** The state after [start_orchestrator_http] served a request; a request
    comes with the environment it is served in (the clock reading, the ids
    drawn). *)
Definition serve (st : http.app_state) (r : http.environment * http.HttpRequest)
    : http.app_state :=
  snd (http.start_orchestrator_http (fst r) st (snd r)).

Definition serve_all (st : http.app_state)
    (requests : list (http.environment * http.HttpRequest)) : http.app_state :=
  fold_left serve requests st.

(** The hits of a deque that are not older than [t0]. *)
Definition hits_since (t0 : Z) (hits : list Z) : nat :=
  length (filter (fun t => (t0 <=? t)%Z) hits).

(** The telemetry records of a history that are logged under [event_name]. *)
Definition telemetry (event_name : string) (tr : list event) : list event :=
  filter (fun ev => match ev with
                    | EvTrack n _ => String.eqb n event_name
                    | _ => false
                    end) tr.

(** An upload of the batch [batch_id]: to the container of the next stage,
    under a key that starts with the id of the batch and a slash. *)
Definition within_batch (svc : services) (batch_id : string) (u : string * string) : Prop :=
  fst u = NEXT_STAGE svc /\ startswith (snd u) (batch_id ++ "/") = true.

(** * Properties *)

(** ** Histories *)

Section Observers.


Lemma timers_app (l1 l2 : list event) : timers (l1 ++ l2) = timers l1 ++ timers l2.
Proof. apply flat_map_app. Qed.

Lemma service_calls_app (l1 l2 : list event) :
  service_calls (l1 ++ l2) = service_calls l1 ++ service_calls l2.
Proof. apply flat_map_app. Qed.

Lemma terminal_events_app (l1 l2 : list event) :
  terminal_events (l1 ++ l2) = terminal_events l1 ++ terminal_events l2.
Proof. apply flat_map_app. Qed.

Lemma uploads_app (l1 l2 : list event) : uploads (l1 ++ l2) = uploads l1 ++ uploads l2.
Proof. unfold uploads. rewrite service_calls_app. apply flat_map_app. Qed.

Lemma activity_names_calls (calls : list service_call) :
  activity_names (map EvCall calls) = [].
Proof. induction calls; simpl; auto. Qed.

Lemma timers_calls (calls : list service_call) : timers (map EvCall calls) = [].
Proof. induction calls; simpl; auto. Qed.

Lemma terminal_events_calls (calls : list service_call) :
  terminal_events (map EvCall calls) = [].
Proof. induction calls; simpl; auto. Qed.

Lemma service_calls_calls (calls : list service_call) :
  service_calls (map EvCall calls) = calls.
Proof. induction calls; simpl; congruence. Qed.

End Observers.

(** ** The stage executor *)

Section Executor.

Variables (name : string) (opts : RetryOptions).
Variables (activity : pyval -> Act pyval) (input : pyval).


End Executor.

(** ** C2: the retry policy *)




(** ** Reasoning about computations *)

Lemma bind_returned {V} {em : Emits V} {E A B} (m : M V E A) (f : A -> M V E B)
    (h : history) (b : B) :
  fst (bind m f h) = Returned b ->
  exists a l, m h = (Returned a, l) /\ fst (f a (h ++ map as_event l)) = Returned b.
Proof.
  unfold bind. destruct (m h) as [[a|e] l]; simpl; [|discriminate].
  destruct (f a (h ++ map as_event l)) as [r l2] eqn:Hf. simpl. intros ->.
  exists a, l. rewrite Hf. auto.
Qed.

(** ** C9: callAoai never raises *)

Lemma call_model_returns_text (svc : services) (inputData instance_id : pyval)
    (h : history) (v : pyval) :
  fst (callAoai.call_model svc inputData instance_id h) = Returned v ->
  exists json_str, v = PStr json_str.
Proof.
  unfold callAoai.call_model. destruct inputData; try discriminate.
  destruct (negb (truthy (dict_get_or d "text_result" PNone))); [discriminate|].
  intros H.
  apply bind_returned in H as (prompt_json & l1 & _ & H).
  apply bind_returned in H as (system_prompt & l2 & _ & H).
  apply bind_returned in H as (template & l3 & _ & H).
  destruct (negb (truthy system_prompt) || negb (truthy template)); [discriminate|].
  destruct template; try discriminate.
  apply bind_returned in H as (response & l4 & _ & H).
  destruct response; try discriminate.
  apply bind_returned in H as (json_str & l5 & _ & H).
  simpl in H. inversion H. eauto.
Qed.

(** C9.  [callAoai] is total: for every input, whatever the collaborators
    answer, it returns a string or [None] and never raises.  Every error
    inside it (input that is not a dict, missing or empty [text_result], a
    prompt configuration that cannot be loaded or lacks a prompt, no content
    from the model) becomes the return value [None]; so the stage ends after
    its first attempt, whatever its retry policy. *)
Theorem callAoai_total (svc : services) (inputData : pyval) (h : history) :
  (fst (callAoai.run svc inputData h) = Returned PNone
   \/ exists s, fst (callAoai.run svc inputData h) = Returned (PStr s))
  /\ (forall instance_id e,
        instance_id = match inputData with
                      | PDict d => dict_get_or d "instance_id" PNone
                      | _ => PNone
                      end ->
        fst (callAoai.call_model svc inputData instance_id h) = Raised e ->
        fst (callAoai.run svc inputData h) = Returned PNone)
  /\ (isinstance_dict inputData = false ->
      fst (callAoai.run svc inputData h) = Returned PNone)
  /\ (forall d, inputData = PDict d ->
        truthy (dict_get_or d "text_result" PNone) = false ->
        callAoai.run svc inputData h = (Returned PNone, []))
  /\ (forall opts,
        let stage := call_activity_with_retry "callAoai" opts (callAoai.run svc) inputData h in
        activity_names (snd stage) = ["callAoai"]
        /\ timers (snd stage) = []
        /\ is_returned (fst stage) = true).
Proof.
  set (i := match inputData with PDict d => dict_get_or d "instance_id" PNone | _ => PNone end).
  assert (Hcatch : forall h' e,
             fst (callAoai.call_model svc inputData i h') = Raised e ->
             fst (callAoai.run svc inputData h') = Returned PNone).
  { intros h' e He. unfold callAoai.run, try_except. fold i.
    destruct (callAoai.call_model svc inputData i h') as [[v|e'] l]; simpl in *;
      [discriminate|reflexivity]. }
  assert (Htotal : forall h',
             fst (callAoai.run svc inputData h') = Returned PNone
             \/ exists s, fst (callAoai.run svc inputData h') = Returned (PStr s)).
  { intros h'.
    destruct (fst (callAoai.call_model svc inputData i h')) as [v|e] eqn:Hbody.
    - destruct (call_model_returns_text _ _ _ _ _ Hbody) as (json_str & ->).
      right. exists json_str.
      unfold callAoai.run, try_except. fold i.
      destruct (callAoai.call_model svc inputData i h') as [[v'|e'] l]; simpl in *; congruence.
    - left. eapply Hcatch; eauto. }
  split; [apply Htotal|]. split.
  { intros i' e -> He. eapply Hcatch; eauto. }
  split.
  { intros Hd. destruct inputData; try discriminate; reflexivity. }
  split.
  { intros d -> Hfalsy. unfold callAoai.run, callAoai.call_model, try_except.
    rewrite Hfalsy. reflexivity. }
  intros opts stage. subst stage. unfold call_activity_with_retry.
  destruct (Htotal (h ++ [EvActivity "callAoai" 1 inputData])) as [Hr | [s Hr]];
    destruct (max_number_of_attempts opts - 1); simpl;
    destruct (callAoai.run svc inputData (h ++ [EvActivity "callAoai" 1 inputData]))
      as [[v|e] calls]; simpl in *; try discriminate;
    rewrite activity_names_calls, timers_calls; auto.
Qed.

(** ** C10: an analysis without paragraphs *)

Lemma analysis_error_returns_None (svc : services) (d : list (string * pyval))
    (h : history) (e : pyerr) :
  fst (runDocIntel.analyze svc (PDict d) h) = Raised e ->
  fst (runDocIntel.extract_text_from_blob svc (PDict d) h) = Returned PNone.
Proof.
  intros He. unfold runDocIntel.extract_text_from_blob, bind. simpl.
  unfold try_except. rewrite app_nil_r.
  destruct (runDocIntel.analyze svc (PDict d) h) as [[v|e'] l]; simpl in *;
    [discriminate|reflexivity].
Qed.

(** C10.  When the analysis of a document succeeds and yields no paragraphs
    ([result.paragraphs] is [None] or empty), the local [paragraphs] is never
    bound, returning it raises [UnboundLocalError] inside the [try] block,
    and [runDocIntel] returns [None]: the value it returns on any error of the
    extraction, not an empty text. *)
Theorem no_paragraphs_returns_None (svc : services) (d : list (string * pyval))
    (container raw_name content : string) (paragraphs : option (list string))
    (h : history) :
  dict_get d "container" = Some (PStr container) ->
  dict_get d "name" = Some (PStr raw_name) ->
  download_blob svc h container (runDocIntel.normalize_blob_name container raw_name)
    = Returned content ->
  analyze_document svc
    (h ++ [EvCall (Call "download_blob"
                     [PStr container;
                      PStr (runDocIntel.normalize_blob_name container raw_name)])])
    content = Returned paragraphs ->
  paragraphs = None \/ paragraphs = Some [] ->
  fst (runDocIntel.analyze svc (PDict d) h)
    = Raised (PyError "UnboundLocalError" "cannot access local variable 'paragraphs'")
  /\ fst (runDocIntel.extract_text_from_blob svc (PDict d) h) = Returned PNone
  /\ (forall svc' d' h' e,
        fst (runDocIntel.analyze svc' (PDict d') h') = Raised e ->
        fst (runDocIntel.extract_text_from_blob svc' (PDict d') h') = Returned PNone).
Proof.
  intros Hc Hn Hdl Han Hnone.
  assert (Hbody : fst (runDocIntel.analyze svc (PDict d) h)
                  = Raised (PyError "UnboundLocalError"
                              "cannot access local variable 'paragraphs'")).
  { unfold runDocIntel.analyze, bind, lift_outcome, subscript, get_blob_content, call.
    rewrite Hc, Hn. simpl. rewrite !app_nil_r. rewrite Hdl. simpl.
    unfold as_event, emits_call. rewrite Han.
    destruct Hnone as [-> | ->]; reflexivity. }
  split; [exact Hbody|]. split.
  - eapply analysis_error_returns_None; eauto.
  - intros. eapply analysis_error_returns_None; eauto.
Qed.

(** A blank page in [svc_blank_page]: the download and the analysis succeed,
    no paragraph is found. *)
Lemma no_paragraphs_witness :
  fst (runDocIntel.analyze Examples.svc_blank_page (Examples.ref "bronze/blank.pdf") [])
    = Raised (PyError "UnboundLocalError" "cannot access local variable 'paragraphs'")
  /\ fst (runDocIntel.extract_text_from_blob Examples.svc_blank_page
            (Examples.ref "bronze/blank.pdf") []) = Returned PNone
  /\ (forall svc' d' h' e,
        fst (runDocIntel.analyze svc' (PDict d') h') = Raised e ->
        fst (runDocIntel.extract_text_from_blob svc' (PDict d') h') = Returned PNone).
Proof.
  apply (no_paragraphs_returns_None Examples.svc_blank_page _
           "bronze" "bronze/blank.pdf" "%PDF" (Some []) []);
    try reflexivity.
  right; reflexivity.
Defined.

(** ** C4: normalizing the response of the model *)

Section Strings.

Local Open Scope string_scope.

Lemma string_app_assoc (a b c : string) : (a ++ b) ++ c = a ++ (b ++ c).
Proof. induction a; simpl; congruence. Qed.

Lemma string_app_nil (a : string) : a ++ "" = a.
Proof. induction a; simpl; congruence. Qed.


Lemma string_induction3 (P : string -> Prop) :
  (forall s, (forall t, String.length t < String.length s -> P t) -> P s) ->
  forall s, P s.
Proof.
  intros H s. remember (String.length s) as n eqn:Hn.
  revert s Hn. induction n as [n IH] using lt_wf_ind.
  intros s ->. apply H. intros t Ht. now apply (IH (String.length t)).
Qed.





(** [lstrip] removes a beginning. *)
Lemma lstrip_suffix (s : string) : exists before, s = before ++ lstrip s.
Proof.
  induction s as [s IH] using string_induction3.
  destruct s as [|c1 s1]; [now exists ""|]. simpl.
  destruct (is_space c1).
  { destruct (IH s1) as [b Hb]; [simpl; lia|]. exists (String c1 b). simpl. now rewrite <- Hb. }
  destruct s1 as [|c2 s2]; [now exists ""|].
  destruct (is_space2 c1 c2).
  { destruct (IH s2) as [b Hb]; [simpl; lia|]. exists (String c1 (String c2 b)).
    simpl. now rewrite <- Hb. }
  destruct s2 as [|c3 s3]; [now exists ""|].
  destruct (is_space3 c1 c2 c3); [|now exists ""].
  destruct (IH s3) as [b Hb]; [simpl; lia|]. exists (String c1 (String c2 (String c3 b))).
  simpl. now rewrite <- Hb.
Qed.


(** [rstrip] removes an end. *)
Lemma rstrip_prefix (s : string) : exists after, s = rstrip s ++ after.
Proof.
  induction s as [|c s [a Ha]]; [now exists ""|].
  cbn [rstrip]. destruct (String.eqb (lstrip (String c s)) "").
  - now exists (String c s).
  - exists a. simpl. now rewrite <- Ha.
Qed.



Lemma lstrip_by_suffix (p : ascii -> bool) (s : string) :
  exists before, s = before ++ lstrip_by p s.
Proof.
  induction s as [|c s [b Hb]]; [now exists ""|]. simpl.
  destruct (p c); [|now exists ""]. exists (String c b). simpl. now rewrite <- Hb.
Qed.

Lemma rstrip_by_prefix (p : ascii -> bool) (s : string) :
  exists after, s = rstrip_by p s ++ after.
Proof.
  induction s as [|c s [a Ha]]; [now exists ""|]. simpl.
  destruct (rstrip_by p s) as [|c' r] eqn:Hr.
  - destruct (p c); [now exists (String c s)|]. exists s. reflexivity.
  - exists a. simpl. simpl in Ha. now rewrite <- Ha.
Qed.




Lemma part_of_refl (a : string) : part_of a a.
Proof. exists "", "". simpl. now rewrite string_app_nil. Qed.

Lemma part_of_trans (a b c : string) : part_of a b -> part_of b c -> part_of a c.
Proof.
  intros (b1 & a1 & ->) (b2 & a2 & ->). exists (b2 ++ b1), (a1 ++ a2).
  now rewrite !string_app_assoc.
Qed.


Lemma strip_part (s : string) : part_of (strip s) s.
Proof.
  unfold strip. destruct (lstrip_suffix s) as [b Hb].
  destruct (rstrip_prefix (lstrip s)) as [a Ha].
  exists b, a. now rewrite <- Ha.
Qed.


Lemma strip_by_part (p : ascii -> bool) (s : string) : part_of (strip_by p s) s.
Proof.
  unfold strip_by. destruct (lstrip_by_suffix p s) as [b Hb].
  destruct (rstrip_by_prefix p (lstrip_by p s)) as [a Ha].
  exists b, a. now rewrite <- Ha.
Qed.

Lemma drop_part (n : nat) (s : string) : part_of (drop n s) s.
Proof.
  revert s. induction n as [|n IH]; intros s; [apply part_of_refl|].
  destruct s as [|c s]; [apply part_of_refl|]. simpl.
  destruct (IH s) as (b & a & Hs). exists (String c b), a. simpl. now rewrite <- Hs.
Qed.


Lemma unwrap_fence_part (response : string) :
  part_of (callAoai.unwrap_fence response) response.
Proof.
  unfold callAoai.unwrap_fence.
  destruct (startswith (strip response) "```"); [|apply strip_part].
  destruct (startswith (lower (strip_by is_backtick (strip response))) "json").
  - eapply part_of_trans; [apply strip_part|].
    eapply part_of_trans; [apply drop_part|].
    eapply part_of_trans; [apply strip_by_part|apply strip_part].
  - eapply part_of_trans; [apply strip_by_part|apply strip_part].
Qed.


End Strings.







(** ** The document workflow, stage by stage *)

Lemma map_as_event (l : list event) : map as_event l = l.
Proof. unfold as_event, emits_event. apply map_id. Qed.

Lemma process_blob_unfold (svc : services) (ctx : function_app.context)
    (blob_metadata : pyval) (h : history) :
  function_app.process_blob svc ctx blob_metadata h
  = process_blob_by_stage svc ctx blob_metadata h.
Proof.
  unfold function_app.process_blob, process_blob_by_stage.
  unfold function_app._track_event, emit, bind at 1.
  fold (started_event svc ctx blob_metadata).
  rewrite map_as_event.
  fold (extraction_stage svc blob_metadata).
  unfold bind at 1.
  destruct (extraction_stage svc blob_metadata (h ++ [started_event svc ctx blob_metadata]))
    as [[text_result|e] tr1]; [|reflexivity].
  rewrite map_as_event.
  fold (transformation_stage svc ctx text_result).
  unfold bind at 1.
  destruct (transformation_stage svc ctx text_result
              ((h ++ [started_event svc ctx blob_metadata]) ++ tr1))
    as [[json_str|e] tr2]; [|reflexivity].
  rewrite map_as_event.
  unfold bind at 1. unfold function_app.orch at 1, lift_outcome at 1.
  destruct (subscript blob_metadata "name") as [blob_name|e]; [|simpl; now rewrite app_nil_r].
  cbn [map]. rewrite app_nil_r.
  fold (persistence_stage svc ctx json_str blob_name).
  unfold bind at 1.
  destruct (persistence_stage svc ctx json_str blob_name
              (((h ++ [started_event svc ctx blob_metadata]) ++ tr1) ++ tr2))
    as [[task_result|e] tr3]; [|reflexivity].
  unfold bind, ret. fold (completed_event ctx task_result).
  fold (result_payload blob_metadata text_result task_result).
  reflexivity.
Qed.

(** ** C1: stage order and fail-fast *)







(** ** What the activities call *)

Section Emits.

Context {V : Type} {em : Emits V} (P : V -> Prop).

Lemma emits_ret {E A} (a : A) : emits P (ret (E := E) a).
Proof. intros h. constructor. Qed.

Lemma emits_raise {E A} (e : E) : emits P (raise (A := A) e).
Proof. intros h. constructor. Qed.

Lemma emits_lift {E A} (o : outcome E A) : emits P (lift_outcome o).
Proof. intros h. constructor. Qed.

Lemma emits_bind {E A B} (m : M V E A) (f : A -> M V E B) :
  emits P m -> (forall a, emits P (f a)) -> emits P (bind m f).
Proof.
  intros Hm Hf h. unfold bind. specialize (Hm h).
  destruct (m h) as [[a|e] l1]; simpl in *; [|assumption].
  specialize (Hf a (h ++ map as_event l1)).
  destruct (f a (h ++ map as_event l1)) as [r l2]. simpl in *.
  apply Forall_app; auto.
Qed.

Lemma emits_try {E E' A} (m : M V E A) (handler : E -> M V E' A) :
  emits P m -> (forall e, emits P (handler e)) -> emits P (try_except m handler).
Proof.
  intros Hm Hf h. unfold try_except. specialize (Hm h).
  destruct (m h) as [[a|e] l1]; simpl in *; [assumption|].
  specialize (Hf e (h ++ map as_event l1)).
  destruct (handler e (h ++ map as_event l1)) as [r l2]. simpl in *.
  apply Forall_app; auto.
Qed.

End Emits.

Lemma emits_call {A} (P : service_call -> Prop) (c : service_call)
    (oracle : history -> outcome pyerr A) :
  P c -> emits P (call c oracle).
Proof. intros Hc h. simpl. auto. Qed.

Ltac emits_step :=
  first
    [ apply emits_ret | apply emits_raise | apply emits_lift
    | apply emits_call; reflexivity
    | apply emits_bind; [|intros ?]
    | apply emits_try; [|intros ?]
    | match goal with
      | |- emits _ (match ?x with _ => _ end) => destruct x
      end ].

Lemma runDocIntel_no_upload (svc : services) (input : pyval) :
  emits no_upload (runDocIntel.extract_text_from_blob svc input).
Proof.
  unfold runDocIntel.extract_text_from_blob, runDocIntel.analyze, get_blob_content.
  repeat emits_step.
Qed.

Lemma callAoai_no_upload (svc : services) (input : pyval) :
  emits no_upload (callAoai.run svc input).
Proof.
  unfold callAoai.run, callAoai.call_model, load_prompts, load_prompts_from_blob,
    load_prompts_from_cosmos, run_prompt, get_blob_content.
  repeat emits_step.
Qed.

Lemma uploads_calls (calls : list service_call) :
  Forall no_upload calls -> uploads (map EvCall calls) = [].
Proof.
  unfold uploads. rewrite service_calls_calls.
  induction 1 as [|c calls Hc _ IH]; simpl; [reflexivity|].
  rewrite Hc, IH. reflexivity.
Qed.

Lemma retry_from_no_upload (name : string) (opts : RetryOptions)
    (activity : pyval -> Act pyval) (input : pyval) :
  emits no_upload (activity input) ->
  forall remaining attempt h,
    uploads (snd (retry_from name opts activity input attempt remaining h)) = [].
Proof.
  intros Hact. induction remaining as [|remaining IH]; intros attempt h; simpl.
  - pose proof (Hact (h ++ [EvActivity name attempt input])) as Hq.
    destruct (activity input (h ++ [EvActivity name attempt input])) as [[v|e] calls];
      simpl in *; change (EvActivity name attempt input :: map EvCall calls)
                    with ([EvActivity name attempt input] ++ map EvCall calls);
      rewrite uploads_app, uploads_calls by assumption; reflexivity.
  - pose proof (Hact (h ++ [EvActivity name attempt input])) as Hq.
    destruct (activity input (h ++ [EvActivity name attempt input])) as [[v|e] calls];
      simpl in Hq.
    + simpl. change (EvActivity name attempt input :: map EvCall calls)
               with ([EvActivity name attempt input] ++ map EvCall calls).
      rewrite uploads_app, uploads_calls by assumption. reflexivity.
    + specialize (IH (S attempt)
                     (h ++ EvActivity name attempt input :: map EvCall calls
                        ++ [EvTimer (retry_delay opts (S attempt))])).
      destruct (retry_from name opts activity input (S attempt) remaining
                  (h ++ EvActivity name attempt input :: map EvCall calls
                     ++ [EvTimer (retry_delay opts (S attempt))])) as [r l].
      simpl in *.
      change (EvActivity name attempt input
              :: map EvCall calls ++ EvTimer (retry_delay opts (S attempt)) :: l)
        with ([EvActivity name attempt input]
              ++ map EvCall calls ++ [EvTimer (retry_delay opts (S attempt))] ++ l).
      rewrite !uploads_app, uploads_calls, IH by assumption. reflexivity.
Qed.

(** One attempt of [writeToBlob] on the arguments [process_blob] builds: it
    returns, having written nothing or one blob under the destination key. *)
Lemma writeToBlob_attempt (svc : services) (json_str blob_name : pyval)
    (dest : string) (h : history) :
  exists result calls,
    writeToBlob.extract_text_from_blob svc
      (PDict [("json_str", json_str); ("blob_name", blob_name);
              ("instance_id", PStr dest)]) h
    = (Returned result, calls)
    /\ (exists d ok, result = PDict d /\ dict_get d "success" = Some (PBool ok))
    /\ (calls = []
        \/ exists s name,
             json_str = PStr s /\ blob_name = PStr name
             /\ calls = [Call "upload_blob"
                           [PStr (NEXT_STAGE svc);
                            PStr (destination_key dest name); PStr s]]).
Proof.
  unfold writeToBlob.extract_text_from_blob, writeToBlob.write_output,
    writeToBlob.report_error, try_except, write_to_blob, bind, call, lift_outcome,
    raise, ret.
  simpl. destruct json_str; simpl;
    try (do 2 eexists; split; [reflexivity|split; [do 2 eexists; split; reflexivity|left; reflexivity]]).
  destruct (String.eqb (strip s) ""); simpl;
    try (do 2 eexists; split; [reflexivity|split; [do 2 eexists; split; reflexivity|left; reflexivity]]).
  destruct blob_name; simpl;
    try (do 2 eexists; split; [reflexivity|split; [do 2 eexists; split; reflexivity|left; reflexivity]]).
  match goal with
  | |- context [upload_blob ?a ?b ?c ?d ?e] =>
      destruct (upload_blob a b c d e) as [[]|e']
  end; simpl.
  - do 2 eexists; split; [reflexivity|]. split; [do 2 eexists; split; reflexivity|].
    right. exists s, s0. auto.
  - do 2 eexists; split; [reflexivity|]. split; [do 2 eexists; split; reflexivity|].
    right. exists s, s0. auto.
Qed.

(** ** C6: the destination key *)

Lemma retry_from_returned (name : string) (opts : RetryOptions)
    (activity : pyval -> Act pyval) (input : pyval) (attempt remaining : nat)
    (h : history) (v : pyval) (calls : list service_call) :
  activity input (h ++ [EvActivity name attempt input]) = (Returned v, calls) ->
  retry_from name opts activity input attempt remaining h
  = (Returned v, EvActivity name attempt input :: map EvCall calls).
Proof. intros H. destruct remaining; simpl; rewrite H; reflexivity. Qed.

Lemma uploads_cons_track (name : string) (dims : list (string * pyval)) (tr : list event) :
  uploads (EvTrack name dims :: tr) = uploads tr.
Proof. reflexivity. Qed.

Lemma extraction_no_upload (svc : services) (blob_metadata : pyval) (h : history) :
  uploads (snd (extraction_stage svc blob_metadata h)) = [].
Proof. apply retry_from_no_upload, runDocIntel_no_upload. Qed.

Lemma transformation_no_upload (svc : services) (ctx : function_app.context)
    (text_result : pyval) (h : history) :
  uploads (snd (transformation_stage svc ctx text_result h)) = [].
Proof. apply retry_from_no_upload, callAoai_no_upload. Qed.

(** The persistence stage on the arguments of [process_blob]: one attempt,
    which returns; at most one write, under the destination key. *)
Lemma persistence_stage_writes (svc : services) (ctx : function_app.context)
    (json_str blob_name : pyval) (h : history) :
  exists result tr,
    persistence_stage svc ctx json_str blob_name h = (Returned result, tr)
    /\ (exists d ok, result = PDict d /\ dict_get d "success" = Some (PBool ok))
    /\ activity_names tr = ["writeToBlob"]
    /\ terminal_events tr = []
    /\ (uploads tr = []
        \/ exists name,
             blob_name = PStr name
             /\ uploads tr = [(NEXT_STAGE svc,
                               destination_key (function_app.destination_instance ctx) name)]).
Proof.
  unfold persistence_stage, call_activity_with_retry.
  set (args := PDict [("json_str", json_str); ("blob_name", blob_name);
                      ("instance_id", PStr (function_app.destination_instance ctx))]).
  destruct (writeToBlob_attempt svc json_str blob_name
              (function_app.destination_instance ctx)
              (h ++ [EvActivity "writeToBlob" 1 args]))
    as (result & calls & Hrun & Hshape & Hcalls).
  fold args in Hrun.
  rewrite (retry_from_returned _ _ _ _ _ _ _ _ _ Hrun).
  exists result, (EvActivity "writeToBlob" 1 args :: map EvCall calls).
  split; [reflexivity|]. split; [exact Hshape|].
  split; [simpl; now rewrite activity_names_calls|].
  split; [simpl; now rewrite terminal_events_calls|].
  destruct Hcalls as [-> | (s & name & -> & -> & ->)].
  - left. reflexivity.
  - right. exists name. split; reflexivity.
Qed.

(** C6.  For every document of a batch (a workflow whose parent instance id
    is set), whatever the persistence stage writes, it writes to the
    container of the next stage under the key
    [{batchInstanceId}/{documentBaseName}-output.json]: the instance id is
    the parent's, not the workflow's own, and the base name is the last
    component of the document name without its extension.  A workflow writes
    at most once. *)
Theorem output_destination (svc : services) (ctx : function_app.context)
    (blob_metadata : pyval) (batch_id : string) (h : history) :
  function_app.parent_instance_id ctx = Some batch_id ->
  batch_id <> "" ->
  uploads (snd (function_app.process_blob svc ctx blob_metadata h)) = []
  \/ exists name,
       subscript blob_metadata "name" = Returned (PStr name)
       /\ uploads (snd (function_app.process_blob svc ctx blob_metadata h))
          = [(NEXT_STAGE svc,
              (batch_id ++ "/" ++ fst (splitext (basename name)) ++ "-output.json")%string)].
Proof.
  intros Hparent Hne.
  assert (Hdest : function_app.destination_instance ctx = batch_id).
  { unfold function_app.destination_instance. rewrite Hparent.
    destruct (String.eqb_spec batch_id ""); [contradiction|reflexivity]. }
  rewrite process_blob_unfold. unfold process_blob_by_stage.
  set (h1 := h ++ [started_event svc ctx blob_metadata]).
  pose proof (extraction_no_upload svc blob_metadata h1) as H1.
  destruct (extraction_stage svc blob_metadata h1) as [[text|e1] tr1]; simpl in H1.
  2:{ left. simpl snd. unfold started_event, function_app.tracked.
      rewrite uploads_cons_track. exact H1. }
  pose proof (transformation_no_upload svc ctx text (h1 ++ tr1)) as H2.
  destruct (transformation_stage svc ctx text (h1 ++ tr1)) as [[json|e2] tr2]; simpl in H2.
  2:{ left. simpl snd. unfold started_event, function_app.tracked.
      rewrite uploads_cons_track, uploads_app, H1, H2. reflexivity. }
  destruct (subscript blob_metadata "name") as [blob_name|e3] eqn:Hname.
  2:{ left. simpl snd. unfold started_event, function_app.tracked.
      rewrite uploads_cons_track, uploads_app, H1, H2. reflexivity. }
  destruct (persistence_stage_writes svc ctx json blob_name ((h1 ++ tr1) ++ tr2))
    as (result & tr3 & -> & _ & _ & _ & H3).
  simpl snd. unfold started_event, function_app.tracked.
  rewrite uploads_cons_track, !uploads_app, H1, H2. simpl.
  unfold completed_event, function_app.tracked. unfold uploads at 2 4. simpl.
  rewrite app_nil_r.
  destruct H3 as [H3 | (name & -> & H3)].
  - left. exact H3.
  - right. exists name. split; [reflexivity|]. rewrite H3, Hdest. reflexivity.
Qed.

(** The document [bronze/file.txt] of the batch [batch-1]. *)
Lemma output_destination_witness :
  uploads (snd (function_app.process_blob Examples.svc_ok Examples.doc_ctx
                  (Examples.ref "bronze/file.txt") []))
  = [("silver", "batch-1/file-output.json")].
Proof.
  destruct (output_destination Examples.svc_ok Examples.doc_ctx
              (Examples.ref "bronze/file.txt") "batch-1" [] eq_refl)
    as [Hnone | (name & Hname & Hkey)].
  - discriminate.
  - vm_compute in Hnone. discriminate Hnone.
  - inversion Hname; subst name. exact Hkey.
Defined.

(** ** A document workflow on a named reference always returns *)

Lemma extraction_returns (svc : services) (d : list (string * pyval)) (h : history) :
  exists text tr,
    extraction_stage svc (PDict d) h = (Returned text, tr) /\ terminal_events tr = [].
Proof.
  unfold extraction_stage, call_activity_with_retry.
  set (ev := EvActivity "runDocIntel" 1 (PDict d)).
  assert (Hact : exists v calls,
             runDocIntel.extract_text_from_blob svc (PDict d) (h ++ [ev])
             = (Returned v, calls)).
  { unfold runDocIntel.extract_text_from_blob, bind, ret, try_except. simpl.
    destruct (runDocIntel.analyze svc (PDict d) ((h ++ [ev]) ++ [])) as [[v|e] calls];
      simpl; eauto. }
  destruct Hact as (v & calls & Hact).
  rewrite (retry_from_returned _ _ _ _ _ _ _ _ _ Hact).
  exists v, (ev :: map EvCall calls). split; [reflexivity|].
  simpl. apply terminal_events_calls.
Qed.

Lemma transformation_returns (svc : services) (ctx : function_app.context)
    (text_result : pyval) (h : history) :
  exists json tr,
    transformation_stage svc ctx text_result h = (Returned json, tr)
    /\ terminal_events tr = [].
Proof.
  unfold transformation_stage, call_activity_with_retry.
  set (input := PDict [("text_result", text_result);
                       ("instance_id", PStr (function_app.instance_id ctx))]).
  set (ev := EvActivity "callAoai" 1 input).
  assert (Hact : exists v calls, callAoai.run svc input (h ++ [ev]) = (Returned v, calls)).
  { unfold callAoai.run, try_except.
    destruct (callAoai.call_model svc input _ (h ++ [ev])) as [[v|e] calls]; simpl; eauto. }
  destruct Hact as (v & calls & Hact).
  rewrite (retry_from_returned _ _ _ _ _ _ _ _ _ Hact).
  exists v, (ev :: map EvCall calls). split; [reflexivity|].
  simpl. apply terminal_events_calls.
Qed.

Lemma process_blob_returns (svc : services) (ctx : function_app.context)
    (blob_metadata : pyval) (h : history) :
  has_name blob_metadata = true ->
  exists entry tr,
    function_app.process_blob svc ctx blob_metadata h = (Returned entry, tr)
    /\ entry_for blob_metadata entry
    /\ terminal_events tr = [].
Proof.
  intros Hname. rewrite process_blob_unfold. unfold process_blob_by_stage.
  destruct blob_metadata as [| | | |l|d]; try discriminate.
  simpl in Hname. unfold subscript.
  destruct (dict_get d "name") as [blob_name|]; [|discriminate].
  set (h1 := h ++ [started_event svc ctx (PDict d)]).
  destruct (extraction_returns svc d h1) as (text & tr1 & -> & Ht1).
  destruct (transformation_returns svc ctx text (h1 ++ tr1)) as (json & tr2 & -> & Ht2).
  destruct (persistence_stage_writes svc ctx json blob_name ((h1 ++ tr1) ++ tr2))
    as (result & tr3 & -> & (dr & ok & -> & Hok) & _ & Ht3 & _).
  do 2 eexists. split; [reflexivity|]. split.
  - exists text, (PDict dr), dr, ok. auto.
  - unfold started_event, completed_event, function_app.tracked. simpl.
    rewrite !terminal_events_app, Ht1, Ht2, Ht3. reflexivity.
Qed.

(** ** The join *)

Section Join.

Variable child_id : nat -> string.
Variable Q : nat -> pyval -> Prop.

Lemma pick_split {A} (l : list A) (c : nat) (x : A) :
  nth_error l c = Some x ->
  exists l1 l2, l = l1 ++ x :: l2 /\ firstn c l ++ skipn (S c) l = l1 ++ l2.
Proof.
  revert l. induction c as [|c IH]; intros [|a l] H; simpl in *; try discriminate.
  - inversion H; subst. exists [], l. auto.
  - destruct (IH l H) as (l1 & l2 & -> & Heq).
    exists (a :: l1), l2. simpl. split; [reflexivity|]. f_equal. exact Heq.
Qed.

Lemma completions_spec (n : nat) :
  forall sched pending h,
    length pending = n ->
    Forall (completes child_id Q) pending ->
    Permutation (map fst (fst (completions n sched pending h))) (map fst pending)
    /\ Forall (done_well Q) (fst (completions n sched pending h))
    /\ Permutation (map fst (terminal_events (snd (completions n sched pending h))))
                   (map child_id (map fst pending))
    /\ Forall is_completed (terminal_events (snd (completions n sched pending h))).
Proof.
  induction n as [|n IH]; intros sched pending h Hlen Hall.
  - destruct pending; [|discriminate]. simpl. repeat split; constructor.
  - cbn [completions].
    assert (Hc : Nat.modulo (hd 0 sched) (length pending) < length pending).
    { apply Nat.mod_upper_bound. lia. }
    destruct (nth_error pending (Nat.modulo (hd 0 sched) (length pending)))
      as [[i task]|] eqn:Hnth.
    2:{ apply nth_error_None in Hnth. lia. }
    destruct (pick_split _ _ _ Hnth) as (l1 & l2 & Hpending & Hrest).
    rewrite Hrest.
    assert (Hit : completes child_id Q (i, task)).
    { rewrite Forall_forall in Hall. apply Hall. rewrite Hpending.
      apply in_or_app. right. left. reflexivity. }
    destruct (Hit h) as (v & tr & Hrun & Hterm & Hq). simpl in Hrun, Hq.
    rewrite Hrun.
    assert (Hlen' : length (l1 ++ l2) = n).
    { rewrite Hpending in Hlen. rewrite length_app in *. simpl in Hlen. lia. }
    assert (Hall' : Forall (completes child_id Q) (l1 ++ l2)).
    { rewrite Hpending in Hall. apply Forall_app in Hall as [H1 H2].
      apply Forall_app. split; [assumption|]. now inversion H2. }
    specialize (IH (tl sched) (l1 ++ l2)
                   (h ++ tr ++ [EvTerminal (child_id i) (Completed v)]) Hlen' Hall').
    destruct (completions n (tl sched) (l1 ++ l2)
                (h ++ tr ++ [EvTerminal (child_id i) (Completed v)])) as [rs l].
    simpl in *. destruct IH as (Hperm & Hdone & Hids & Hcompleted).
    rewrite Hpending. rewrite !map_app in *. simpl.
    rewrite !terminal_events_app, Hterm. simpl.
    split; [|split; [|split]].
    + apply Permutation_cons_app. exact Hperm.
    + constructor; [|exact Hdone]. exists v. auto.
    + apply Permutation_cons_app. exact Hids.
    + constructor; [|exact Hcompleted]. exists v. reflexivity.
Qed.

Lemma lookup_done (done : list (nat * outcome orch_err pyval)) (i : nat) :
  Forall (done_well Q) done ->
  In i (map fst done) ->
  exists v, lookup_outcome i done = Some (Returned v) /\ Q i v.
Proof.
  induction 1 as [|[j r] done (v & Hr & Hq) _ IH]; simpl; [contradiction|].
  intros Hin. simpl in Hr, Hq. destruct (Nat.eqb_spec i j) as [->|Hne].
  - exists v. subst r. auto.
  - destruct Hin as [Heq|Hin]; [congruence|]. auto.
Qed.

Lemma collect_returns (done : list (nat * outcome orch_err pyval)) (idxs : list nat) :
  (forall i, In i idxs -> exists v, lookup_outcome i done = Some (Returned v) /\ Q i v) ->
  exists vs,
    collect (map (fun i => lookup_outcome i done) idxs) = Returned vs
    /\ Forall2 Q idxs vs.
Proof.
  induction idxs as [|i idxs IH]; intros H; simpl.
  - exists []. split; constructor.
  - destruct (H i (or_introl eq_refl)) as (v & -> & Hq).
    destruct IH as (vs & -> & Hvs); [intros; apply H; now right|].
    exists (v :: vs). split; [reflexivity|]. constructor; assumption.
Qed.

(** The join of children that all complete: the results in task order. *)
Lemma task_all_returns (sched : list nat) (tasks : list (Orch pyval)) (h : history) :
  Forall (completes child_id Q) (number_from 0 tasks) ->
  exists vs tr,
    task_all sched tasks h = (Returned vs, tr)
    /\ Forall2 Q (seq 0 (length tasks)) vs
    /\ Permutation (map fst (terminal_events tr)) (map child_id (seq 0 (length tasks)))
    /\ Forall is_completed (terminal_events tr).
Proof.
  intros Hall. unfold task_all.
  assert (Hidx : forall k (l : list (Orch pyval)),
             map fst (number_from k l) = seq k (length l)).
  { intros k l. revert k. induction l as [|a l IH]; intros k; simpl; [reflexivity|].
    now rewrite IH. }
  assert (Hlen : length (number_from 0 tasks) = length tasks).
  { rewrite <- (length_map fst), Hidx. apply length_seq. }
  destruct (completions_spec (length tasks) sched (number_from 0 tasks) h Hlen Hall)
    as (Hperm & Hdone & Hids & Hcompleted).
  destruct (completions (length tasks) sched (number_from 0 tasks) h) as [done tr].
  simpl in *. rewrite Hidx in Hperm, Hids.
  destruct (collect_returns done (seq 0 (length tasks))) as (vs & Hvs & Hq).
  { intros i Hi. apply lookup_done; [assumption|].
    eapply Permutation_in; [apply Permutation_sym; exact Hperm|exact Hi]. }
  exists vs, tr. rewrite Hvs. auto.
Qed.

End Join.

(** ** The batch orchestrator *)

Lemma number_from_map {A B} (f : nat * A -> B) (l : list A) :
  forall k, number_from k (map f (number_from k l))
            = map (fun ia => (fst ia, f ia)) (number_from k l).
Proof. induction l as [|a l IH]; intros k; simpl; [reflexivity|]. now rewrite IH. Qed.

Lemma number_from_nth {A} (l : list A) :
  forall k i a, In (i, a) (number_from k l) -> k <= i /\ nth_error l (i - k) = Some a.
Proof.
  induction l as [|x l IH]; intros k i a Hin; simpl in *; [contradiction|].
  destruct Hin as [Heq|Hin].
  - inversion Heq; subst. rewrite Nat.sub_diag. auto.
  - destruct (IH _ _ _ Hin) as [Hle Hnth]. split; [lia|].
    replace (i - k) with (S (i - S k)) by lia. exact Hnth.
Qed.

Lemma forall2_seq {A} (Q : nat -> A -> Prop) (n : nat) :
  forall k vs,
    Forall2 Q (seq k n) vs ->
    length vs = n
    /\ forall i, i < n -> exists v, nth_error vs i = Some v /\ Q (k + i) v.
Proof.
  induction n as [|n IH]; intros k vs H; simpl in H; inversion H; subst.
  - split; [reflexivity|]. intros i Hi. lia.
  - destruct (IH _ _ H4) as [Hlen Hnth]. split; [simpl; now rewrite Hlen|].
    intros [|i] Hi; simpl.
    + exists y. rewrite Nat.add_0_r. auto.
    + destruct (Hnth i) as (v & Hv & Hq); [lia|]. exists v.
      replace (k + S i) with (S k + i) by lia. auto.
Qed.

(** A batch of named references: every child completes, whatever the
    collaborators answer and in whatever order the children finish, and the
    batch completes after them with one entry per reference in input order. *)
Lemma batch_run (svc : services) (batch_id : string) (sched : list nat)
    (blobs : list pyval) (h : history) :
  Forall (fun b => has_name b = true) blobs ->
  exists results children,
    batch_completes_with svc batch_id sched blobs h results children
    /\ Forall2 (entry_at blobs) (seq 0 (length blobs)) results
    /\ Permutation (map fst (terminal_events children))
                   (map (child_instance_id svc batch_id) (seq 0 (length blobs)))
    /\ Forall is_completed (terminal_events children).
Proof.
  intros Hnamed.
  set (ctx := function_app.mkContext batch_id None).
  set (tasks := map (function_app.call_sub_orchestrator svc ctx) (number_from 0 blobs)).
  assert (Hlen : length tasks = length blobs).
  { unfold tasks. rewrite length_map.
    clear. generalize 0. induction blobs; intros k; simpl; auto. }
  assert (Hall : Forall (completes (child_instance_id svc batch_id) (entry_at blobs))
                        (number_from 0 tasks)).
  { unfold tasks. rewrite number_from_map. apply Forall_map, Forall_forall.
    intros [i blob] Hin h'. simpl.
    destruct (number_from_nth _ _ _ _ Hin) as [_ Hnth]. rewrite Nat.sub_0_r in Hnth.
    assert (Hb : has_name blob = true).
    { rewrite Forall_forall in Hnamed. apply Hnamed. eapply nth_error_In; eauto. }
    unfold function_app.call_sub_orchestrator, orchestration. simpl.
    destruct (process_blob_returns svc
                (function_app.mkContext (child_instance_id svc batch_id i) (Some batch_id))
                blob h' Hb) as (entry & tr & -> & Hentry & Hterm).
    exists entry, tr. split; [reflexivity|]. split; [assumption|].
    exists blob. auto. }
  destruct (task_all_returns _ _ sched tasks (h ++ []) Hall)
    as (vs & tr & Hjoin & Hq & Hids & Hcompleted).
  rewrite Hlen in Hq, Hids.
  exists vs, tr. split; [|auto].
  unfold batch_completes_with, function_app.batch, orchestration, function_app.run.
  fold ctx. unfold bind at 1. unfold function_app.orch, function_app.py_iter, lift_outcome.
  cbn [map]. fold tasks. unfold bind at 1. rewrite Hjoin.
  unfold function_app._track_event, emit, bind, ret. simpl.
  rewrite <- app_assoc. reflexivity.
Qed.

(** ** C3: the batch after its children *)




Section Settling.

Variable child_id : nat -> string.
Variable P : nat -> outcome orch_err pyval -> Prop.


End Settling.









(** ** C7: the batch result follows the input order *)

(** C7.  For every batch of references, whatever the order in which the
    children finish, the result of the batch lists one entry per reference in
    the order of the input: the [i]-th entry carries the [i]-th reference,
    the text extracted from it ([None] if that failed) and the record of its
    persistence, which says whether it succeeded. *)
Theorem batch_result_in_input_order (svc : services) (batch_id : string)
    (sched : list nat) (blobs : list pyval) (h : history) :
  Forall (fun b => has_name b = true) blobs ->
  exists results,
    fst (function_app.batch svc batch_id sched (PList blobs) h) = Returned (PList results)
    /\ length results = length blobs
    /\ forall i blob_metadata,
         nth_error blobs i = Some blob_metadata ->
         exists entry, nth_error results i = Some entry /\ entry_for blob_metadata entry.
Proof.
  intros Hnamed.
  destruct (batch_run svc batch_id sched blobs h Hnamed)
    as (results & children & Hrun & Hq & _).
  exists results. unfold batch_completes_with in Hrun. rewrite Hrun.
  split; [reflexivity|].
  destruct (forall2_seq _ _ _ _ Hq) as [Hlen Hnth].
  split; [exact Hlen|].
  intros i blob Hi.
  destruct (Hnth i) as (entry & Hentry & (blob' & Hblob' & Hfor)).
  { apply nth_error_Some. congruence. }
  simpl in Hblob'. exists entry. split; [exact Hentry|]. congruence.
Qed.

(** The second document finishes first and is still listed second. *)
Lemma batch_result_in_input_order_witness :
  map fst (terminal_events
             (snd (function_app.batch Examples.svc_missing_blob "batch-1" [1; 0]
                     (PList [Examples.ref "missing.pdf"; Examples.ref "b.pdf"]) [])))
  = ["batch-1:1"; "batch-1:0"; "batch-1"]
  /\ exists results,
      fst (function_app.batch Examples.svc_missing_blob "batch-1" [1; 0]
             (PList [Examples.ref "missing.pdf"; Examples.ref "b.pdf"]) [])
      = Returned (PList results)
      /\ length results = 2
      /\ forall i blob_metadata,
           nth_error [Examples.ref "missing.pdf"; Examples.ref "b.pdf"] i
           = Some blob_metadata ->
           exists entry, nth_error results i = Some entry /\ entry_for blob_metadata entry.
Proof.
  split; [reflexivity|].
  apply (batch_result_in_input_order Examples.svc_missing_blob "batch-1" [1; 0]
           [Examples.ref "missing.pdf"; Examples.ref "b.pdf"] []).
  repeat constructor.
Defined.

(** ** C8: listing recent instances *)

Section Listing.

Import http.

Lemma insert_newest_perm (x : DurableOrchestrationStatus) (l : list DurableOrchestrationStatus) :
  Permutation (insert_newest x l) (x :: l).
Proof.
  induction l as [|y l IH]; simpl; [reflexivity|].
  destruct (created_instant y <=? created_instant x)%Z; [reflexivity|].
  rewrite IH. apply perm_swap.
Qed.

Lemma sort_newest_first_perm (l : list DurableOrchestrationStatus) :
  Permutation (sort_newest_first l) l.
Proof.
  induction l as [|x l IH]; simpl; [reflexivity|].
  rewrite insert_newest_perm. now constructor.
Qed.

Lemma insert_newest_sorted (x : DurableOrchestrationStatus) (l : list DurableOrchestrationStatus) :
  newest_first l -> newest_first (insert_newest x l).
Proof.
  unfold newest_first. induction 1 as [|y l Hl IH Hy]; simpl.
  - repeat constructor.
  - destruct (Z.leb_spec (created_instant y) (created_instant x)) as [Hle|Hlt].
    + constructor; [constructor; assumption|].
      constructor; [exact Hle|].
      rewrite Forall_forall in *. intros z Hz. specialize (Hy z Hz).
      unfold newer_or_equal in *. lia.
    + constructor; [exact IH|].
      rewrite Forall_forall in *. intros z Hz.
      apply (Permutation_in _ (insert_newest_perm x l)) in Hz.
      destruct Hz as [<-|Hz]; [unfold newer_or_equal; lia|auto].
Qed.

Lemma sort_newest_first_sorted (l : list DurableOrchestrationStatus) :
  newest_first (sort_newest_first l).
Proof.
  induction l as [|x l IH]; simpl; [constructor|]. now apply insert_newest_sorted.
Qed.

Lemma sorted_split (l1 l2 : list DurableOrchestrationStatus) :
  newest_first (l1 ++ l2) ->
  newest_first l1
  /\ forall a b, In a l1 -> In b l2 -> newer_or_equal a b.
Proof.
  unfold newest_first. induction l1 as [|x l1 IH]; simpl; intros H.
  - split; [constructor|]. intros a b [].
  - inversion H as [|? ? Hs Hx]; subst. destruct (IH Hs) as [Hl1 Hcross].
    rewrite Forall_forall in Hx. split.
    + constructor; [assumption|]. rewrite Forall_forall. intros z Hz.
      apply Hx, in_or_app. now left.
    + intros a b [<-|Ha] Hb; [apply Hx, in_or_app; now right|auto].
Qed.

Lemma clamp_bounds (limit : Z) : (1 <= Z.max 1 (Z.min limit 100) <= 100)%Z.
Proof. lia. Qed.

(** A naive created time against a naive [since]: the readings decide. *)
Lemma datetime_ge_naive (t c : datetime) :
  is_aware t = false ->
  datetime_ge (replace_tzinfo_none c) t = Returned (wall t <=? wall c)%N.
Proof.
  unfold datetime_ge, is_aware, instant, replace_tzinfo_none. simpl.
  destruct (utcoffset t); [discriminate|]. intros _. simpl. f_equal.
  destruct (N.leb_spec (wall t) (wall c)); [apply Z.leb_le|apply Z.leb_gt]; lia.
Qed.

(** Against an aware [since] the comparison raises. *)
Lemma datetime_ge_aware (t c : datetime) :
  is_aware t = true ->
  datetime_ge (replace_tzinfo_none c) t = Raised type_error_naive_aware.
Proof.
  unfold datetime_ge, is_aware, replace_tzinfo_none. simpl.
  destruct (utcoffset t); [reflexivity|discriminate].
Qed.

Lemma created_since_naive (t : datetime) (l : list DurableOrchestrationStatus) :
  is_aware t = false -> created_since t l = Returned (filter (at_or_after t) l).
Proof.
  intros Ht. induction l as [|s l IH]; [reflexivity|].
  cbn [created_since filter]. unfold at_or_after at 1.
  destruct (created_time s) as [c|]; [|exact IH].
  rewrite (datetime_ge_naive _ _ Ht), IH. reflexivity.
Qed.

Lemma created_since_aware (t : datetime) (l : list DurableOrchestrationStatus) :
  is_aware t = true ->
  if forallb (fun s => match created_time s with Some _ => false | None => true end) l
  then created_since t l = Returned []
  else created_since t l = Raised type_error_naive_aware.
Proof.
  intros Ht. induction l as [|s l IH]; [reflexivity|].
  cbn [created_since forallb].
  destruct (created_time s) as [c|]; [|exact IH].
  simpl. now rewrite (datetime_ge_aware _ _ Ht).
Qed.

Lemma listable_candidates (since_time : option datetime)
    (l : list DurableOrchestrationStatus) :
  since_usable since_time l = true ->
  match since_time with Some t => created_since t l | None => Returned l end
  = Returned (candidates since_time l).
Proof.
  unfold since_usable. destruct since_time as [t|]; [|reflexivity]. simpl.
  destruct (is_aware t) eqn:Ht; simpl.
  - intros Hnone. pose proof (created_since_aware t l Ht) as H. rewrite Hnone in H.
    rewrite H. f_equal. symmetry.
    clear H. induction l as [|s l IH]; [reflexivity|]. simpl in Hnone |- *.
    unfold at_or_after at 1. destruct (created_time s); [discriminate|]. now apply IH.
  - intros _. now apply created_since_naive.
Qed.

Lemma select_recent_returns (since_time : option datetime) (limit : Z)
    (l : list DurableOrchestrationStatus) :
  listable since_time l = true ->
  select_recent since_time limit l
  = Returned (firstn (Z.to_nat limit) (sort_newest_first (candidates since_time l))).
Proof.
  unfold listable. intros H. apply andb_prop in H as [Hsince Hkeys].
  unfold select_recent. rewrite (listable_candidates _ _ Hsince).
  unfold sort_statuses. now rewrite Hkeys.
Qed.

Lemma select_recent_raises (since_time : option datetime) (limit : Z)
    (l : list DurableOrchestrationStatus) :
  listable since_time l = false ->
  select_recent since_time limit l = Raised type_error_naive_aware.
Proof.
  unfold listable, select_recent. destruct (since_usable since_time l) eqn:Hsince.
  - rewrite (listable_candidates _ _ Hsince). simpl. intros Hkeys.
    unfold sort_statuses. now rewrite Hkeys.
  - intros _. unfold since_usable in Hsince. destruct since_time as [t|]; [|discriminate].
    destruct (is_aware t) eqn:Ht; [|discriminate]. simpl in Hsince.
    pose proof (created_since_aware t l Ht) as H. rewrite Hsince in H. now rewrite H.
Qed.

End Listing.

(** C8.  The listing of recent instances takes its limit from the query
    (20 when absent, otherwise the integer given), clamps it to 1..100, keeps
    only the instances created at or after [since] when one is given, and
    lists the newest first by creation time, cut to the limit: no instance
    left out is newer than a listed one.  With [limit=5] and ten instances
    exactly the five newest are listed.  This is what the handler answers
    when the datetimes it compares are all naive or all offset-aware
    ([listable]); when they are not, the comparison raises [TypeError],
    nothing catches it, and no listing is answered. *)
Theorem list_recent (env : http.environment) (req : http.HttpRequest)
    (statuses : list http.DurableOrchestrationStatus) :
  http.parse_limit env None = Some 20%Z
  /\ (forall s n, s <> "" -> http.py_int env s = Some n ->
        http.parse_limit env (Some s) = Some (Z.max 1 (Z.min n 100))
        /\ (1 <= Z.max 1 (Z.min n 100) <= 100)%Z)
  /\ (forall since_time limit,
        listable since_time statuses = true ->
        exists listed,
          http.select_recent since_time limit statuses = Returned listed
          /\ newest_first listed
          /\ length listed = Nat.min (Z.to_nat limit) (length (candidates since_time statuses))
          /\ (forall s, In s listed -> In s statuses)
          /\ (forall t s, since_time = Some t -> In s listed ->
                exists c, http.created_time s = Some c /\ (http.wall t <= http.wall c)%N)
          /\ exists left_out,
               Permutation (listed ++ left_out) (candidates since_time statuses)
               /\ forall a b, In a listed -> In b left_out -> newer_or_equal a b)
  /\ (forall since_time limit,
        listable since_time statuses = false ->
        http.select_recent since_time limit statuses = Raised http.type_error_naive_aware)
  /\ (forall limit since_time,
        fst (http._authenticate_request env req (http.uuid4 env)) = true ->
        http.parse_limit env (http.lookup (http.params req) "limit") = Some limit ->
        match http.lookup (http.params req) "since" with
        | Some s => if String.eqb s "" then since_time = None
                    else http.fromisoformat env s = since_time /\ since_time <> None
        | None => since_time = None
        end ->
        http.list_orchestration_history env req (Returned statuses)
        = match http.select_recent since_time limit statuses with
          | Returned listed =>
              Returned (http._json_response true "History retrieved." 200 (http.uuid4 env)
                          (Some [("items", PList (map (http.summary env) listed));
                                 ("continuationToken", PNone)]))
          | Raised e => Raised e
          end)
  /\ (length statuses = 10 -> http.keys_compare statuses = true ->
      http.py_int env "5" = Some 5%Z ->
      http.parse_limit env (Some "5") = Some 5%Z
      /\ exists listed,
           http.select_recent None 5 statuses = Returned listed /\ length listed = 5).
Proof.
  split; [reflexivity|]. split.
  { intros s n Hs Hn. unfold http.parse_limit.
    destruct (String.eqb_spec s ""); [contradiction|]. rewrite Hn. simpl.
    split; [reflexivity|apply clamp_bounds]. }
  split.
  { intros since_time limit Hlistable.
    rewrite (select_recent_returns _ limit _ Hlistable).
    set (sorted := http.sort_newest_first (candidates since_time statuses)).
    exists (firstn (Z.to_nat limit) sorted). split; [reflexivity|].
    assert (Hsorted : newest_first sorted) by apply sort_newest_first_sorted.
    assert (Hperm : Permutation sorted (candidates since_time statuses))
      by apply sort_newest_first_perm.
    rewrite <- (firstn_skipn (Z.to_nat limit) sorted) in Hsorted, Hperm.
    destruct (sorted_split _ _ Hsorted) as [Hfirst Hcross].
    assert (Hin : forall s, In s (firstn (Z.to_nat limit) sorted) ->
                            In s (candidates since_time statuses)).
    { intros s Hs. eapply Permutation_in; [exact Hperm|]. apply in_or_app. now left. }
    split; [exact Hfirst|]. split.
    { rewrite length_firstn. f_equal.
      rewrite <- (firstn_skipn (Z.to_nat limit) sorted).
      apply Permutation_length. exact Hperm. }
    split.
    { intros s Hs. apply Hin in Hs. destruct since_time; simpl in Hs; [|exact Hs].
      apply filter_In in Hs. tauto. }
    split.
    { intros t s -> Hs. apply Hin in Hs. simpl in Hs. apply filter_In in Hs as [_ Hs].
      unfold at_or_after in Hs.
      destruct (http.created_time s) as [c|]; [|discriminate].
      exists c. split; [reflexivity|]. now apply N.leb_le. }
    exists (skipn (Z.to_nat limit) sorted). split; [exact Hperm|exact Hcross]. }
  split; [intros since_time limit; apply select_recent_raises|].
  split.
  { intros limit since_time Hauth Hlimit Hsince. unfold http.list_orchestration_history.
    destruct (http._authenticate_request env req (http.uuid4 env)) as [[|] resp];
      simpl in Hauth; [|discriminate].
    rewrite Hlimit.
    destruct (http.lookup (http.params req) "since") as [s|]; [|subst; reflexivity].
    destruct (String.eqb s ""); [subst; reflexivity|].
    destruct Hsince as [Hparse Hsome]. rewrite Hparse.
    destruct since_time; [reflexivity|contradiction]. }
  intros Hten Hkeys Hfive. split.
  { unfold http.parse_limit. simpl. now rewrite Hfive. }
  assert (Hlistable : listable None statuses = true) by exact Hkeys.
  rewrite (select_recent_returns None 5 _ Hlistable).
  eexists. split; [reflexivity|]. rewrite length_firstn.
  simpl candidates.
  rewrite (Permutation_length (sort_newest_first_perm statuses)), Hten. reflexivity.
Qed.

(** The request [limit=5] over ten instances created at times 1..10. *)
Lemma list_recent_witness :
  (exists listed,
      http.select_recent None 5 Examples.ten_statuses = Returned listed
      /\ length listed = 5)
  /\ (exists listed,
        http.select_recent None 5 Examples.ten_statuses = Returned listed
        /\ newest_first listed)
  /\ http.list_orchestration_history Examples.env0 Examples.list_request
       (Returned Examples.ten_statuses)
     = Returned
         (http._json_response true "History retrieved." 200 "c0ffee"
            (Some [("items",
                    PList (map (http.summary Examples.env0)
                             (map Examples.status_at [10; 9; 8; 7; 6]%N)));
                   ("continuationToken", PNone)])).
Proof.
  destruct (list_recent Examples.env0 Examples.list_request Examples.ten_statuses)
    as (_ & _ & Hselect & _ & Hresponse & Hten).
  split; [apply Hten; reflexivity|]. split.
  - destruct (Hselect None 5%Z eq_refl) as (listed & Hlisted & Hnewest & _).
    now exists listed.
  - rewrite (Hresponse 5%Z None); reflexivity.
Defined.

(** The claim of C8 fails in the code for a [since] with a UTC offset: the
    filter of line 316 compares the naive creation times with it, the
    [TypeError] is not caught, and the request gets no listing. *)
Lemma aware_since_raises :
  ~ (forall (env : http.environment) (req : http.HttpRequest)
            (statuses : list http.DurableOrchestrationStatus) (s : string)
            (since_time : http.datetime),
       fst (http._authenticate_request env req (http.uuid4 env)) = true ->
       http.lookup (http.params req) "limit" = None ->
       http.lookup (http.params req) "since" = Some s ->
       http.fromisoformat env s = Some since_time ->
       exists response,
         http.list_orchestration_history env req (Returned statuses) = Returned response).
Proof.
  intros H.
  destruct (H Examples.env_iso (Examples.since_request "2025-11-11T15:00:00+00:00")
              Examples.ten_statuses "2025-11-11T15:00:00+00:00"
              (http.mkDatetime 5 (Some 0%Z)) eq_refl eq_refl eq_refl eq_refl)
    as [response Hresponse].
  vm_compute in Hresponse. discriminate Hresponse.
Qed.

(** ** C5: starting a batch *)

Lemma has_text_nonempty (d : list (string * pyval)) (k : string) :
  http.has_text d k = true -> has_nonempty d k = true.
Proof.
  unfold http.has_text, has_nonempty.
  destruct (dict_get d k) as [[| | |s| |]|]; try discriminate.
  destruct s; [discriminate|reflexivity].
Qed.

Lemma accepted_nonempty (b : pyval) : accepted_entry b = true -> nonempty_entry b = true.
Proof.
  destruct b; try discriminate. simpl. rewrite !andb_true_r.
  intros H. apply andb_prop in H as [H1 H]. apply andb_prop in H as [H2 H3].
  now rewrite !has_text_nonempty.
Qed.

Lemma first_refusal_accepts (blobs : list pyval) :
  forall i, Forall (fun b => accepted_entry b = true) blobs ->
            http.first_refusal i blobs = None.
Proof.
  induction blobs as [|b blobs IH]; intros i H; simpl; [reflexivity|].
  inversion H as [|? ? Hb Hrest]; subst. destruct b; try discriminate.
  simpl in Hb. fold http.required. change (forallb (http.has_text d) http.required = true) in Hb.
  simpl. unfold http.required in *. simpl in Hb |- *. rewrite Hb. now apply IH.
Qed.

Lemma first_refusal_refuses (blobs : list pyval) :
  forall i, Exists (fun b => accepted_entry b = false) blobs ->
            exists message, http.first_refusal i blobs = Some message.
Proof.
  induction blobs as [|b blobs IH]; intros i H; [inversion H|].
  destruct (accepted_entry b) eqn:Hb.
  - inversion H as [? ? Hb'|? ? Hrest]; subst; [congruence|].
    destruct b; try discriminate. simpl in Hb |- *. unfold http.required. simpl.
    rewrite Hb. now apply IH.
  - destruct b; simpl; eauto. simpl in Hb. unfold http.required. simpl. rewrite Hb. eauto.
Qed.

(** C5 (as amended).  The starter creates no instance whenever the list of
    references is empty or some entry is not a dict with a [name], a [url]
    and a [container] that are strings with something other than white
    space; an entry lacking a non-empty string field is such an entry, and
    so is one whose field holds only white space (blanks, tabs, line
    breaks, no-break spaces and the other white space of Unicode).  For a
    request that passed the guards at the edge the answer is then the
    validation error (400).  For a non-empty list whose entries all have the
    three string fields with something other than white space, a request
    that passed the guards starts one instance on the list and is answered
    202 with the instance id. *)
Theorem start_batch (env : http.environment) (st : http.app_state)
    (req : http.HttpRequest) (d : list (string * pyval)) (blobs : list pyval) :
  http.get_json req = Some (PDict d) ->
  dict_get d "blobs" = Some (PList blobs) ->
  let result := http.start_orchestrator_http env st req in
  (forall b, nonempty_entry b = false -> accepted_entry b = false)
  /\ ((blobs = [] \/ Exists (fun b => accepted_entry b = false) blobs) ->
      http.instances (snd result) = http.instances st
      /\ (passes_guards env st req ->
          exists response,
            fst result = Returned response
            /\ http.status_code response = 400%Z
            /\ dict_get (http.payload response) "success" = Some (PBool false)))
  /\ (blobs <> [] ->
      Forall (fun b => accepted_entry b = true) blobs ->
      passes_guards env st req ->
      exists response,
        fst result = Returned response
        /\ http.status_code response = 202%Z
        /\ dict_get (http.payload response) "success" = Some (PBool true)
        /\ dict_get (http.payload response) "data"
           = Some (PDict [("instanceId", PStr (http.new_instance_id env));
                          ("durableStatus", http.check_status_payload env)])
        /\ http.instances (snd result)
           = http.instances st
             ++ [http.mkStatus (http.new_instance_id env) "orchestrator" (Some "Pending")
                   (Some (http.utcnow env)) (Some (http.utcnow env)) (PList blobs) PNone]).
Proof.
  intros Hbody Hblobs result. subst result.
  split.
  { intros b Hb. destruct (accepted_entry b) eqn:Ha; [|reflexivity].
    apply accepted_nonempty in Ha. congruence. }
  unfold passes_guards, http.start_orchestrator_http.
  destruct (http._authenticate_request env req (http.uuid4 env)) as [[|] auth].
  2:{ split.
      - intros _. split; [destruct auth; reflexivity|]. intros [Hauth _]. discriminate.
      - intros _ _ [Hauth _]. discriminate. }
  destruct (http._enforce_rate_limit (http.rate_hits st) 20 60 (http.monotonic env))
    as [[[|] retry_after] hits].
  2:{ split.
      - intros _. split; [reflexivity|]. intros [_ Hrate]. discriminate.
      - intros _ _ [_ Hrate]. discriminate. }
  rewrite Hbody. unfold py_get, dict_get_or. rewrite Hblobs.
  split.
  - intros [-> | Hbad].
    + split; [reflexivity|]. intros _. eexists. split; [reflexivity|]. split; reflexivity.
    + destruct blobs as [|b blobs]; [inversion Hbad|].
      destruct (first_refusal_refuses (b :: blobs) 0 Hbad) as (message & ->).
      split; [reflexivity|]. intros _. eexists. split; [reflexivity|]. split; reflexivity.
  - intros Hne Hok _. destruct blobs as [|b blobs]; [contradiction|].
    rewrite (first_refusal_accepts (b :: blobs) 0 Hok).
    eexists. split; [reflexivity|]. repeat split.
Qed.

(** A request with one well-formed reference on an open deployment. *)
Lemma start_batch_witness :
  exists response,
    fst (http.start_orchestrator_http Examples.env0 Examples.state0
           (Examples.start_request [Examples.ref "bronze/file.txt"]))
    = Returned response
    /\ http.status_code response = 202%Z
    /\ dict_get (http.payload response) "success" = Some (PBool true)
    /\ dict_get (http.payload response) "data"
       = Some (PDict [("instanceId", PStr "batch-1");
                      ("durableStatus", PDict [("id", PStr "batch-1")])])
    /\ http.instances
         (snd (http.start_orchestrator_http Examples.env0 Examples.state0
                 (Examples.start_request [Examples.ref "bronze/file.txt"])))
       = Examples.ten_statuses
         ++ [http.mkStatus "batch-1" "orchestrator" (Some "Pending")
               (Some (http.mkDatetime 11 (Some 0%Z))) (Some (http.mkDatetime 11 (Some 0%Z)))
               (PList [Examples.ref "bronze/file.txt"]) PNone].
Proof.
  destruct (start_batch Examples.env0 Examples.state0
              (Examples.start_request [Examples.ref "bronze/file.txt"])
              [("blobs", PList [Examples.ref "bronze/file.txt"])]
              [Examples.ref "bronze/file.txt"] eq_refl eq_refl)
    as (_ & _ & Hstart).
  apply Hstart.
  - discriminate.
  - repeat constructor.
  - split; reflexivity.
Defined.

(** A reference whose name is a no-break space is refused as well. *)
Example nbsp_name_refused :
  exists response,
    http.start_orchestrator_http Examples.env0 Examples.state0
      (Examples.start_request [Examples.nbsp_name])
    = (Returned response, http.mkState [100%Z] Examples.ten_statuses)
    /\ http.status_code response = 400%Z.
Proof. eexists. split; reflexivity. Qed.

(** C5 as stated does not hold: an entry whose [name] is a blank has a
    non-empty string in each field, and the starter refuses it. *)
Lemma blank_name_refused :
  ~ (forall (env : http.environment) (st : http.app_state) (blobs : list pyval),
       blobs <> [] ->
       forallb nonempty_entry blobs = true ->
       passes_guards env st (Examples.start_request blobs) ->
       length (http.instances
                 (snd (http.start_orchestrator_http env st (Examples.start_request blobs))))
       = S (length (http.instances st))).
Proof.
  intros H.
  specialize (H Examples.env0 Examples.state0 [Examples.blank_name]).
  vm_compute in H.
  assert (Hfalse : 10 = 11); [|discriminate Hfalse].
  apply H; [discriminate|reflexivity|split; reflexivity].
Qed.

(** The model call fails: the error is caught and the stage ends after its
    first attempt with [None]. *)
Lemma callAoai_total_witness :
  fst (callAoai.run Examples.svc_model_down
         (PDict [("text_result", PStr "Invoice 42"); ("instance_id", PStr "doc-1")]) [])
  = Returned PNone
  /\ activity_names
       (snd (call_activity_with_retry "callAoai" function_app.aoai_retry
               (callAoai.run Examples.svc_model_down)
               (PDict [("text_result", PStr "Invoice 42"); ("instance_id", PStr "doc-1")])
               []))
     = ["callAoai"].
Proof.
  destruct (callAoai_total Examples.svc_model_down
              (PDict [("text_result", PStr "Invoice 42"); ("instance_id", PStr "doc-1")]) [])
    as (_ & Hcaught & _ & _ & Hstage).
  split.
  - apply (Hcaught (PStr "doc-1")
             (PyError "RuntimeError" "Azure OpenAI returned no content.")); reflexivity.
  - apply (Hstage function_app.aoai_retry).
Defined.

(** The assumption of C7 cannot be dropped: the join has no handler, so a
    child that raises (here on an input that is no reference at all) fails
    the batch. *)
Example unnamed_reference_fails_batch :
  fst (function_app.batch Examples.svc_ok "batch-1" [] (PList [PInt 7]) [])
  = Raised (StageFailure "runDocIntel" 3 (PyError "TypeError" "runDocIntel expected dict")).
Proof. reflexivity. Qed.

(** ** The embedding on concrete inputs *)

Example splitext_examples :
  splitext (basename "bronze/file.txt") = ("file", ".txt")
  /\ splitext "reports/q3.tar.gz" = ("reports/q3.tar", ".gz")
  /\ splitext ".env" = (".env", "")
  /\ splitext "v1.2/readme" = ("v1.2/readme", "")
  /\ basename "a/b/" = "".
Proof. repeat split. Qed.

Example strip_examples :
  strip "  a b  " = "a b"
  /\ strip (nbsp ++ "a b" ++ nbsp)%string = "a b"
  /\ strip (bytes [226; 128; 131; 97; 227; 128; 128]) = "a"
  /\ strip nbsp = ""
  /\ strip_by is_backtick "```json x```" = "json x"
  /\ rstrip ("Document:" ++ nl ++ nl)%string = "Document:"
  /\ runDocIntel.normalize_blob_name "bronze" "bronze/file.txt" = "file.txt"
  /\ runDocIntel.normalize_blob_name "bronze" "silver/file.txt" = "silver/file.txt".
Proof. repeat split. Qed.

(** The long s of [bytes [197; 191]] has the upper case [S], the Kelvin sign
    of [bytes [226; 132; 170]] the lower case [k]. *)
Example case_examples :
  upper "cosmos" = "COSMOS"
  /\ upper ("co" ++ bytes [197; 191] ++ "mos")%string = "COSMOS"
  /\ lower "LOCAL" = "local"
  /\ lower ("Tas" ++ bytes [226; 132; 170])%string = "task".
Proof. repeat split. Qed.

Example ascii_int_examples :
  http.ascii_int " 12 " = Some 12%Z
  /\ http.ascii_int "-1_000" = Some (-1000)%Z
  /\ http.ascii_int "1__0" = None
  /\ http.ascii_int "5x" = None
  /\ http.parse_limit Examples.env0 (Some "0") = Some 1%Z
  /\ http.parse_limit Examples.env0 (Some "250") = Some 100%Z
  /\ http.parse_limit Examples.env0 (Some "five") = None.
Proof. repeat split. Qed.

(** The retry delays of the three policies of [process_blob], before the
    attempts 2, 3, ... that each policy allows. *)
Example policy_delays :
  map (retry_delay function_app.doc_retry) [2; 3] = [5; 10]%Z
  /\ map (retry_delay function_app.aoai_retry) [2; 3] = [10; 20]%Z
  /\ map (retry_delay function_app.write_retry) [2; 3; 4; 5] = [5; 10; 20; 40]%Z
  /\ retry_delay (mkRetryOptions 5 20 2 30000) 15 = 30000%Z.
Proof. repeat split. Qed.

(** A document whose model call fails: the workflow completes, its entry
    says that nothing was written. *)
Example failed_transformation_entry :
  fst (function_app.process_blob Examples.svc_model_down Examples.doc_ctx
         (Examples.ref "a.pdf") [])
  = Returned
      (result_payload (Examples.ref "a.pdf")
         (PStr ("Invoice 42" ++ nl ++ "Total: 10")%string)
         (PDict [("success", PBool false);
                 ("error", PStr "Error writing output for blob a.pdf: writeToBlob requires 'json_str' to be a non-empty string.")]))
  /\ uploads (snd (function_app.process_blob Examples.svc_model_down Examples.doc_ctx
                     (Examples.ref "a.pdf") [])) = [].
Proof. split; reflexivity. Qed.

(** * Further properties of the code *)

(** ** The rate limiter ([_enforce_rate_limit]) *)

Section RateLimiter.

Local Open Scope Z_scope.

Lemma expire_split (hits : list Z) (now window_seconds : Z) :
  exists expired,
    hits = (expired ++ http.expire hits now window_seconds)%list
    /\ Forall (fun t => window_seconds < now - t) expired.
Proof.
  induction hits as [|t hits IH]; simpl.
  - exists []. split; [reflexivity|constructor].
  - destruct (Z.ltb_spec window_seconds (now - t)) as [Hlt|Hge].
    + destruct IH as (expired & Heq & Hall). exists (t :: expired). split.
      * simpl. now rewrite <- Heq.
      * now constructor.
    + exists []. split; [reflexivity|constructor].
Qed.

Lemma expire_length (hits : list Z) (now window_seconds : Z) :
  (length (http.expire hits now window_seconds) <= length hits)%nat.
Proof.
  destruct (expire_split hits now window_seconds) as (expired & Heq & _).
  rewrite Heq at 2. rewrite length_app. lia.
Qed.

Lemma expire_sorted (hits : list Z) (now window_seconds : Z) :
  StronglySorted Z.le hits -> StronglySorted Z.le (http.expire hits now window_seconds).
Proof.
  induction 1 as [|t hits Hs IH Ht]; simpl; [constructor|].
  destruct (window_seconds <? now - t); [exact IH|]. now constructor.
Qed.

Lemma expire_within (hits : list Z) (now window_seconds : Z) :
  StronglySorted Z.le hits ->
  Forall (fun t => now - t <= window_seconds) (http.expire hits now window_seconds).
Proof.
  induction 1 as [|t hits Hs IH Ht]; simpl; [constructor|].
  destruct (Z.ltb_spec window_seconds (now - t)) as [Hlt|Hge]; [exact IH|].
  constructor; [exact Hge|].
  rewrite Forall_forall in *. intros t' Ht'. specialize (Ht t' Ht'). lia.
Qed.

Lemma expire_incl (hits : list Z) (now window_seconds : Z) (t : Z) :
  In t (http.expire hits now window_seconds) -> In t hits.
Proof.
  destruct (expire_split hits now window_seconds) as (expired & Heq & _).
  intros Hin. rewrite Heq. apply in_or_app. now right.
Qed.

(** X1.  The deque of the limiter is kept as a sliding window: if the
    recorded hits are in ascending order and not later than [now] (the clock
    is monotonic), then after a request the deque is still ascending, holds
    only hits of the last [window_seconds], and holds at most [limit] hits if
    it did before.  The request is admitted exactly when fewer than [limit]
    hits of the window remain; an admitted request is recorded at the end and
    a refused one is not recorded. *)
Theorem rate_limit_window (hits : list Z) (limit : nat) (window_seconds now : Z) :
  0 <= window_seconds ->
  StronglySorted Z.le hits ->
  Forall (fun t => t <= now) hits ->
  let result := http._enforce_rate_limit hits limit window_seconds now in
  let kept := http.expire hits now window_seconds in
  StronglySorted Z.le (snd result)
  /\ Forall (fun t => now - window_seconds <= t <= now) (snd result)
  /\ ((length hits <= limit)%nat -> (length (snd result) <= limit)%nat)
  /\ (fst (fst result) = true <-> (length kept < limit)%nat)
  /\ (fst (fst result) = true -> snd result = (kept ++ [now])%list)
  /\ (fst (fst result) = false -> snd result = kept).
Proof.
  intros Hw Hsorted Hpast result kept. subst result. unfold http._enforce_rate_limit.
  fold kept.
  assert (Hk_sorted : StronglySorted Z.le kept) by now apply expire_sorted.
  assert (Hk_window : Forall (fun t => now - window_seconds <= t <= now) kept).
  { pose proof (expire_within hits now window_seconds Hsorted) as Hin.
    rewrite Forall_forall in *. intros t Ht. fold kept in Hin. specialize (Hin t Ht).
    specialize (Hpast t (expire_incl _ _ _ _ Ht)). lia. }
  assert (Hk_len : (length kept <= length hits)%nat) by apply expire_length.
  destruct (Nat.leb_spec limit (length kept)) as [Hfull|Hroom]; simpl.
  - split; [exact Hk_sorted|]. split; [exact Hk_window|]. split; [lia|].
    split; [split; [discriminate|lia]|]. split; [discriminate|reflexivity].
  - split.
    { clear -Hk_sorted Hk_window. induction Hk_sorted as [|t l Hs IH Ht]; simpl.
      - repeat constructor.
      - inversion Hk_window; subst. constructor; [auto|].
        apply Forall_app. split; [exact Ht|]. constructor; [lia|constructor]. }
    split.
    { apply Forall_app. split; [exact Hk_window|]. constructor; [lia|constructor]. }
    split; [rewrite length_app; simpl; lia|].
    split; [split; [lia|reflexivity]|]. split; [reflexivity|discriminate].
Qed.

(** Nineteen hits in the last minute and one older one, limit 20. *)
Lemma rate_limit_window_witness :
  http._enforce_rate_limit (10 :: map Z.of_nat (seq 100 19)) 20 60 120
  = ((true, None), (map Z.of_nat (seq 100 19) ++ [120])%list).
Proof.
  pose proof (rate_limit_window (10 :: map Z.of_nat (seq 100 19)) 20 60 120) as H.
  simpl in H.
  destruct H as (_ & _ & _ & _ & Hadmitted & _).
  - lia.
  - repeat (constructor; [|repeat (constructor; try lia)]). constructor.
  - repeat (constructor; try lia).
  - reflexivity.
Defined.

(** X2.  What a refused request is told.  An admitted request is told
    nothing.  A refused one is told to wait [window_seconds - (now - oldest)]
    seconds, where [oldest] is the first of the hits that are left in the
    deque, all of them of the window: the time after which that hit is as
    old as the window.  It is between 0 and [window_seconds]. *)
Theorem rate_limit_retry_after (hits : list Z) (limit : nat) (window_seconds now : Z) :
  StronglySorted Z.le hits ->
  Forall (fun t => t <= now) hits ->
  (0 < limit)%nat ->
  let result := http._enforce_rate_limit hits limit window_seconds now in
  (fst (fst result) = true -> snd (fst result) = None)
  /\ (fst (fst result) = false ->
      exists oldest later_hits,
        snd result = oldest :: later_hits
        /\ now - window_seconds <= oldest <= now
        /\ snd (fst result) = Some (window_seconds - (now - oldest))
        /\ 0 <= window_seconds - (now - oldest) <= window_seconds).
Proof.
  intros Hsorted Hpast Hlimit result. subst result.
  pose proof (expire_within hits now window_seconds Hsorted) as Hwithin.
  pose proof (expire_incl hits now window_seconds) as Hincl.
  unfold http._enforce_rate_limit.
  destruct (Nat.leb_spec limit (length (http.expire hits now window_seconds)))
    as [Hfull|Hroom]; cbn [fst snd].
  - split; [discriminate|]. intros _.
    destruct (http.expire hits now window_seconds) as [|t0 kept];
      [simpl in Hfull; lia|].
    inversion Hwithin as [|? ? Ht0 _]; subst.
    assert (Ht0' : t0 <= now).
    { rewrite Forall_forall in Hpast. apply Hpast, Hincl. now left. }
    exists t0, kept. cbn [hd]. split; [reflexivity|]. split; [lia|].
    split; [f_equal; lia|lia].
  - split; [reflexivity|discriminate].
Qed.

(** Twenty hits at times 100..119 and a request at 120: wait 40. *)
Lemma rate_limit_retry_after_witness :
  snd (fst (http._enforce_rate_limit (map Z.of_nat (seq 100 20)) 20 60 120)) = Some 40.
Proof.
  destruct (rate_limit_retry_after (map Z.of_nat (seq 100 20)) 20 60 120)
    as (_ & Hrefused).
  - repeat (constructor; [|repeat (constructor; try lia)]). constructor.
  - repeat (constructor; try lia).
  - lia.
  - destruct (Hrefused eq_refl) as (oldest & later_hits & Hhits & _ & Htold & _).
    rewrite Htold. inversion Hhits. reflexivity.
Defined.

End RateLimiter.

(** ** Authentication ([_authenticate_request]) *)

Lemma refused_gets_401 (env : http.environment) (req : http.HttpRequest)
    (correlation_id : string) :
  fst (http._authenticate_request env req correlation_id) = false ->
  snd (http._authenticate_request env req correlation_id)
  = Some (unauthorized correlation_id).
Proof.
  unfold http._authenticate_request. destruct (http.API_KEY env) as [key|]; [|discriminate].
  destruct (option_map strip _) as [k|]; [|reflexivity].
  destruct (String.eqb k key); [discriminate|reflexivity].
Qed.

(** The spelling of a header's name does not matter. *)
Lemma header_get_spelling (headers : list (string * string)) (a b : string) :
  lower a = lower b -> http.header_get headers a = http.header_get headers b.
Proof.
  intros Hab. induction headers as [|[k v] headers IH]; [reflexivity|].
  simpl. now rewrite IH, Hab.
Qed.

(** Of the headers of one name the last one counts. *)
Lemma header_get_last (before : list (string * string)) (name v asked : string) :
  lower name = lower asked ->
  http.header_get (before ++ [(name, v)]) asked = Some v.
Proof.
  intros Hname. induction before as [|[k x] before IH]; simpl.
  - rewrite Hname, String.eqb_refl. reflexivity.
  - now rewrite IH.
Qed.

(** The credential of a request is the value of its [x-api-key] header
    unless that is absent or empty, and then its [code] parameter; the white
    space around it does not count. *)
Lemma supplied_key_cases (req : http.HttpRequest) :
  supplied_key req
  = match http.header_get (http.headers req) "x-api-key" with
    | Some v => if String.eqb v "" then option_map strip (http.lookup (http.params req) "code")
                else Some (strip v)
    | None => option_map strip (http.lookup (http.params req) "code")
    end.
Proof.
  unfold supplied_key.
  rewrite (header_get_spelling (http.headers req) "X-API-Key" "x-api-key") by reflexivity.
  destruct (http.header_get (http.headers req) "x-api-key") as [v|]; [|reflexivity].
  unfold http.py_or. destruct (String.eqb v "") eqn:Hv; rewrite ?Hv; reflexivity.
Qed.

Lemma authenticate_by_key (env : http.environment) (req : http.HttpRequest)
    (correlation_id key : string) :
  http.API_KEY env = Some key ->
  (fst (http._authenticate_request env req correlation_id) = true
   <-> supplied_key req = Some key).
Proof.
  intros Hkey. unfold http._authenticate_request. rewrite Hkey. fold (supplied_key req).
  destruct (supplied_key req) as [k|]; [|split; discriminate].
  destruct (String.eqb_spec k key); simpl; split; congruence.
Qed.

(** X3.  Without a configured key every request is authorized.  With a
    configured key, even the empty string, the request is judged by its
    [x-api-key] header, whatever the case its name is spelled in, when that
    has a value that is not empty, and by its [code] parameter otherwise:
    the request is authorized exactly when that credential, without the
    white space around it, is the key.  So a request that presents nothing
    is refused, and a wrong header is not made good by a right [code].  A
    refused request gets the 401 answer. *)
Theorem authentication (env : http.environment) (req : http.HttpRequest)
    (correlation_id : string) :
  let auth := http._authenticate_request env req correlation_id in
  let header := http.header_get (http.headers req) "x-api-key" in
  let code := http.lookup (http.params req) "code" in
  (http.API_KEY env = None -> auth = (true, None))
  /\ (forall key, http.API_KEY env = Some key ->
        (forall v, header = Some v -> v <> "" -> (fst auth = true <-> strip v = key))
        /\ (header = None \/ header = Some "" ->
            forall c, code = Some c -> (fst auth = true <-> strip c = key))
        /\ (header = None \/ header = Some "" -> code = None -> fst auth = false))
  /\ (fst auth = false -> snd auth = Some (unauthorized correlation_id))
  /\ (forall before name v,
        lower name = "x-api-key" ->
        http.headers req = before ++ [(name, v)] -> header = Some v).
Proof.
  intros auth header code. subst auth header code.
  split. { unfold http._authenticate_request. now intros ->. }
  split.
  { intros key Hkey. pose proof (authenticate_by_key env req correlation_id key Hkey) as Hiff.
    rewrite supplied_key_cases in Hiff. split; [|split].
    - intros v Hv Hne. rewrite Hv in Hiff. destruct (String.eqb_spec v ""); [contradiction|].
      rewrite Hiff. split; congruence.
    - intros Hhead c Hc. rewrite Hc in Hiff.
      destruct Hhead as [Hhead|Hhead]; rewrite Hhead in Hiff; simpl in Hiff;
        rewrite Hiff; split; congruence.
    - intros Hhead Hc. rewrite Hc in Hiff.
      destruct (fst (http._authenticate_request env req correlation_id)); [|reflexivity].
      destruct Hhead as [Hhead|Hhead]; rewrite Hhead in Hiff; simpl in Hiff;
        destruct Hiff as [Hiff _]; discriminate (Hiff eq_refl). }
  split; [apply refused_gets_401|].
  intros before name v Hname ->. now apply header_get_last.
Qed.

(** The wrong key in the header wins over the right key in the query; the
    right key is accepted under another spelling of the header's name and
    with no-break spaces around it. *)
Lemma authentication_witness :
  fst (http._authenticate_request MoreExamples.env_locked MoreExamples.mixed_keys "c0ffee")
  = false
  /\ fst (http._authenticate_request MoreExamples.env_locked
            (MoreExamples.right_key None) "c0ffee") = true
  /\ fst (http._authenticate_request MoreExamples.env_locked
            MoreExamples.spelled_key "c0ffee") = true.
Proof.
  split; [|split].
  - destruct (authentication MoreExamples.env_locked MoreExamples.mixed_keys "c0ffee")
      as (_ & Hkey & _).
    destruct (Hkey "s3cret" eq_refl) as (Hhead & _).
    destruct (Hhead "guess" eq_refl) as [Hyes _]; [discriminate|].
    destruct (fst (http._authenticate_request MoreExamples.env_locked
                     MoreExamples.mixed_keys "c0ffee")); [|reflexivity].
    discriminate (Hyes eq_refl).
  - destruct (authentication MoreExamples.env_locked (MoreExamples.right_key None) "c0ffee")
      as (_ & Hkey & _).
    destruct (Hkey "s3cret" eq_refl) as (Hhead & _).
    apply (Hhead " s3cret "); [reflexivity|discriminate|reflexivity].
  - destruct (authentication MoreExamples.env_locked MoreExamples.spelled_key "c0ffee")
      as (_ & Hkey & _).
    destruct (Hkey "s3cret" eq_refl) as (Hhead & _).
    apply (Hhead (nbsp ++ "s3cret" ++ nbsp)%string); [reflexivity|discriminate|reflexivity].
Defined.

(** ** No handler acts on an unauthorized request *)

(** X4.  A request that fails the authentication is answered 401 by each of
    the five handlers and nothing else happens: the starter creates no
    instance and leaves the limiter alone, the chat leaves its limiter alone
    and calls no service, the queries do not consult the client. *)
Theorem unauthorized_request_has_no_effect (svc : services) (env : http.environment)
    (req : http.HttpRequest) :
  fst (http._authenticate_request env req (http.uuid4 env)) = false ->
  (forall st, http.start_orchestrator_http env st req
              = (Returned (unauthorized (http.uuid4 env)), st))
  /\ (forall statuses, http.list_orchestration_history env req statuses
                       = Returned (unauthorized (http.uuid4 env)))
  /\ (forall id get_status, handlers.get_orchestration_status env req id get_status
                            = unauthorized (http.uuid4 env))
  /\ (forall id get_status, handlers.get_orchestration_results env req id get_status
                            = unauthorized (http.uuid4 env))
  /\ (forall fresh hits h,
        fst (handlers.direct_chat svc env fresh hits req) = hits
        /\ snd (handlers.direct_chat svc env fresh hits req) h
           = (Returned (unauthorized (http.uuid4 env)), [])).
Proof.
  intros Hauth.
  pose proof (refused_gets_401 env req (http.uuid4 env) Hauth) as Hresp.
  unfold http.start_orchestrator_http, http.list_orchestration_history,
    handlers.get_orchestration_status, handlers.get_orchestration_results,
    handlers.direct_chat.
  destruct (http._authenticate_request env req (http.uuid4 env)) as [[|] resp];
    simpl in Hauth, Hresp; [discriminate|]. subst resp.
  repeat split.
Qed.

(** The starter on the request with the wrong key in its header. *)
Lemma unauthorized_request_witness :
  http.start_orchestrator_http MoreExamples.env_locked Examples.state0
    MoreExamples.mixed_keys
  = (Returned (unauthorized "c0ffee"), Examples.state0).
Proof.
  destruct (unauthorized_request_has_no_effect Examples.svc_ok MoreExamples.env_locked
              MoreExamples.mixed_keys eq_refl) as (Hstart & _).
  apply Hstart.
Defined.

(** ** The envelope of the answers *)

Lemma envelope_json (success : bool) (message : string) (status : Z)
    (correlation_id : string) (data : option (list (string * pyval))) :
  success = (Z.eqb status 200 || Z.eqb status 202) ->
  In status [200; 202; 400; 401; 404; 429; 500; 502]%Z ->
  envelope correlation_id (http._json_response success message status correlation_id data).
Proof.
  intros -> Hin. unfold envelope, http._json_response. simpl. auto.
Qed.

Lemma envelope_auth (env : http.environment) (req : http.HttpRequest)
    (response : http.HttpResponse) :
  http._authenticate_request env req (http.uuid4 env) = (false, Some response) ->
  envelope (http.uuid4 env) response.
Proof.
  intros H. pose proof (refused_gets_401 env req (http.uuid4 env)) as H401.
  rewrite H in H401. simpl in H401. specialize (H401 eq_refl). inversion H401.
  apply envelope_json; simpl; auto 10.
Qed.

Ltac envelope_done :=
  apply envelope_json; [reflexivity | simpl; auto 10].

(** X5.  Every answer of the five handlers has the same envelope: it carries
    the correlation id drawn for the request, its status code is one of 200,
    202, 400, 401, 404, 429, 500 and 502, and its [success] field is true
    exactly when the status code is 200 or 202.  (A handler that raises, as
    the listing does on datetimes that do not compare, gives no answer.) *)
Theorem answers_share_envelope (svc : services) (env : http.environment)
    (req : http.HttpRequest) :
  (forall st response,
      fst (http.start_orchestrator_http env st req) = Returned response ->
      envelope (http.uuid4 env) response)
  /\ (forall statuses response,
        http.list_orchestration_history env req statuses = Returned response ->
        envelope (http.uuid4 env) response)
  /\ (forall id get_status,
        envelope (http.uuid4 env) (handlers.get_orchestration_status env req id get_status))
  /\ (forall id get_status,
        envelope (http.uuid4 env) (handlers.get_orchestration_results env req id get_status))
  /\ (forall fresh hits h response,
        fst (snd (handlers.direct_chat svc env fresh hits req) h) = Returned response ->
        envelope (http.uuid4 env) response).
Proof.
  pose proof (envelope_auth env req) as Hauth.
  pose proof (refused_gets_401 env req (http.uuid4 env)) as H401.
  split; [|split; [|split; [|split]]].
  - intros st response. unfold http.start_orchestrator_http.
    destruct (http._authenticate_request env req (http.uuid4 env)) as [[|] [r|]];
      simpl in H401.
    3:{ intros H. inversion H; subst. now apply Hauth. }
    3:{ discriminate. }
    all: destruct (http._enforce_rate_limit (http.rate_hits st) 20 60 (http.monotonic env))
           as [[[|] retry_after] hits];
      try (intros H; inversion H; subst; envelope_done);
      destruct (http.get_json req) as [body|];
      try (intros H; inversion H; subst; envelope_done);
      destruct (py_get body "blobs") as [[| | | |[|b blobs]|]|]; cbn [fst snd];
      try (intros H; discriminate H);
      try (intros H; inversion H; subst; envelope_done);
      destruct (http.first_refusal 0 (b :: blobs));
      intros H; inversion H; subst; envelope_done.
  - intros statuses response. unfold http.list_orchestration_history.
    destruct (http._authenticate_request env req (http.uuid4 env)) as [[|] [r|]];
      simpl in H401.
    3:{ intros H. inversion H; subst. now apply Hauth. }
    3:{ intros H. inversion H; subst. envelope_done. }
    all: destruct (http.parse_limit env _) as [limit|];
      try (intros H; inversion H; subst; envelope_done);
      destruct (http.lookup (http.params req) "since") as [s|];
      try destruct (String.eqb s ""); try destruct (http.fromisoformat env s);
      destruct statuses as [statuses|e];
      try (intros H; inversion H; subst; envelope_done);
      match goal with
      | |- context [http.select_recent ?t ?n ?l] => destruct (http.select_recent t n l)
      end;
      intros H; inversion H; subst; envelope_done.
  - intros id get_status. unfold handlers.get_orchestration_status.
    destruct (http._authenticate_request env req (http.uuid4 env)) as [[|] [r|]];
      simpl in H401; try (now apply Hauth); try envelope_done.
    all: destruct (http.py_or id None); try envelope_done;
      destruct (get_status _ _) as [[details|]|]; envelope_done.
  - intros id get_status. unfold handlers.get_orchestration_results.
    destruct (http._authenticate_request env req (http.uuid4 env)) as [[|] [r|]];
      simpl in H401; try (now apply Hauth); try envelope_done.
    all: destruct (http.py_or id None); try envelope_done;
      destruct (get_status _) as [[st|]|]; try envelope_done;
      destruct (http.output st); envelope_done.
  - intros fresh hits h response. unfold handlers.direct_chat.
    destruct (http._authenticate_request env req (http.uuid4 env)) as [[|] [r|]];
      simpl in H401.
    3:{ simpl. intros H. inversion H; subst. now apply Hauth. }
    3:{ discriminate. }
    all: destruct (http._enforce_rate_limit hits 60 60 (http.monotonic env))
           as [[[|] retry_after] hits'];
      cbn [fst snd];
      try (unfold ret; simpl; intros H; inversion H; subst; envelope_done);
      destruct (http.get_json req) as [body|];
      try (unfold ret; simpl; intros H; inversion H; subst; envelope_done);
      intros H; apply bind_returned in H as (query & l & _ & H);
      destruct query;
      try (unfold ret in H; simpl in H; inversion H; subst; envelope_done);
      destruct (String.eqb (strip s) "");
      try (unfold ret in H; simpl in H; inversion H; subst; envelope_done);
      apply bind_returned in H as (result & l' & _ & H);
      destruct result; unfold ret in H; simpl in H; inversion H; subst; envelope_done.
Qed.

(** The starter on a well-formed request to an open deployment. *)
Lemma answers_share_envelope_witness :
  exists response,
    fst (http.start_orchestrator_http Examples.env0 Examples.state0
           (Examples.start_request [Examples.ref "a.pdf"])) = Returned response
    /\ envelope "c0ffee" response.
Proof.
  eexists. split; [reflexivity|].
  destruct (answers_share_envelope Examples.svc_ok Examples.env0
              (Examples.start_request [Examples.ref "a.pdf"])) as (Hstart & _).
  apply (Hstart Examples.state0). reflexivity.
Defined.

(** ** The queries agree on the output of an instance *)

(** X6.  For an authorized request about an instance the client knows: the
    results query answers 200 exactly when the instance has an output and 404
    otherwise; the listing marks the instance [outputAvailable] exactly when
    the results query would answer 200; and the status query, which always
    answers 200, reports the very output the results query returns. *)
Theorem queries_agree_on_output (env : http.environment) (req : http.HttpRequest)
    (id : string) (details : handlers.StatusDetails)
    (get_status : string -> outcome pyerr (option http.DurableOrchestrationStatus))
    (get_details : string -> bool -> outcome pyerr (option handlers.StatusDetails)) :
  fst (http._authenticate_request env req (http.uuid4 env)) = true ->
  id <> "" ->
  get_status id = Returned (Some (handlers.status details)) ->
  (forall show_history, get_details id show_history = Returned (Some details)) ->
  let st := handlers.status details in
  let results := handlers.get_orchestration_results env req (Some id) get_status in
  let reported := handlers.get_orchestration_status env req (Some id) get_details in
  (http.status_code results = 200%Z <-> http.output st <> PNone)
  /\ (http.output st = PNone -> http.status_code results = 404%Z)
  /\ (exists d, http.summary env st = PDict d
                /\ (dict_get d "outputAvailable" = Some (PBool true)
                    <-> http.status_code results = 200%Z))
  /\ http.status_code reported = 200%Z
  /\ (exists data, dict_get (http.payload reported) "data" = Some (PDict data)
                   /\ dict_get data "output" = Some (http.output st))
  /\ (http.output st <> PNone ->
      exists data, dict_get (http.payload results) "data" = Some (PDict data)
                   /\ dict_get data "output" = Some (http.output st)).
Proof.
  intros Hauth Hid Hstatus Hdetails st results reported.
  subst results reported.
  unfold handlers.get_orchestration_results, handlers.get_orchestration_status.
  destruct (http._authenticate_request env req (http.uuid4 env)) as [[|] r];
    simpl in Hauth; [|discriminate].
  assert (Hor : http.py_or (Some id) None = Some id).
  { unfold http.py_or. destruct (String.eqb_spec id ""); [contradiction|reflexivity]. }
  rewrite Hor, Hstatus, Hdetails. fold st.
  split; [|split; [|split; [|split; [|split]]]].
  - destruct (http.output st); simpl; split; intros; congruence.
  - intros ->. reflexivity.
  - eexists. split; [reflexivity|]. simpl.
    destruct (http.output st); simpl; split; intros; congruence.
  - reflexivity.
  - eexists. split; [reflexivity|]. reflexivity.
  - intros Hout. destruct (http.output st) eqn:Ho; try contradiction;
      (eexists; split; [reflexivity|reflexivity]).
Qed.

(** A completed instance: its output is listed, reported and returned. *)
Lemma queries_agree_on_output_witness :
  http.status_code
    (handlers.get_orchestration_results Examples.env0 Examples.list_request (Some "inst-3")
       (fun _ => Returned (Some (Examples.status_at 3)))) = 200%Z.
Proof.
  destruct (queries_agree_on_output Examples.env0 Examples.list_request "inst-3"
              (handlers.mkDetails (Examples.status_at 3) PNone PNone)
              (fun _ => Returned (Some (Examples.status_at 3)))
              (fun _ _ => Returned (Some (handlers.mkDetails (Examples.status_at 3)
                                            PNone PNone)))
              eq_refl ltac:(discriminate) eq_refl (fun _ => eq_refl))
    as (Hiff & _).
  apply Hiff. discriminate.
Defined.

(** ** The validation names the first entry it refuses *)

Lemma first_refusal_index (blobs : list pyval) :
  forall k message,
    http.first_refusal k blobs = Some message ->
    exists i b,
      nth_error blobs i = Some b
      /\ accepted_entry b = false
      /\ (forall j b', j < i -> nth_error blobs j = Some b' -> accepted_entry b' = true)
      /\ message
         = ("Invalid request: blobs[" ++ decimal (Z.of_nat (k + i))
            ++ (if isinstance_dict b
                then "] must contain non-empty string keys ('name', 'url', 'container')."
                else "] must be an object."))%string.
Proof.
  induction blobs as [|b blobs IH]; intros k message H; [discriminate|].
  assert (Hhere : accepted_entry b = false ->
                  http.first_refusal k (b :: blobs)
                  = Some ("Invalid request: blobs[" ++ decimal (Z.of_nat (k + 0))
                          ++ (if isinstance_dict b
                              then "] must contain non-empty string keys ('name', 'url', 'container')."
                              else "] must be an object."))%string).
  { intros Hb. rewrite Nat.add_0_r. destruct b; try reflexivity.
    change (http.first_refusal k (PDict d :: blobs))
      with (if forallb (http.has_text d) http.required
            then http.first_refusal (S k) blobs
            else Some ("Invalid request: blobs[" ++ decimal (Z.of_nat k)
                       ++ "] must contain non-empty string keys ('name', 'url', 'container').")%string).
    unfold accepted_entry in Hb. now rewrite Hb. }
  destruct (accepted_entry b) eqn:Hb.
  - assert (Hnext : http.first_refusal k (b :: blobs) = http.first_refusal (S k) blobs).
    { destruct b; try discriminate.
      change (http.first_refusal k (PDict d :: blobs))
        with (if forallb (http.has_text d) http.required
              then http.first_refusal (S k) blobs
              else Some ("Invalid request: blobs[" ++ decimal (Z.of_nat k)
                         ++ "] must contain non-empty string keys ('name', 'url', 'container').")%string).
      unfold accepted_entry in Hb. now rewrite Hb. }
    rewrite Hnext in H. destruct (IH _ _ H) as (i & b' & Hnth & Hbad & Hbefore & Hmsg).
    exists (S i), b'. split; [exact Hnth|]. split; [exact Hbad|]. split.
    + intros [|j] b'' Hj Hnth'; simpl in Hnth'.
      * inversion Hnth'; subst. exact Hb.
      * apply (Hbefore j); [lia|exact Hnth'].
    + rewrite Hmsg. replace (S k + i) with (k + S i) by lia. reflexivity.
  - exists 0, b. split; [reflexivity|]. split; [exact Hb|]. split; [intros; lia|].
    rewrite (Hhere eq_refl) in H. now inversion H.
Qed.

(** X7.  When the starter refuses a list of references, the message names
    the position of the first entry that is not acceptable (counting from 0)
    and tells whether that entry is not an object or lacks a string field
    with something other than white space; the entries before it are all
    acceptable. *)
Theorem refusal_names_first_bad_entry (blobs : list pyval) (message : string) :
  http.first_refusal 0 blobs = Some message ->
  exists i b,
    nth_error blobs i = Some b
    /\ accepted_entry b = false
    /\ (forall j b', j < i -> nth_error blobs j = Some b' -> accepted_entry b' = true)
    /\ message
       = ("Invalid request: blobs[" ++ decimal (Z.of_nat i)
          ++ (if isinstance_dict b
              then "] must contain non-empty string keys ('name', 'url', 'container')."
              else "] must be an object."))%string.
Proof. intros H. exact (first_refusal_index blobs 0 message H). Qed.

(** Two good references followed by one whose name is a no-break space and
    by an entry that is not an object. *)
Lemma refusal_names_first_bad_entry_witness :
  exists i b,
    nth_error [Examples.ref "a.pdf"; Examples.ref "b.pdf"; Examples.nbsp_name; PInt 3] i
    = Some b
    /\ accepted_entry b = false
    /\ (forall j b', j < i ->
          nth_error [Examples.ref "a.pdf"; Examples.ref "b.pdf"; Examples.nbsp_name; PInt 3] j
          = Some b' -> accepted_entry b' = true)
    /\ "Invalid request: blobs[2] must contain non-empty string keys ('name', 'url', 'container')."
       = ("Invalid request: blobs[" ++ decimal (Z.of_nat i)
          ++ (if isinstance_dict b
              then "] must contain non-empty string keys ('name', 'url', 'container')."
              else "] must be an object."))%string.
Proof.
  apply (refusal_names_first_bad_entry
           [Examples.ref "a.pdf"; Examples.ref "b.pdf"; Examples.nbsp_name; PInt 3]).
  reflexivity.
Defined.

(** ** The persistence activity ([writeToBlob]) *)

(** X8.  Whenever [writeToBlob] returns on a dict, its record tells what it
    did.  Either it reports [success = True]: then [json_str] and
    [blob_name] were strings, exactly one upload was made, of [json_str]
    unchanged, to the container of the next stage under the key
    [{instance_id}/{base name}-output.json] ([general] standing in for a
    missing [instance_id]), the upload returned, and the record names the
    blob and that key.  Or it reports [success = False] with an error text:
    then nothing was uploaded, or one upload was tried and raised. *)
Theorem writeToBlob_reports_what_it_did (svc : services) (d : list (string * pyval))
    (h : history) (result : pyval) (calls : list service_call) :
  writeToBlob.extract_text_from_blob svc (PDict d) h = (Returned result, calls) ->
  (exists json_str name key h',
      dict_get d "json_str" = Some (PStr json_str)
      /\ dict_get d "blob_name" = Some (PStr name)
      /\ key = (fstr svc (dict_get_or d "instance_id" (PStr "general")) ++ "/"
                ++ fst (splitext (basename name)) ++ "-output.json")%string
      /\ calls = [Call "upload_blob" [PStr (NEXT_STAGE svc); PStr key; PStr json_str]]
      /\ upload_blob svc h' (NEXT_STAGE svc) key json_str = Returned tt
      /\ result = PDict [("success", PBool true); ("blob_name", PStr name);
                         ("output_blob", PStr key)])
  \/ (exists message,
        result = PDict [("success", PBool false); ("error", PStr message)]
        /\ (calls = []
            \/ exists json_str key h' e,
                 calls = [Call "upload_blob" [PStr (NEXT_STAGE svc); PStr key; PStr json_str]]
                 /\ upload_blob svc h' (NEXT_STAGE svc) key json_str = Raised e)).
Proof.
  unfold writeToBlob.extract_text_from_blob, writeToBlob.write_output,
    writeToBlob.report_error, try_except, write_to_blob, bind, call, lift_outcome,
    raise, ret, subscript, dict_get_or.
  destruct (dict_get d "json_str") as [[| | |json_str| |]|] eqn:Hjson; simpl;
    try (destruct (dict_get d "blob_name"); simpl; intros H; inversion H; subst;
         right; eexists; split; [reflexivity|left; reflexivity]).
  destruct (String.eqb (strip json_str) "");
    try (simpl; destruct (dict_get d "blob_name"); simpl; intros H; inversion H; subst;
         right; eexists; split; [reflexivity|left; reflexivity]).
  destruct (dict_get d "blob_name") as [[| | |name| |]|] eqn:Hname; simpl;
    try (intros H; inversion H; subst;
         right; eexists; split; [reflexivity|left; reflexivity]);
    try discriminate.
  match goal with
  | |- context [upload_blob ?a ?b ?c ?k ?j] =>
      destruct (upload_blob a b c k j) as [[]|e] eqn:Hup
  end; simpl; intros H; inversion H; subst.
  - left. do 4 eexists. repeat split; try reflexivity. exact Hup.
  - right. eexists. split; [reflexivity|]. right. do 4 eexists. split; [reflexivity|exact Hup].
Qed.

(** The upload fails: the record says so, and one upload was tried. *)
Lemma writeToBlob_reports_what_it_did_witness :
  exists message,
    fst (writeToBlob.extract_text_from_blob
           (mkServices MiniJson.json_loads MiniJson.dumps (fun _ => Returned PNone)
              (fun _ => "") (fun _ _ => Returned "") "silver"
              (fun _ _ _ => Returned "")
              (fun _ _ _ _ => Raised (PyError "HttpResponseError" "busy"))
              (fun _ _ => Returned None) (fun _ => Returned PNone)
              (fun _ => Returned tt) (fun _ _ _ _ => Returned tt)
              (fun _ _ _ => Returned PNone) (fun p _ => p))
           (PDict [("json_str", PStr "{}"); ("blob_name", PStr "a.pdf")]) [])
    = Returned (PDict [("success", PBool false); ("error", PStr message)]).
Proof.
  set (svc := mkServices _ _ _ _ _ _ _ _ _ _ _ _ _ _).
  destruct (writeToBlob_reports_what_it_did svc
              [("json_str", PStr "{}"); ("blob_name", PStr "a.pdf")] []
              (PDict [("success", PBool false);
                      ("error", PStr "Error writing output for blob a.pdf: busy")])
              [Call "upload_blob" [PStr "silver"; PStr "general/a-output.json"; PStr "{}"]]
              eq_refl)
    as [(j & n & k & h' & _ & _ & _ & _ & _ & Hres) | (message & Hres & _)].
  - discriminate Hres.
  - exists message. rewrite <- Hres. reflexivity.
Defined.

(** X9.  [writeToBlob] raises exactly when its input has no [blob_name] to
    read (it is not a dict, or the key is missing): the error handler reads
    [args['blob_name']] itself.  Such an input makes no upload, and under the
    policy of the persistence stage it is retried until the five attempts
    are used, after waits of 5, 10, 20 and 40 ms. *)
Theorem writeToBlob_raises_without_blob_name (svc : services) (args : pyval) (h : history) :
  ((exists e, fst (writeToBlob.extract_text_from_blob svc args h) = Raised e)
   <-> exists e, subscript args "blob_name" = Raised e)
  /\ ((exists e, subscript args "blob_name" = Raised e) ->
      exists last,
        call_activity_with_retry "writeToBlob" function_app.write_retry
          (writeToBlob.extract_text_from_blob svc) args h
        = (Raised (StageFailure "writeToBlob" 5 last),
           [EvActivity "writeToBlob" 1 args; EvTimer 5;
            EvActivity "writeToBlob" 2 args; EvTimer 10;
            EvActivity "writeToBlob" 3 args; EvTimer 20;
            EvActivity "writeToBlob" 4 args; EvTimer 40;
            EvActivity "writeToBlob" 5 args])).
Proof.
  assert (Hraise : forall h', (exists e, subscript args "blob_name" = Raised e) ->
             exists e, writeToBlob.extract_text_from_blob svc args h' = (Raised e, [])).
  { intros h' [e He].
    unfold writeToBlob.extract_text_from_blob, writeToBlob.write_output,
      writeToBlob.report_error, try_except, write_to_blob, bind, call, lift_outcome,
      raise, ret, dict_get_or.
    destruct args as [| | | | |d]; simpl in He |- *; try (eexists; reflexivity).
    destruct (dict_get d "blob_name"); [discriminate|].
    destruct (dict_get d "json_str") as [[| | |json_str| |]|]; simpl;
      try (eexists; reflexivity).
    destruct (String.eqb (strip json_str) ""); simpl; eexists; reflexivity. }
  split; [split|].
  - intros [e He]. destruct (subscript args "blob_name") as [v|e'] eqn:Hsub; [|eauto].
    exfalso. destruct args as [| | | | |d]; try discriminate. simpl in Hsub.
    destruct (dict_get d "blob_name") as [blob_name|] eqn:Hname; [|discriminate].
    revert He.
    unfold writeToBlob.extract_text_from_blob, writeToBlob.write_output,
      writeToBlob.report_error, try_except, write_to_blob, bind, call, lift_outcome,
      raise, ret, subscript, dict_get_or.
    rewrite Hname.
    destruct (dict_get d "json_str") as [[| | |json_str| |]|]; simpl; try discriminate.
    destruct (String.eqb (strip json_str) ""); simpl; try discriminate.
    destruct blob_name; simpl; try discriminate.
    match goal with
    | |- context [upload_blob ?a ?b ?c ?k ?j] => destruct (upload_blob a b c k j) as [[]|e']
    end; simpl; discriminate.
  - intros Hsub. destruct (Hraise h Hsub) as (e & ->). exists e. reflexivity.
  - intros Hsub. unfold call_activity_with_retry. simpl.
    repeat match goal with
    | |- context [writeToBlob.extract_text_from_blob svc args ?h'] =>
        let e := fresh "e" in
        destruct (Hraise h' Hsub) as (e & ->); simpl
    end.
    eexists. reflexivity.
Qed.

(** An input without [blob_name]. *)
Lemma writeToBlob_raises_without_blob_name_witness :
  exists e,
    fst (writeToBlob.extract_text_from_blob Examples.svc_ok
           (PDict [("json_str", PStr "{}")]) []) = Raised e.
Proof.
  destruct (writeToBlob_raises_without_blob_name Examples.svc_ok
              (PDict [("json_str", PStr "{}")]) []) as ((_ & Hraises) & _).
  apply Hraises. eexists. reflexivity.
Defined.

(** ** The extraction activity ([runDocIntel]) and the retries of a workflow *)

Lemma runDocIntel_on_reference (svc : services) (blobObj : pyval)
    (d : list (string * pyval)) (h : history) :
  reference_dict svc blobObj = Some d ->
  runDocIntel.extract_text_from_blob svc blobObj h
  = runDocIntel.extract_text_from_blob svc (PDict d) h.
Proof.
  destruct blobObj as [| | |s| |d']; simpl; try discriminate.
  - unfold runDocIntel.extract_text_from_blob, bind.
    destruct (json_loads svc s) as [[| | | | |d']|]; try discriminate.
    intros H. inversion H; subst. reflexivity.
  - intros H. inversion H; subst. reflexivity.
Qed.

Lemma runDocIntel_rejects (svc : services) (blobObj : pyval) (h : history) :
  reference_dict svc blobObj = None ->
  exists message,
    runDocIntel.extract_text_from_blob svc blobObj h
    = (Raised (PyError "TypeError" message), []).
Proof.
  unfold runDocIntel.extract_text_from_blob, bind, ret, raise.
  destruct blobObj as [| | |s| |d]; simpl; try discriminate;
    try (intros _; eexists; reflexivity).
  destruct (json_loads svc s) as [[| | | | |d]|]; simpl; try discriminate;
    intros _; eexists; reflexivity.
Qed.

Lemma runDocIntel_dict_returns (svc : services) (d : list (string * pyval)) (h : history) :
  exists v calls,
    runDocIntel.extract_text_from_blob svc (PDict d) h = (Returned v, calls).
Proof.
  unfold runDocIntel.extract_text_from_blob, bind, ret, try_except. simpl.
  destruct (runDocIntel.analyze svc (PDict d) (h ++ [])) as [[v|e] calls]; simpl; eauto.
Qed.

Lemma extraction_rejects (svc : services) (blobObj : pyval) (h : history) :
  reference_dict svc blobObj = None ->
  exists message,
    extraction_stage svc blobObj h
    = (Raised (StageFailure "runDocIntel" 3 (PyError "TypeError" message)),
       [EvActivity "runDocIntel" 1 blobObj; EvTimer 5;
        EvActivity "runDocIntel" 2 blobObj; EvTimer 10;
        EvActivity "runDocIntel" 3 blobObj]).
Proof.
  intros Hnone. unfold extraction_stage, call_activity_with_retry. simpl.
  repeat match goal with
  | |- context [runDocIntel.extract_text_from_blob svc blobObj ?h'] =>
      let m := fresh "message" in
      destruct (runDocIntel_rejects svc blobObj h' Hnone) as (m & ->); simpl
  end.
  eexists. reflexivity.
Qed.

(** X10.  What [runDocIntel] accepts.  A reference given as a JSON string
    that decodes to a dict is treated as that dict, and on a dict the
    activity always returns.  Anything else (a number, a list, [None], a
    string that is not the JSON of a dict) raises [TypeError] before any
    service is called; the extraction stage then uses its three attempts,
    waiting 5 and 10 ms, and fails with that error. *)
Theorem runDocIntel_accepts_dict_or_its_json (svc : services) (blobObj : pyval)
    (h : history) :
  (forall d, reference_dict svc blobObj = Some d ->
     runDocIntel.extract_text_from_blob svc blobObj h
     = runDocIntel.extract_text_from_blob svc (PDict d) h
     /\ exists v calls,
          runDocIntel.extract_text_from_blob svc blobObj h = (Returned v, calls))
  /\ (reference_dict svc blobObj = None ->
      exists message,
        runDocIntel.extract_text_from_blob svc blobObj h
        = (Raised (PyError "TypeError" message), [])
        /\ exists message',
             extraction_stage svc blobObj h
             = (Raised (StageFailure "runDocIntel" 3 (PyError "TypeError" message')),
                [EvActivity "runDocIntel" 1 blobObj; EvTimer 5;
                 EvActivity "runDocIntel" 2 blobObj; EvTimer 10;
                 EvActivity "runDocIntel" 3 blobObj])).
Proof.
  split.
  - intros d Hd. rewrite (runDocIntel_on_reference _ _ _ _ Hd).
    split; [reflexivity|apply runDocIntel_dict_returns].
  - intros Hnone. destruct (runDocIntel_rejects svc blobObj h Hnone) as (message & Hraise).
    exists message. split; [exact Hraise|]. apply extraction_rejects, Hnone.
Qed.

(** A reference sent as JSON text is read as the dict it encodes. *)
Lemma runDocIntel_accepts_dict_or_its_json_witness :
  runDocIntel.extract_text_from_blob Examples.svc_ok
    (PStr ("{" ++ dq ++ "name" ++ dq ++ ":" ++ dq ++ "a.pdf" ++ dq ++ ","
           ++ dq ++ "container" ++ dq ++ ":" ++ dq ++ "bronze" ++ dq ++ "}")%string) []
  = runDocIntel.extract_text_from_blob Examples.svc_ok
      (PDict [("name", PStr "a.pdf"); ("container", PStr "bronze")]) [].
Proof.
  apply (runDocIntel_accepts_dict_or_its_json Examples.svc_ok
           (PStr ("{" ++ dq ++ "name" ++ dq ++ ":" ++ dq ++ "a.pdf" ++ dq ++ ","
                  ++ dq ++ "container" ++ dq ++ ":" ++ dq ++ "bronze" ++ dq ++ "}")%string)
           []).
  reflexivity.
Defined.

Lemma attempts_calls (calls : list service_call) : attempts (map EvCall calls) = [].
Proof. induction calls; simpl; auto. Qed.

Lemma attempts_app (l1 l2 : list event) : attempts (l1 ++ l2) = attempts l1 ++ attempts l2.
Proof. apply flat_map_app. Qed.

Lemma extraction_one_attempt (svc : services) (blobObj : pyval)
    (d : list (string * pyval)) (h : history) :
  reference_dict svc blobObj = Some d ->
  exists text calls,
    extraction_stage svc blobObj h
    = (Returned text, EvActivity "runDocIntel" 1 blobObj :: map EvCall calls).
Proof.
  intros Hd. unfold extraction_stage, call_activity_with_retry.
  destruct (runDocIntel_dict_returns svc d (h ++ [EvActivity "runDocIntel" 1 blobObj]))
    as (v & calls & Hact).
  rewrite <- (runDocIntel_on_reference _ _ _ _ Hd) in Hact.
  rewrite (retry_from_returned _ _ _ _ _ _ _ _ _ Hact). eauto.
Qed.

Lemma transformation_one_attempt (svc : services) (ctx : function_app.context)
    (text_result : pyval) (h : history) :
  exists json input calls,
    transformation_stage svc ctx text_result h
    = (Returned json, EvActivity "callAoai" 1 input :: map EvCall calls).
Proof.
  unfold transformation_stage, call_activity_with_retry.
  set (input := PDict [("text_result", text_result);
                       ("instance_id", PStr (function_app.instance_id ctx))]).
  assert (Hact : exists v calls,
             callAoai.run svc input (h ++ [EvActivity "callAoai" 1 input])
             = (Returned v, calls)).
  { unfold callAoai.run, try_except.
    destruct (callAoai.call_model svc input _ (h ++ [EvActivity "callAoai" 1 input]))
      as [[v|e] calls]; simpl; eauto. }
  destruct Hact as (v & calls & Hact).
  rewrite (retry_from_returned _ _ _ _ _ _ _ _ _ Hact). eauto.
Qed.

Lemma persistence_one_attempt (svc : services) (ctx : function_app.context)
    (json_str blob_name : pyval) (h : history) :
  exists result input calls,
    persistence_stage svc ctx json_str blob_name h
    = (Returned result, EvActivity "writeToBlob" 1 input :: map EvCall calls).
Proof.
  unfold persistence_stage, call_activity_with_retry.
  set (input := PDict [("json_str", json_str); ("blob_name", blob_name);
                       ("instance_id", PStr (function_app.destination_instance ctx))]).
  destruct (writeToBlob_attempt svc json_str blob_name
              (function_app.destination_instance ctx)
              (h ++ [EvActivity "writeToBlob" 1 input]))
    as (result & calls & Hact & _).
  fold input in Hact.
  rewrite (retry_from_returned _ _ _ _ _ _ _ _ _ Hact). eauto.
Qed.

(** X11.  The retry policies of a document workflow only ever act on a
    malformed reference.  When the reference is a dict, or the JSON text of
    one, every stage is attempted once and no timer is set: the extraction
    and the transformation, and the persistence if the reference is a dict
    with a [name] (otherwise the workflow raises before the persistence).
    When it is not, the extraction is attempted three times, with waits of 5
    and 10 ms, no service is called and the workflow fails with the failure
    of the extraction stage. *)
Theorem only_malformed_reference_is_retried (svc : services)
    (ctx : function_app.context) (blob_metadata : pyval) (h : history) :
  let doc := function_app.process_blob svc ctx blob_metadata h in
  (forall d, reference_dict svc blob_metadata = Some d ->
     timers (snd doc) = []
     /\ attempts (snd doc)
        = [("runDocIntel", 1); ("callAoai", 1)]
          ++ (if has_name blob_metadata then [("writeToBlob", 1)] else [])
     /\ (has_name blob_metadata = false -> exists e, fst doc = Raised (OrchRaised e)))
  /\ (reference_dict svc blob_metadata = None ->
      timers (snd doc) = [5; 10]%Z
      /\ attempts (snd doc) = [("runDocIntel", 1); ("runDocIntel", 2); ("runDocIntel", 3)]
      /\ service_calls (snd doc) = []
      /\ exists last, fst doc = Raised (StageFailure "runDocIntel" 3 last)).
Proof.
  intros doc. subst doc. rewrite process_blob_unfold. unfold process_blob_by_stage.
  set (started := started_event svc ctx blob_metadata).
  assert (Hstarted : timers [started] = [] /\ attempts [started] = []
                     /\ service_calls [started] = []) by (repeat split; reflexivity).
  destruct Hstarted as (Hs1 & Hs2 & Hs3).
  split.
  - intros d Hd.
    destruct (extraction_one_attempt svc blob_metadata d (h ++ [started]) Hd)
      as (text & calls1 & ->).
    set (tr1 := EvActivity "runDocIntel" 1 blob_metadata :: map EvCall calls1).
    destruct (transformation_one_attempt svc ctx text ((h ++ [started]) ++ tr1))
      as (json & input2 & calls2 & ->).
    set (tr2 := EvActivity "callAoai" 1 input2 :: map EvCall calls2).
    assert (Ht1 : timers tr1 = [] /\ attempts tr1 = [("runDocIntel", 1)]).
    { unfold tr1. simpl. now rewrite timers_calls, attempts_calls. }
    assert (Ht2 : timers tr2 = [] /\ attempts tr2 = [("callAoai", 1)]).
    { unfold tr2. simpl. now rewrite timers_calls, attempts_calls. }
    destruct Ht1 as (Ht1 & Ha1). destruct Ht2 as (Ht2 & Ha2).
    destruct (subscript blob_metadata "name") as [blob_name|e] eqn:Hname.
    + assert (Hhas : has_name blob_metadata = true).
      { destruct blob_metadata as [| | | | |d']; try discriminate. simpl in Hname |- *.
        destruct (dict_get d' "name"); [reflexivity|discriminate]. }
      rewrite Hhas.
      destruct (persistence_one_attempt svc ctx json blob_name
                  (((h ++ [started]) ++ tr1) ++ tr2))
        as (result & input3 & calls3 & ->).
      cbn [fst snd].
      change (started :: tr1 ++ tr2
              ++ (EvActivity "writeToBlob" 1 input3 :: map EvCall calls3)
              ++ [completed_event ctx result])
        with ([started] ++ tr1 ++ tr2
              ++ (EvActivity "writeToBlob" 1 input3 :: map EvCall calls3)
              ++ [completed_event ctx result]).
      rewrite !timers_app, !attempts_app, Hs1, Hs2, Ht1, Ht2, Ha1, Ha2. simpl.
      rewrite timers_calls, attempts_calls.
      split; [reflexivity|]. split; [reflexivity|discriminate].
    + assert (Hhas : has_name blob_metadata = false).
      { destruct blob_metadata as [| | | | |d']; try reflexivity. simpl in Hname |- *.
        destruct (dict_get d' "name"); [discriminate|reflexivity]. }
      rewrite Hhas. cbn [fst snd].
      change (started :: tr1 ++ tr2) with ([started] ++ tr1 ++ tr2).
      rewrite !timers_app, !attempts_app, Hs1, Hs2, Ht1, Ht2, Ha1, Ha2.
      split; [reflexivity|]. split; [reflexivity|]. intros _. eauto.
  - intros Hnone.
    destruct (extraction_rejects svc blob_metadata (h ++ [started]) Hnone) as (message & ->).
    cbn [fst snd]. repeat split; eauto.
Qed.

(** A reference that is a number: three attempts, two waits, nothing called. *)
Lemma only_malformed_reference_is_retried_witness :
  timers (snd (function_app.process_blob Examples.svc_ok Examples.doc_ctx (PInt 7) []))
  = [5; 10]%Z.
Proof.
  destruct (only_malformed_reference_is_retried Examples.svc_ok Examples.doc_ctx (PInt 7) [])
    as (_ & Hbad).
  destruct (Hbad eq_refl) as (Htimers & _). exact Htimers.
Defined.

(** ** The key of an output ([writeToBlob], lines 30-32) *)

Section Paths.

Local Open Scope string_scope.






Lemma drop_past_separator (c : ascii) (a b : string) :
  drop (S (String.length a)) (a ++ String c b) = b.
Proof. induction a as [|x a IH]; simpl; [now destruct b|exact IH]. Qed.



End Paths.



(** ** The blob-triggered start ([start_orchestrator_blob]) *)

Lemma normalize_blob_name_prefixed (container rest : string) :
  runDocIntel.normalize_blob_name container (container ++ "/" ++ rest) = rest.
Proof.
  unfold runDocIntel.normalize_blob_name.
  replace (startswith (container ++ "/" ++ rest) (container ++ "/")) with true.
  - rewrite Nat.add_1_r. apply (drop_past_separator "/" container rest).
  - symmetry. induction container as [|c p IH]; simpl.
    + now destruct rest.
    + now rewrite Ascii.eqb_refl.
Qed.

Lemma extraction_downloads_first (svc : services) (d : list (string * pyval))
    (container raw_name : string) (h : history) :
  dict_get d "container" = Some (PStr container) ->
  dict_get d "name" = Some (PStr raw_name) ->
  exists rest,
    snd (runDocIntel.extract_text_from_blob svc (PDict d) h)
    = Call "download_blob"
        [PStr container; PStr (runDocIntel.normalize_blob_name container raw_name)]
      :: rest.
Proof.
  intros Hcontainer Hname.
  unfold runDocIntel.extract_text_from_blob, runDocIntel.analyze, try_except, bind,
    get_blob_content, call, lift_outcome, ret, raise, subscript.
  rewrite Hcontainer, Hname.
  set (key := runDocIntel.normalize_blob_name container raw_name). clearbody key.
  simpl.
  match goal with
  | |- context [download_blob ?a ?b ?c ?k] =>
      destruct (download_blob a b c k) as [content|e]
  end; [|eexists; reflexivity].
  match goal with
  | |- context [analyze_document ?a ?b ?c] =>
      destruct (analyze_document a b c) as [[[|p ps]|]|e]
  end; eexists; reflexivity.
Qed.

(** X13.  A blob that arrives as [bronze/{path}] starts one batch whose
    input is a single reference, a dict with the blob's name, its URI and the
    container [bronze].  The workflow of that reference returns, and its
    extraction first downloads [path] (the name without the container
    prefix) from the container [bronze]. *)
Theorem blob_trigger_downloads_blob_path (svc : services) (env : http.environment)
    (known : list http.DurableOrchestrationStatus) (path uri : string)
    (ctx : function_app.context) :
  exists reference,
    map http.input (handlers.start_orchestrator_blob env known ("bronze/" ++ path) uri)
    = map http.input known ++ [PList [reference]]
    /\ reference
       = PDict [("name", PStr ("bronze/" ++ path)); ("url", PStr uri);
                ("container", PStr "bronze")]
    /\ (forall h, exists rest,
          snd (runDocIntel.extract_text_from_blob svc reference h)
          = Call "download_blob" [PStr "bronze"; PStr path] :: rest)
    /\ (forall h, exists entry tr,
          function_app.process_blob svc ctx reference h = (Returned entry, tr)).
Proof.
  eexists. split.
  { unfold handlers.start_orchestrator_blob, http.start_new. rewrite map_app. reflexivity. }
  split; [reflexivity|]. split.
  - intros h.
    destruct (extraction_downloads_first svc
                [("name", PStr ("bronze/" ++ path)); ("url", PStr uri);
                 ("container", PStr "bronze")]
                "bronze" ("bronze/" ++ path) h eq_refl eq_refl) as (rest & Hcalls).
    change ("bronze/" ++ path)%string with ("bronze" ++ "/" ++ path)%string in Hcalls at 2.
    rewrite normalize_blob_name_prefixed in Hcalls. exists rest. exact Hcalls.
  - intros h.
    destruct (process_blob_returns svc ctx
                (handlers.to_dict (handlers.mkBlobMetadata ("bronze/" ++ path) uri "bronze"))
                h eq_refl) as (entry & tr & Hdoc & _).
    eauto.
Qed.

(** ** The model call ([run_prompt]) *)

(** X14.  [run_prompt] raises only before the model is asked: when the
    client cannot be created or the system or user message cannot be saved.
    Once it returns, the model was asked, with the two prompts, after the
    client was created and both messages were saved, in that order.  A value
    other than [None] is the answer of the model, and it was saved as the
    assistant's message under the same conversation id before being
    returned; so an answer that cannot be saved is lost ([None] is
    returned). *)
Theorem run_prompt_outcomes (svc : services) (pipeline_id system_prompt : pyval)
    (user_prompt : string) (h : history) :
  let r := run_prompt svc pipeline_id system_prompt user_prompt h in
  let client := Call "create_openai_client" [] in
  let save (role : string) (content : pyval) :=
    Call "save_chat_message" [pipeline_id; PStr role; content] in
  let ask := Call "chat_completion" [system_prompt; PStr user_prompt] in
  (forall e, fst r = Raised e ->
     snd r = [client]
     \/ snd r = [client; save "system" system_prompt]
     \/ snd r = [client; save "system" system_prompt; save "user" (PStr user_prompt)])
  /\ (forall v, fst r = Returned v ->
        exists rest,
          snd r = [client; save "system" system_prompt; save "user" (PStr user_prompt); ask]
                  ++ rest
          /\ (v = PNone
              \/ (rest = [save "assistant" v]
                  /\ (exists h', chat_completion svc h' system_prompt user_prompt = Returned v)
                  /\ (exists h', save_chat_message svc h' pipeline_id "assistant" v
                                 = Returned tt))))
  /\ ((forall h' answer, exists e,
          save_chat_message svc h' pipeline_id "assistant" answer = Raised e) ->
      forall v, fst r = Returned v -> v = PNone).
Proof.
  intros r client save ask. subst r client save ask.
  unfold run_prompt, bind, call, try_except, ret. simpl.
  destruct (create_openai_client svc h) as [[]|e1]; simpl.
  2:{ split; [intros; now left|]. split; discriminate. }
  match goal with
  | |- context [save_chat_message svc ?h1 pipeline_id "system" system_prompt] =>
      destruct (save_chat_message svc h1 pipeline_id "system" system_prompt) as [[]|e2]
  end; simpl.
  2:{ split; [intros; right; now left|]. split; discriminate. }
  match goal with
  | |- context [save_chat_message svc ?h1 pipeline_id "user" (PStr user_prompt)] =>
      destruct (save_chat_message svc h1 pipeline_id "user" (PStr user_prompt)) as [[]|e3]
  end; simpl.
  2:{ split; [intros; right; now right|]. split; discriminate. }
  match goal with
  | |- context [chat_completion svc ?h1 system_prompt user_prompt] =>
      destruct (chat_completion svc h1 system_prompt user_prompt) as [answer|e4] eqn:Hask
  end; simpl.
  2:{ split; [discriminate|]. split.
      - intros v Hv. inversion Hv; subst. exists []. split; [reflexivity|now left].
      - intros _ v Hv. now inversion Hv. }
  match goal with
  | |- context [save_chat_message svc ?h1 pipeline_id "assistant" answer] =>
      destruct (save_chat_message svc h1 pipeline_id "assistant" answer) as [[]|e5] eqn:Hsave
  end; simpl.
  - split; [discriminate|]. split.
    + intros v Hv. inversion Hv; subst. eexists. split; [reflexivity|]. right.
      split; [reflexivity|]. split; eexists; eassumption.
    + intros Hnever v Hv. inversion Hv; subst.
      match type of Hsave with
      | save_chat_message svc ?h1 _ _ _ = _ => destruct (Hnever h1 v) as (e & He)
      end.
      rewrite He in Hsave. discriminate.
  - split; [discriminate|]. split.
    + intros v Hv. inversion Hv; subst. eexists. split; [reflexivity|now left].
    + intros _ v Hv. now inversion Hv.
Qed.

(** The model answers but the conversation store is down for answers. *)
Lemma run_prompt_outcomes_witness :
  fst (run_prompt
         (mkServices MiniJson.json_loads MiniJson.dumps (fun _ => Returned PNone)
            (fun _ => "") (fun _ _ => Returned "") "silver"
            (fun _ _ _ => Returned "") (fun _ _ _ _ => Returned tt)
            (fun _ _ => Returned None) (fun _ => Returned PNone)
            (fun _ => Returned tt)
            (fun _ _ role _ =>
               if String.eqb role "assistant"
               then Raised (PyError "CosmosHttpResponseError" "busy") else Returned tt)
            (fun _ _ _ => Returned (PStr "{}")) (fun p _ => p))
         (PStr "c-1") (PStr "You extract.") "Document: x" [])
  = Returned PNone.
Proof.
  set (svc := mkServices _ _ _ _ _ _ _ _ _ _ _ _ _ _).
  destruct (run_prompt_outcomes svc (PStr "c-1") (PStr "You extract.") "Document: x" [])
    as (_ & _ & Hlost).
  destruct (fst (run_prompt svc (PStr "c-1") (PStr "You extract.") "Document: x" []))
    as [v|e] eqn:Hr.
  - f_equal. apply Hlost; [|reflexivity].
    intros h' answer. eexists. reflexivity.
  - discriminate Hr.
Defined.

(** ** A workflow whose extraction found no text *)

Lemma callAoai_without_text (svc : services) (text_result instance_id : pyval)
    (h : history) :
  truthy text_result = false ->
  callAoai.run svc (PDict [("text_result", text_result); ("instance_id", instance_id)]) h
  = (Returned PNone, []).
Proof.
  intros Hfalsy. unfold callAoai.run, callAoai.call_model, try_except.
  cbn [dict_get_or dict_get]. simpl dict_get_or.
  replace (dict_get_or [("text_result", text_result); ("instance_id", instance_id)]
             "text_result" PNone) with text_result by reflexivity.
  rewrite Hfalsy. reflexivity.
Qed.

(** X15.  When the extraction of a named reference returned no text ([None]
    after an error it caught, or an empty string), the rest of the workflow
    costs nothing: the transformation returns [None] without loading the
    prompts or asking the model, the persistence uploads nothing, and the
    workflow still returns an entry, whose [task_result] reports
    [success = False].  The only services called are those of the
    extraction. *)
Theorem workflow_without_text_calls_nothing_more (svc : services)
    (ctx : function_app.context) (d : list (string * pyval)) (h : history)
    (text_result : pyval) :
  has_name (PDict d) = true ->
  let h1 := h ++ [started_event svc ctx (PDict d)] in
  fst (extraction_stage svc (PDict d) h1) = Returned text_result ->
  truthy text_result = false ->
  let doc := function_app.process_blob svc ctx (PDict d) h in
  service_calls (snd doc) = service_calls (snd (extraction_stage svc (PDict d) h1))
  /\ uploads (snd doc) = []
  /\ exists message,
       fst doc
       = Returned (result_payload (PDict d) text_result
                     (PDict [("success", PBool false); ("error", PStr message)])).
Proof.
  intros Hname h1 Hext Hfalsy doc. subst doc.
  assert (Hgoal : service_calls (snd (function_app.process_blob svc ctx (PDict d) h))
                  = service_calls (snd (extraction_stage svc (PDict d) h1))
                  /\ exists message,
                       fst (function_app.process_blob svc ctx (PDict d) h)
                       = Returned (result_payload (PDict d) text_result
                                     (PDict [("success", PBool false);
                                             ("error", PStr message)]))).
  { rewrite process_blob_unfold. unfold process_blob_by_stage. fold h1.
    destruct (extraction_stage svc (PDict d) h1) as [[text|e] tr1]; [|discriminate].
    simpl in Hext. inversion Hext; subst text.
    unfold transformation_stage, call_activity_with_retry.
    simpl retry_from. rewrite (callAoai_without_text _ _ _ _ Hfalsy).
    simpl in Hname. unfold subscript.
    destruct (dict_get d "name") as [blob_name|]; [|discriminate].
    unfold persistence_stage, call_activity_with_retry. simpl retry_from.
    cbn [fst snd map]. split; [|eexists; reflexivity].
    unfold started_event, function_app.tracked. cbn [service_calls flat_map app].
    rewrite service_calls_app. simpl. now rewrite app_nil_r. }
  destruct Hgoal as (Hcalls & Hentry). split; [exact Hcalls|]. split; [|exact Hentry].
  unfold uploads. rewrite Hcalls. apply extraction_no_upload.
Qed.

(** The blob cannot be downloaded: nothing is written. *)
Lemma workflow_without_text_calls_nothing_more_witness :
  uploads (snd (function_app.process_blob Examples.svc_missing_blob Examples.doc_ctx
                  (Examples.ref "missing.pdf") [])) = [].
Proof.
  destruct (workflow_without_text_calls_nothing_more Examples.svc_missing_blob
              Examples.doc_ctx
              [("name", PStr "missing.pdf"); ("url", PStr "https://store/bronze/missing.pdf");
               ("container", PStr "bronze")] [] PNone eq_refl eq_refl eq_refl)
    as (_ & Huploads & _).
  exact Huploads.
Defined.

(** ** The transformation activity ([callAoai]) *)

Lemma bind_inv {V} {em : Emits V} {E A B} (m : M V E A) (f : A -> M V E B)
    (h : history) (b : B) (l : list V) :
  bind m f h = (Returned b, l) ->
  exists a l1 l2,
    m h = (Returned a, l1) /\ f a (h ++ map as_event l1) = (Returned b, l2)
    /\ l = l1 ++ l2.
Proof.
  unfold bind. destruct (m h) as [[a|e] l1]; [|discriminate].
  destruct (f a (h ++ map as_event l1)) as [r l2] eqn:Hf. intros H. inversion H; subst.
  exists a, l1, l2. auto.
Qed.

Lemma load_prompts_returned (svc : services) (h : history) (prompts : pyval)
    (calls : list service_call) :
  load_prompts svc h = (Returned prompts, calls) ->
  py_contains prompts "system_prompt" = Returned true
  /\ py_contains prompts "user_prompt" = Returned true
  /\ exists prompt_file,
       config_get_value svc h "PROMPT_FILE" = Returned prompt_file
       /\ upper prompt_file <> "COSMOS"
       /\ calls = [Call "config.get_value" [PStr "PROMPT_FILE"];
                   Call "download_blob" [PStr "prompts"; PStr prompt_file]].
Proof.
  unfold load_prompts. intros H.
  apply bind_inv in H as (prompt_source & l1 & l2 & Hsource & H & ->).
  unfold call in Hsource.
  destruct (config_get_value svc h "PROMPT_FILE") as [source|] eqn:Hvalue; [|discriminate].
  inversion Hsource; subst l1 source. clear Hsource.
  destruct (String.eqb prompt_source ""); [discriminate|].
  apply bind_inv in H as (loaded & l3 & l4 & Hload & H & ->).
  apply bind_inv in H as (has_system & l5 & l6 & Hsys & H & ->).
  unfold lift_outcome in Hsys. inversion Hsys; subst l5.
  destruct has_system; [|discriminate]. simpl negb in H. cbv iota in H.
  apply bind_inv in H as (has_user & l7 & l8 & Huser & H & ->).
  unfold lift_outcome in Huser. inversion Huser; subst l7.
  destruct has_user; [|discriminate]. simpl in H. unfold ret in H. inversion H; subst.
  split; [assumption|]. split; [assumption|].
  exists prompt_source. split; [reflexivity|].
  destruct (String.eqb_spec (upper prompt_source) "COSMOS") as [Hcosmos|Hblob].
  - unfold load_prompts_from_cosmos, bind, call, raise in Hload.
    match type of Hload with
    | context [cosmos_settings ?a ?b] => destruct (cosmos_settings a b)
    end; discriminate.
  - split; [exact Hblob|].
    unfold load_prompts_from_blob, try_except, bind, get_blob_content, call, lift_outcome,
      raise in Hload.
    match type of Hload with
    | context [download_blob ?a ?b ?c ?k] => destruct (download_blob a b c k)
    end; [|discriminate].
    match type of Hload with
    | context [yaml_safe_load ?a ?b] => destruct (yaml_safe_load a b)
    end; [|discriminate].
    inversion Hload; subst. reflexivity.
Qed.

Lemma run_prompt_answered (svc : services) (pipeline_id system_prompt : pyval)
    (user_prompt : string) (h : history) (v : pyval) (calls : list service_call) :
  run_prompt svc pipeline_id system_prompt user_prompt h = (Returned v, calls) ->
  v <> PNone ->
  calls = [Call "create_openai_client" [];
           Call "save_chat_message" [pipeline_id; PStr "system"; system_prompt];
           Call "save_chat_message" [pipeline_id; PStr "user"; PStr user_prompt];
           Call "chat_completion" [system_prompt; PStr user_prompt];
           Call "save_chat_message" [pipeline_id; PStr "assistant"; v]].
Proof.
  unfold run_prompt, bind, call, try_except, ret. simpl.
  destruct (create_openai_client svc h) as [[]|e1]; simpl; [|discriminate].
  match goal with
  | |- context [save_chat_message svc ?h1 pipeline_id "system" system_prompt] =>
      destruct (save_chat_message svc h1 pipeline_id "system" system_prompt) as [[]|e2]
  end; simpl; [|discriminate].
  match goal with
  | |- context [save_chat_message svc ?h1 pipeline_id "user" (PStr user_prompt)] =>
      destruct (save_chat_message svc h1 pipeline_id "user" (PStr user_prompt)) as [[]|e3]
  end; simpl; [|discriminate].
  match goal with
  | |- context [chat_completion svc ?h1 system_prompt user_prompt] =>
      destruct (chat_completion svc h1 system_prompt user_prompt) as [answer|e4]
  end; simpl.
  2:{ intros H Hv. inversion H; subst. contradiction. }
  match goal with
  | |- context [save_chat_message svc ?h1 pipeline_id "assistant" answer] =>
      destruct (save_chat_message svc h1 pipeline_id "assistant" answer) as [[]|e5]
  end; simpl; intros H Hv; inversion H; subst; [reflexivity|contradiction].
Qed.

(** X16.  A run of [callAoai] that returns a string did all of this, in
    this order and nothing else: it read [PROMPT_FILE], which does not say
    Cosmos, and downloaded the blob of that name from the container
    [prompts], created the client, saved the system message and the user
    message, asked the model once and saved its answer, the three messages
    under the [instance_id] of the input.  The user message is the template
    without its trailing white space, an empty line and the text.  The
    string returned is what the normalization makes of the answer: the
    serialization of the JSON value in the unwrapped answer, or the
    unwrapped answer itself when the parser refuses it with a
    [JSONDecodeError]. *)
Theorem callAoai_success_trace (svc : services) (d : list (string * pyval))
    (h : history) (out : string) (calls : list service_call) :
  callAoai.run svc (PDict d) h = (Returned (PStr out), calls) ->
  exists (prompt_file : string) (system_prompt : pyval) (template answer : string),
    let text_result := dict_get_or d "text_result" PNone in
    let instance_id := dict_get_or d "instance_id" PNone in
    let user_prompt := (rstrip template ++ nl ++ nl ++ fstr svc text_result)%string in
    truthy text_result = true
    /\ truthy system_prompt = true
    /\ config_get_value svc h "PROMPT_FILE" = Returned prompt_file
    /\ upper prompt_file <> "COSMOS"
    /\ calls = [Call "config.get_value" [PStr "PROMPT_FILE"];
                Call "download_blob" [PStr "prompts"; PStr prompt_file];
                Call "create_openai_client" [];
                Call "save_chat_message" [instance_id; PStr "system"; system_prompt];
                Call "save_chat_message" [instance_id; PStr "user"; PStr user_prompt];
                Call "chat_completion" [system_prompt; PStr user_prompt];
                Call "save_chat_message" [instance_id; PStr "assistant"; PStr answer]]
    /\ callAoai.normalize svc answer = Returned out
    /\ part_of (callAoai.unwrap_fence answer) answer
    /\ match json_loads svc (callAoai.unwrap_fence answer) with
       | Returned parsed => out = json_dumps svc parsed
       | Raised e => callAoai.is_json_decode_error e = true
                     /\ out = callAoai.unwrap_fence answer
       end.
Proof.
  unfold callAoai.run, try_except.
  destruct (callAoai.call_model svc (PDict d) (dict_get_or d "instance_id" PNone) h)
    as [[v|e] l] eqn:Hmodel.
  2:{ destruct (ret PNone (h ++ map as_event l)) as [r l2] eqn:Hret.
      unfold ret in Hret. inversion Hret; subst. discriminate. }
  intros H. inversion H; subst v l. clear H.
  unfold callAoai.call_model in Hmodel.
  destruct (truthy (dict_get_or d "text_result" PNone)) eqn:Htext; [|discriminate].
  simpl negb in Hmodel. cbv iota in Hmodel.
  apply bind_inv in Hmodel as (prompt_json & l1 & l2 & Hload & Hmodel & ->).
  apply load_prompts_returned in Hload as (_ & _ & prompt_file & Hfile & Hblob & ->).
  apply bind_inv in Hmodel as (system_prompt & l3 & l4 & Hsys & Hmodel & ->).
  unfold lift_outcome in Hsys. inversion Hsys; subst l3. clear Hsys.
  apply bind_inv in Hmodel as (template & l5 & l6 & Htemplate & Hmodel & ->).
  unfold lift_outcome in Htemplate. inversion Htemplate; subst l5. clear Htemplate.
  destruct (truthy system_prompt) eqn:Hsystem; [|discriminate].
  destruct (truthy template) eqn:Htempl; [|discriminate].
  simpl in Hmodel. destruct template as [| | |template| |]; try discriminate.
  apply bind_inv in Hmodel as (response & l7 & l8 & Hrun & Hmodel & ->).
  destruct response as [| | |answer| |]; try discriminate.
  apply bind_inv in Hmodel as (json_str & l9 & l10 & Hnormal & Hmodel & ->).
  unfold lift_outcome in Hnormal.
  destruct (callAoai.normalize svc answer) as [normal|] eqn:Hanswer; [|discriminate].
  inversion Hnormal; subst l9 normal. clear Hnormal.
  unfold ret in Hmodel. inversion Hmodel; subst.
  apply run_prompt_answered in Hrun; [|discriminate]. subst l7.
  exists prompt_file, system_prompt, template, answer. cbv zeta.
  split; [reflexivity|]. split; [assumption|]. split; [assumption|].
  split; [assumption|]. split; [reflexivity|]. split; [assumption|].
  split; [apply unwrap_fence_part|].
  unfold callAoai.normalize in Hanswer.
  destruct (json_loads svc (callAoai.unwrap_fence answer)) as [parsed|e].
  - now inversion Hanswer.
  - destruct (callAoai.is_json_decode_error e); [|discriminate].
    inversion Hanswer. split; reflexivity.
Qed.

(** The run of the examples: seven calls, the last saves the answer. *)
Lemma callAoai_success_trace_witness :
  length (snd (callAoai.run Examples.svc_ok
                 (PDict [("text_result", PStr "Invoice 42");
                         ("instance_id", PStr "batch-1:0")]) [])) = 7.
Proof.
  destruct (callAoai_success_trace Examples.svc_ok
              [("text_result", PStr "Invoice 42"); ("instance_id", PStr "batch-1:0")] []
              Examples.inner_json
              (snd (callAoai.run Examples.svc_ok
                      (PDict [("text_result", PStr "Invoice 42");
                              ("instance_id", PStr "batch-1:0")]) []))
              eq_refl)
    as (prompt_file & system_prompt & template & answer & _ & _ & _ & _ & Hcalls & _).
  rewrite Hcalls. reflexivity.
Defined.

(** ** The chat endpoint ([direct_chat]) *)

(** X17.  For a request that passed the authentication and the limiter of
    the chat: the request is counted by the limiter whether it is valid or
    not.  A body that is not JSON, or an object without a [query] that is a
    string with something else than white space in it, is answered 400
    without any service being called.  A valid query is passed to the model
    trimmed, under the [pipelineId] of the body or, without one, under
    [http-] followed by a fresh uuid; the answer is 502 when [run_prompt]
    returned [None] and otherwise 200 with that pipeline id and the
    response; no service is called except by [run_prompt]. *)
Theorem chat_validation (svc : services) (env : http.environment) (fresh_uuid : string)
    (hits : list Z) (req : http.HttpRequest) (h : history) :
  fst (http._authenticate_request env req (http.uuid4 env)) = true ->
  fst (fst (http._enforce_rate_limit hits 60 60 (http.monotonic env))) = true ->
  let result := handlers.direct_chat svc env fresh_uuid hits req in
  let bad_request := http._json_response false in
  fst result = (http.expire hits (http.monotonic env) 60 ++ [http.monotonic env])%list
  /\ (http.get_json req = None ->
      snd result h
      = (Returned (bad_request "Invalid JSON payload." 400%Z (http.uuid4 env) None), []))
  /\ (forall d,
        http.get_json req = Some (PDict d) ->
        (forall q, dict_get d "query" = Some (PStr q) -> strip q = EmptyString) ->
        snd result h
        = (Returned (bad_request "Invalid request: 'query' must be a non-empty string."
                       400%Z (http.uuid4 env) None), []))
  /\ (forall d q,
        http.get_json req = Some (PDict d) ->
        dict_get d "query" = Some (PStr q) ->
        strip q <> EmptyString ->
        let pipeline_id :=
          if truthy (dict_get_or d "pipelineId" PNone)
          then dict_get_or d "pipelineId" PNone
          else PStr ("http-" ++ fresh_uuid) in
        let system_prompt :=
          PStr ("You are a helpful assistant. Use any provided context to answer the user's query."
                ++ nl ++ "Context:" ++ nl ++ fstr svc (dict_get_or d "context" (PStr ""))) in
        let asked := run_prompt svc pipeline_id system_prompt (strip q) (h ++ []) in
        snd (snd result h) = snd asked
        /\ (fst asked = Returned PNone ->
            fst (snd result h)
            = Returned (http._json_response false
                          "Failed to generate response from Azure OpenAI."
                          502%Z (http.uuid4 env) None))
        /\ (forall v, fst asked = Returned v -> v <> PNone ->
            fst (snd result h)
            = Returned (http._json_response true "Response generated." 200%Z
                          (http.uuid4 env)
                          (Some [("pipelineId", pipeline_id); ("response", v)])))
        /\ (forall e, fst asked = Raised e -> fst (snd result h) = Raised e)).
Proof.
  intros Hauth Hrate result bad_request. subst result bad_request.
  unfold handlers.direct_chat.
  destruct (http._authenticate_request env req (http.uuid4 env)) as [[|] auth];
    [|discriminate].
  assert (Hlimiter : http._enforce_rate_limit hits 60 60 (http.monotonic env)
                     = ((true, None),
                        (http.expire hits (http.monotonic env) 60
                         ++ [http.monotonic env])%list)).
  { unfold http._enforce_rate_limit in *.
    destruct (60 <=? length (http.expire hits (http.monotonic env) 60))%nat;
      [discriminate|reflexivity]. }
  rewrite Hlimiter. cbn [fst snd].
  split; [reflexivity|]. split; [intros ->; reflexivity|]. split.
  - intros d -> Hblank. unfold bind, lift_outcome, py_get, ret. cbn [fst snd].
    unfold dict_get_or.
    destruct (dict_get d "query") as [[| | |q| |]|]; try reflexivity.
    rewrite (Hblank q eq_refl). reflexivity.
  - intros d q -> Hq Hnonblank.
    unfold bind, lift_outcome, py_get, dict_get_or. rewrite Hq.
    destruct (String.eqb_spec (strip q) "") as [Heq|_]; [contradiction|].
    simpl map.
    match goal with
    | |- context [run_prompt ?a ?b ?c ?x ?y] =>
        destruct (run_prompt a b c x y) as [[v|e] calls]
    end; cbn [fst snd].
    + destruct v; unfold ret; cbn [fst snd]; rewrite ?app_nil_r;
        (split; [reflexivity|]); (split; [intros H; try reflexivity; discriminate H|]);
        (split; [|discriminate]); intros v' Hv Hne; inversion Hv; subst;
        try reflexivity; contradiction.
    + split; [reflexivity|]. split; [discriminate|]. split; [discriminate|].
      intros e' He. inversion He. reflexivity.
Qed.

(** A query that is a no-break space is answered 400 and nothing is
    called. *)
Lemma chat_validation_witness :
  snd (handlers.direct_chat Examples.svc_ok Examples.env0 "f00d" []
         (http.mkRequest [] [] (Some (PDict [("query", PStr nbsp)])))) []
  = (Returned (http._json_response false
                 "Invalid request: 'query' must be a non-empty string."
                 400%Z (http.uuid4 Examples.env0) None), []).
Proof.
  destruct (chat_validation Examples.svc_ok Examples.env0 "f00d" []
              (http.mkRequest [] [] (Some (PDict [("query", PStr nbsp)]))) []
              eq_refl eq_refl) as (_ & _ & Hblank & _).
  apply (Hblank [("query", PStr nbsp)] eq_refl).
  intros q Hq. inversion Hq. reflexivity.
Defined.

(** ** The configuration ([Configuration]) *)

(** X18.  Building the configuration.  In local mode it never fails, and
    with [allow_environment_variables=true] it loads no store even when an
    endpoint is set.  Otherwise the store of [APP_CONFIGURATION_URI] is
    preferred: when it loads, the connection string is not tried.  Outside
    local mode a configuration that was built always has a store, loaded
    from the endpoint or from the connection string, and building fails
    exactly when neither gives one, with the message [Unable to connect to
    Azure App Configuration...].  The mode is [FUNCTIONAPP_ENV] in lower
    case, [cloud] when unset. *)
Theorem configuration_init (environ : list (string * string))
    (load_endpoint load_connection : string -> outcome pyerr (list (string * string))) :
  let built := configuration.init environ load_endpoint load_connection in
  let mode := lower (configuration.environ_get environ "FUNCTIONAPP_ENV" "cloud") in
  let env_only :=
    String.eqb mode "local"
    && String.eqb (lower (configuration.environ_get environ
                            "allow_environment_variables" "false")) "true" in
  (String.eqb mode "local" = true -> exists cfg, built = Returned cfg)
  /\ (env_only = true -> built = Returned (configuration.mkConfiguration mode environ None))
  /\ (forall uri store,
        env_only = false ->
        http.lookup environ "APP_CONFIGURATION_URI" = Some uri -> uri <> EmptyString ->
        load_endpoint uri = Returned store ->
        built = Returned (configuration.mkConfiguration mode environ (Some store)))
  /\ (forall cfg, built = Returned cfg ->
        configuration.env_mode cfg = mode
        /\ configuration.environ cfg = environ
        /\ (configuration.is_local_mode cfg = false ->
            exists store, configuration.config cfg = Some store)
        /\ (forall store, configuration.config cfg = Some store ->
              (exists uri, http.lookup environ "APP_CONFIGURATION_URI" = Some uri
                           /\ uri <> EmptyString /\ load_endpoint uri = Returned store)
              \/ (exists cs, http.lookup environ "AZURE_APPCONFIG_CONNECTION_STRING" = Some cs
                             /\ cs <> EmptyString /\ load_connection cs = Returned store)))
  /\ (forall e, built = Raised e ->
        String.eqb mode "local" = false
        /\ startswith (err_msg e) "Unable to connect to Azure App Configuration." = true
        /\ (forall uri, http.lookup environ "APP_CONFIGURATION_URI" = Some uri ->
              uri = EmptyString \/ exists e', load_endpoint uri = Raised e')
        /\ (forall cs, http.lookup environ "AZURE_APPCONFIG_CONNECTION_STRING" = Some cs ->
              cs = EmptyString \/ exists e', load_connection cs = Raised e')).
Proof.
  intros built mode env_only. subst built env_only. unfold configuration.init.
  fold mode. unfold configuration.is_local_mode.
  destruct (String.eqb mode "local") eqn:Hlocal; cbn [andb].
  - destruct (String.eqb (lower (configuration.environ_get environ
                                   "allow_environment_variables" "false")) "true").
    + split; [eauto|]. split; [reflexivity|]. split; [discriminate|]. split; [|discriminate].
      intros cfg H. inversion H; subst. cbn. rewrite Hlocal.
      repeat split; try discriminate.
    + destruct (http.lookup environ "APP_CONFIGURATION_URI") as [uri|] eqn:Huri;
        [destruct (String.eqb_spec uri "") as [->|Hne];
         [|destruct (load_endpoint uri) as [store|e1] eqn:Hload]|];
        destruct (http.lookup environ "AZURE_APPCONFIG_CONNECTION_STRING") as [cs|] eqn:Hcs;
        try (destruct (String.eqb_spec cs "") as [->|Hne'];
             [|destruct (load_connection cs) as [store'|e2] eqn:Hload']);
        (split; [eauto|]); (split; [discriminate|]);
        (split; [intros uri' store'' _ Hu Hn Hl; inversion Hu; subst;
                 try contradiction; try congruence|]);
        (split; [|discriminate]);
        intros cfg H; inversion H; subst; cbn; rewrite ?Hlocal;
        (split; [reflexivity|]); (split; [reflexivity|]); (split; [discriminate|]);
        intros st Hst; inversion Hst; subst; eauto 8.
  - destruct (http.lookup environ "APP_CONFIGURATION_URI") as [uri|] eqn:Huri;
      [destruct (String.eqb_spec uri "") as [->|Hne];
       [|destruct (load_endpoint uri) as [store|e1] eqn:Hload]|];
      destruct (http.lookup environ "AZURE_APPCONFIG_CONNECTION_STRING") as [cs|] eqn:Hcs;
      try (destruct (String.eqb_spec cs "") as [->|Hne'];
           [|destruct (load_connection cs) as [store'|e2] eqn:Hload']);
      (split; [discriminate|]); (split; [discriminate|]);
      (split; [intros uri' store'' _ Hu Hn Hl; inversion Hu; subst;
               try contradiction; try congruence|]);
      split;
      try (intros cfg H; inversion H; subst; cbn; rewrite ?Hlocal;
           (split; [reflexivity|]); (split; [reflexivity|]); (split; [eauto|]);
           intros st Hst; inversion Hst; subst; eauto 8);
      try discriminate;
      intros e H; inversion H; subst; cbn [err_msg];
      (split; [reflexivity|]); (split; [reflexivity|]);
      split; intros x Hx; inversion Hx; subst; eauto.
Qed.

(** A cloud deployment without endpoint and connection string cannot be
    built; the same environment in local mode can. *)
Lemma configuration_init_witness :
  (exists e, configuration.init [] (fun _ => Returned []) (fun _ => Returned []) = Raised e)
  /\ exists cfg,
       configuration.init [("FUNCTIONAPP_ENV", "Local")]
         (fun _ => Returned []) (fun _ => Returned []) = Returned cfg.
Proof.
  split.
  - eexists. reflexivity.
  - destruct (configuration_init [("FUNCTIONAPP_ENV", "Local")]
                (fun _ => Returned []) (fun _ => Returned [])) as (Hlocal & _).
    apply Hlocal. reflexivity.
Defined.

(** X19.  Where [get_value] looks.  When environment variables are allowed
    (local mode, or [allow_environment_variables=true]) a variable that is
    set wins, also when it is empty and also when the store holds another
    value.  When they are not allowed the environment is never read: the
    answer is that of the same configuration with an empty environment.  The
    default is used only when neither gives a value, and [get_value] raises
    exactly when there is no value and no default. *)
Theorem get_value_precedence (self : configuration.Configuration) (key : string)
    (default : option string) :
  let visible :=
    if configuration.allow_env_vars self
    then http.lookup (configuration.environ self) key else None in
  let stored :=
    match configuration.config self with
    | Some store => http.lookup store key
    | None => None
    end in
  (forall v, visible = Some v -> configuration.get_value self key default = Returned v)
  /\ (forall v, visible = None -> stored = Some v ->
        configuration.get_value self key default = Returned v)
  /\ (configuration.allow_env_vars self = false ->
      configuration.get_value self key default
      = configuration.get_value
          (configuration.mkConfiguration (configuration.env_mode self) []
             (configuration.config self)) key default)
  /\ (forall d, visible = None -> stored = None -> default = Some d ->
        configuration.get_value self key default = Returned d)
  /\ ((exists e, configuration.get_value self key default = Raised e)
      <-> visible = None /\ stored = None /\ default = None).
Proof.
  intros visible stored. subst visible stored.
  unfold configuration.get_value, configuration.get_config_with_retry.
  split.
  { intros v ->. destruct (configuration.config self); reflexivity. }
  split.
  { intros v -> Hs. destruct (configuration.config self) as [store|]; [|discriminate].
    now rewrite Hs. }
  split.
  { intros Hallow. rewrite Hallow.
    assert (Hmode : configuration.allow_env_vars
                      (configuration.mkConfiguration (configuration.env_mode self) []
                         (configuration.config self)) = false).
    { unfold configuration.allow_env_vars in *. cbn.
      apply orb_false_iff in Hallow as [-> _]. reflexivity. }
    rewrite Hmode. reflexivity. }
  split.
  { intros d -> Hs ->. destruct (configuration.config self) as [store|];
      [now rewrite Hs|reflexivity]. }
  destruct (if configuration.allow_env_vars self
            then http.lookup (configuration.environ self) key else None) as [v|].
  - split; [intros [e He]|intros (H & _); discriminate].
    destruct (configuration.config self); discriminate.
  - destruct (configuration.config self) as [store|].
    + destruct (http.lookup store key) as [v|].
      * split; [intros [e He]; discriminate|intros (_ & H & _); discriminate].
      * destruct default; split; try (intros [e He]; discriminate);
          try (intros (_ & _ & H); discriminate); eauto.
    + destruct default; split; try (intros [e He]; discriminate);
        try (intros (_ & _ & H); discriminate); eauto.
Qed.

(** In local mode an empty variable shadows the value of the store. *)
Lemma get_value_precedence_witness :
  configuration.get_value
    (configuration.mkConfiguration "local" [("NEXT_STAGE", "")]
       (Some [("NEXT_STAGE", "silver")])) "NEXT_STAGE" None
  = Returned "".
Proof.
  destruct (get_value_precedence
              (configuration.mkConfiguration "local" [("NEXT_STAGE", "")]
                 (Some [("NEXT_STAGE", "silver")])) "NEXT_STAGE" None) as (Henv & _).
  apply Henv. reflexivity.
Defined.

Lemma get_value_with_default (self : configuration.Configuration) (key d : string) :
  configuration.get_value self key (Some d)
  = match configuration.get_value self key None with
    | Returned v => Returned v
    | Raised _ => Returned d
    end.
Proof.
  unfold configuration.get_value.
  destruct (match (if configuration.allow_env_vars self
                   then http.lookup (configuration.environ self) key else None),
                  configuration.config self with
            | None, Some store => configuration.get_config_with_retry store key
            | _, _ => if configuration.allow_env_vars self
                      then http.lookup (configuration.environ self) key else None
            end); reflexivity.
Qed.

Lemma authenticate_with_key (env : http.environment) (req : http.HttpRequest)
    (correlation_id key : string) :
  http.API_KEY env = Some key ->
  (fst (http._authenticate_request env req correlation_id) = true
   <-> supplied_key req = Some key)
  /\ (supplied_key req = None ->
      http._authenticate_request env req correlation_id
      = (false, Some (unauthorized correlation_id))).
Proof.
  intros Hkey. unfold http._authenticate_request. rewrite Hkey.
  fold (supplied_key req). destruct (supplied_key req) as [k|].
  - destruct (String.eqb_spec k key); simpl; split; try split; congruence.
  - split; [split; discriminate|reflexivity].
Qed.

(** X20.  The key of the HTTP surface is [config.get_api_key()], which never
    raises.  When [API_KEY] is configured nowhere the endpoints are open.
    When it is configured, a request is authorized exactly when it presents
    that key; this holds for the empty key too: with [API_KEY] set to the
    empty string a request without any credential is refused with 401 (the
    start-up log then says that the endpoints are open).  A key equal to the
    sentinel of [try_get_value] counts as not configured. *)
Theorem api_key_configuration (self : configuration.Configuration)
    (env : http.environment) (req : http.HttpRequest) (correlation_id : string) :
  configuration.get_api_key self = Returned (http.API_KEY env) ->
  let auth := http._authenticate_request env req correlation_id in
  (exists key, configuration.get_api_key self = Returned key)
  /\ (forall e, configuration.get_value self "API_KEY" None = Raised e ->
        auth = (true, None))
  /\ (configuration.get_value self "API_KEY" None = Returned configuration.sentinel ->
      auth = (true, None))
  /\ (forall key,
        configuration.get_value self "API_KEY" None = Returned key ->
        key <> configuration.sentinel ->
        (fst auth = true <-> supplied_key req = Some key)
        /\ (supplied_key req = None -> auth = (false, Some (unauthorized correlation_id)))).
Proof.
  unfold configuration.get_api_key, configuration.try_get_value.
  rewrite get_value_with_default. intros Hkey.
  split.
  { destruct (configuration.get_value self "API_KEY" None); eauto. }
  destruct (configuration.get_value self "API_KEY" None) as [v|e0]; cbv iota beta in Hkey.
  - split; [discriminate|].
    destruct (String.eqb v configuration.sentinel) eqn:Hsentinel.
    + apply String.eqb_eq in Hsentinel. inversion Hkey as [Hnone]. split.
      * intros _. unfold http._authenticate_request. now rewrite <- Hnone.
      * intros key H. inversion H; subst. contradiction.
    + apply String.eqb_neq in Hsentinel. inversion Hkey as [Hsome]. split.
      * intros H. inversion H; contradiction.
      * intros key H Hne'. inversion H; subst key.
        apply authenticate_with_key. now symmetry.
  - simpl in Hkey. inversion Hkey as [Hnone]. split.
    + intros e _. unfold http._authenticate_request. now rewrite <- Hnone.
    + split; discriminate.
Qed.

(** [API_KEY] set to the empty string in local mode: a request without a
    credential is refused. *)
Lemma api_key_configuration_witness :
  http._authenticate_request MoreExamples.env_empty_key (http.mkRequest [] [] None) "c0ffee"
  = (false, Some (unauthorized "c0ffee")).
Proof.
  destruct (api_key_configuration
              (configuration.mkConfiguration "local" [("API_KEY", "")] None)
              MoreExamples.env_empty_key
              (http.mkRequest [] [] None) "c0ffee" eq_refl)
    as (_ & _ & _ & Hkey).
  destruct (Hkey "" eq_refl) as (_ & Hrefused); [discriminate|].
  apply Hrefused. reflexivity.
Defined.

Section Lists.

Local Open Scope string_scope.

Lemma split_on_whole (sep : ascii) (a : string) :
  no_char sep a = true -> configuration.split_on sep a = [a].
Proof.
  induction a as [|c a IH]; simpl; [reflexivity|].
  unfold no_char in *. simpl. intros H. apply andb_true_iff in H as [Hc Ha].
  destruct (Ascii.eqb c sep); [discriminate|]. now rewrite (IH Ha).
Qed.

Lemma split_on_first (sep : ascii) (a b : string) :
  no_char sep a = true ->
  configuration.split_on sep (a ++ String sep b) = a :: configuration.split_on sep b.
Proof.
  induction a as [|c a IH]; simpl.
  - intros _. now rewrite Ascii.eqb_refl.
  - unfold no_char in *. simpl. intros H. apply andb_true_iff in H as [Hc Ha].
    destruct (Ascii.eqb c sep); [discriminate|]. now rewrite (IH Ha).
Qed.

Lemma split_on_join (items : list string) :
  Forall (fun item => no_char "," item = true) items ->
  items <> [] ->
  configuration.split_on "," (join "," items) = items.
Proof.
  induction 1 as [|p rest Hp Hrest IH]; [congruence|]. intros _.
  destruct rest as [|q rest].
  - simpl. now apply split_on_whole.
  - change (join "," (p :: q :: rest)) with (p ++ String "," (join "," (q :: rest))).
    rewrite (split_on_first _ _ _ Hp). f_equal. apply IH. discriminate.
Qed.

End Lists.

(** X21.  [read_env_list] never raises and never returns an empty item; a
    variable that is set nowhere gives the empty list.  It reads back what
    was written: for items without a comma, with no white space around them
    and not empty, the list read from their comma-separated text is the
    list of the items. *)
Theorem read_env_list_round_trip (self : configuration.Configuration) (var_name : string) :
  (exists l, configuration.read_env_list self var_name = Returned l
             /\ Forall (fun item => item <> EmptyString) l)
  /\ (forall e, configuration.get_value self var_name None = Raised e ->
        configuration.read_env_list self var_name = Returned [])
  /\ (forall items,
        Forall (fun item => no_char "," item = true /\ strip item = item
                            /\ item <> EmptyString) items ->
        configuration.get_value self var_name None = Returned (join "," items) ->
        configuration.read_env_list self var_name = Returned items).
Proof.
  unfold configuration.read_env_list. rewrite get_value_with_default.
  split.
  { destruct (configuration.get_value self var_name None) as [value|e];
      eexists; (split; [reflexivity|]); try (simpl; constructor).
    induction (configuration.split_on "," value) as [|x l IH]; simpl; [constructor|].
    destruct (String.eqb_spec (strip x) ""); simpl; [exact IH|].
    constructor; assumption. }
  split.
  { intros e ->. reflexivity. }
  intros items Hitems ->. f_equal.
  destruct items as [|p rest]; [reflexivity|].
  rewrite split_on_join; [| |discriminate].
  - induction Hitems as [|x l (_ & Hstrip & Hne) _ IH]; [reflexivity|].
    simpl. rewrite Hstrip. destruct (String.eqb_spec x ""); [contradiction|].
    simpl. now rewrite Hstrip, IH.
  - eapply Forall_impl; [|exact Hitems]. intros x (H & _). exact H.
Qed.

(** Two origins separated by a comma; an item of white space is dropped. *)
Example read_env_list_drops_white_space :
  configuration.read_env_list
    (configuration.mkConfiguration "local"
       [("ORIGINS", ("a.example," ++ nbsp ++ ", b.example ")%string)] None) "ORIGINS"
  = Returned ["a.example"; "b.example"].
Proof. reflexivity. Qed.

(** Two origins separated by a comma. *)
Lemma read_env_list_round_trip_witness :
  configuration.read_env_list
    (configuration.mkConfiguration "local" [("ORIGINS", "a.example,b.example")] None)
    "ORIGINS"
  = Returned ["a.example"; "b.example"].
Proof.
  destruct (read_env_list_round_trip
              (configuration.mkConfiguration "local"
                 [("ORIGINS", "a.example,b.example")] None) "ORIGINS") as (_ & _ & Hback).
  apply (Hback ["a.example"; "b.example"]); [|reflexivity].
  repeat constructor; discriminate.
Defined.

(** ** The quota of the batch starter *)

Section Quota.

Local Open Scope Z_scope.

Variable t0 : Z.

Lemma hits_since_expire (hits : list Z) (now : Z) :
  now <= t0 + 60 -> hits_since t0 (http.expire hits now 60) = hits_since t0 hits.
Proof.
  intros Hnow. induction hits as [|t hits IH]; simpl; [reflexivity|].
  destruct (Z.ltb_spec 60 (now - t)) as [Hold|_]; [|reflexivity].
  rewrite IH. unfold hits_since. simpl.
  destruct (Z.leb_spec t0 t); [lia|reflexivity].
Qed.

Lemma hits_since_admitted (hits : list Z) (now : Z) :
  t0 <= now -> hits_since t0 (hits ++ [now]) = S (hits_since t0 hits).
Proof.
  intros Hnow. unfold hits_since. rewrite filter_app, length_app. simpl.
  destruct (Z.leb_spec t0 now); [simpl; lia|lia].
Qed.

Lemma hits_since_length (hits : list Z) : (hits_since t0 hits <= length hits)%nat.
Proof. apply filter_length_le. Qed.

Lemma serve_step (st : http.app_state) (r : http.environment * http.HttpRequest) :
  t0 <= http.monotonic (fst r) <= t0 + 60 ->
  (length (http.rate_hits st) <= 20)%nat ->
  (length (http.rate_hits (serve st r)) <= 20)%nat
  /\ exists started,
       http.instances (serve st r) = (http.instances st ++ started)%list
       /\ (hits_since t0 (http.rate_hits st) + length started
           <= hits_since t0 (http.rate_hits (serve st r)))%nat.
Proof.
  intros [Hlo Hhi] Hlen. unfold serve, http.start_orchestrator_http.
  pose proof (expire_length (http.rate_hits st) (http.monotonic (fst r)) 60) as Hexp.
  pose proof (hits_since_expire (http.rate_hits st) _ Hhi) as Hkeep.
  pose proof (hits_since_admitted
                (http.expire (http.rate_hits st) (http.monotonic (fst r)) 60) _ Hlo) as Hadd.
  assert (Hsame : (length (http.rate_hits st) <= 20)%nat
                  /\ exists started,
                       http.instances st = (http.instances st ++ started)%list
                       /\ (hits_since t0 (http.rate_hits st) + length started
                           <= hits_since t0 (http.rate_hits st))%nat).
  { split; [exact Hlen|]. exists []. rewrite app_nil_r. simpl. split; [reflexivity|lia]. }
  destruct (http._authenticate_request (fst r) (snd r) (http.uuid4 (fst r)))
    as [[|] [response|]]; try exact Hsame.
  all: unfold http._enforce_rate_limit;
    destruct (Nat.leb_spec 20
                (length (http.expire (http.rate_hits st) (http.monotonic (fst r)) 60)))
      as [Hfull|Hroom]; cbn [fst snd http.rate_hits http.instances].
  all: try (split; [lia|]; exists []; rewrite app_nil_r; simpl; split; [reflexivity|lia]).
  all: assert (Hcounted :
         (length (http.expire (http.rate_hits st) (http.monotonic (fst r)) 60
                  ++ [http.monotonic (fst r)]) <= 20)%nat)
         by (rewrite length_app; simpl; lia).
  all: destruct (http.get_json (snd r)) as [body|];
    [destruct (py_get body "blobs") as [[| | | |[|b blobs]|]|e];
     [| | | | |destruct (http.first_refusal 0 (b :: blobs))| |]|];
    cbn [fst snd http.rate_hits http.instances];
    (split; [exact Hcounted|]);
    try (exists []; rewrite app_nil_r; simpl; split; [reflexivity|lia]).
  all: unfold http.start_new; eexists; (split; [reflexivity|]); simpl; lia.
Qed.

Lemma serve_all_invariant (requests : list (http.environment * http.HttpRequest)) :
  forall st,
  Forall (fun r => t0 <= http.monotonic (fst r) <= t0 + 60) requests ->
  (length (http.rate_hits st) <= 20)%nat ->
  (length (http.rate_hits (serve_all st requests)) <= 20)%nat
  /\ exists started,
       http.instances (serve_all st requests) = (http.instances st ++ started)%list
       /\ (hits_since t0 (http.rate_hits st) + length started
           <= hits_since t0 (http.rate_hits (serve_all st requests)))%nat.
Proof.
  induction requests as [|r requests IH]; intros st Hwindow Hlen.
  - simpl. split; [exact Hlen|]. exists []. rewrite app_nil_r. simpl.
    split; [reflexivity|lia].
  - inversion Hwindow as [|? ? Hr Hrest]; subst.
    destruct (serve_step st r Hr Hlen) as (Hlen1 & started1 & Hinst1 & Hcount1).
    destruct (IH (serve st r) Hrest Hlen1) as (Hlen2 & started2 & Hinst2 & Hcount2).
    change (serve_all st (r :: requests)) with (serve_all (serve st r) requests).
    split; [exact Hlen2|]. exists (started1 ++ started2)%list.
    rewrite Hinst2, Hinst1, <- app_assoc, length_app. split; [reflexivity|lia].
Qed.

End Quota.

(** X22.  The quota of the batch starter.  Whatever requests arrive during
    any 60 seconds of the monotonic clock (all clock readings within
    [t0 .. t0 + 60]), authorized or not, valid or not, the starter starts at
    most 20 instances; it never forgets an instance it knew; and its deque
    never holds more than 20 hits. *)
Theorem at_most_twenty_starts_per_window (st : http.app_state)
    (requests : list (http.environment * http.HttpRequest)) (t0 : Z) :
  (length (http.rate_hits st) <= 20)%nat ->
  Forall (fun r => (t0 <= http.monotonic (fst r) <= t0 + 60)%Z) requests ->
  exists started,
    http.instances (serve_all st requests) = http.instances st ++ started
    /\ length started <= 20
    /\ length (http.rate_hits (serve_all st requests)) <= 20.
Proof.
  intros Hlen Hwindow.
  destruct (serve_all_invariant t0 requests st Hwindow Hlen) as (Hlen' & started & Hinst & Hcount).
  exists started. split; [exact Hinst|]. split; [|exact Hlen'].
  pose proof (hits_since_length t0 (http.rate_hits (serve_all st requests))). lia.
Qed.

(** Twenty-five valid requests in the same second, ten instances known
    before: at most thirty after. *)
Lemma at_most_twenty_starts_per_window_witness :
  length (http.instances
            (serve_all Examples.state0
               (repeat (Examples.env0, Examples.start_request [Examples.ref "a.pdf"]) 25)))
  <= 30.
Proof.
  destruct (at_most_twenty_starts_per_window Examples.state0
              (repeat (Examples.env0, Examples.start_request [Examples.ref "a.pdf"]) 25)
              (http.monotonic Examples.env0))
    as (started & Hinst & Hstarted & _).
  - simpl. lia.
  - apply Forall_forall. intros r Hr. apply repeat_spec in Hr. subst r. simpl. lia.
  - rewrite Hinst, length_app. simpl. lia.
Defined.

(** ** The record of a completed workflow ([_track_event] in [process_blob]) *)

Lemma telemetry_app (event_name : string) (l1 l2 : list event) :
  telemetry event_name (l1 ++ l2) = telemetry event_name l1 ++ telemetry event_name l2.
Proof. apply filter_app. Qed.

Lemma telemetry_calls (event_name : string) (calls : list service_call) :
  telemetry event_name (map EvCall calls) = [].
Proof. induction calls; simpl; auto. Qed.

Lemma retry_from_no_telemetry (event_name name : string) (opts : RetryOptions)
    (activity : pyval -> Act pyval) (input : pyval) (remaining : nat) :
  forall attempt h,
    telemetry event_name (snd (retry_from name opts activity input attempt remaining h)) = [].
Proof.
  induction remaining as [|remaining IH]; intros attempt h; simpl;
    destruct (activity input (h ++ [EvActivity name attempt input])) as [[v|e] calls];
    simpl; try apply telemetry_calls.
  match goal with
  | |- context [retry_from name opts activity input (S attempt) remaining ?h'] =>
      specialize (IH (S attempt) h');
      destruct (retry_from name opts activity input (S attempt) remaining h') as [r l]
  end.
  simpl in *. rewrite telemetry_app, telemetry_calls. simpl. exact IH.
Qed.

(** X23.  The record of a completed workflow.  [ProcessBlobCompleted] is
    tracked only by a document workflow that returns its entry: then once,
    as the last thing the workflow does, with the [success] and
    [output_blob] of the entry's [task_result].  A workflow that raises
    tracks no completion, and the stages track none.  (The record of the
    start, which every replay of the generator logs again, is not counted
    here.) *)
Theorem workflow_telemetry (svc : services) (ctx : function_app.context)
    (blob_metadata : pyval) (h : history) :
  let doc := function_app.process_blob svc ctx blob_metadata h in
  (forall e, fst doc = Raised e -> telemetry "ProcessBlobCompleted" (snd doc) = [])
  /\ (forall entry, fst doc = Returned entry ->
        exists text_result task_result before,
          entry = result_payload blob_metadata text_result task_result
          /\ snd doc = before ++ [completed_event ctx task_result]
          /\ telemetry "ProcessBlobCompleted" (snd doc)
             = [completed_event ctx task_result]).
Proof.
  intros doc. subst doc. rewrite process_blob_unfold. unfold process_blob_by_stage.
  set (started := started_event svc ctx blob_metadata).
  assert (Hstarted : telemetry "ProcessBlobCompleted" [started] = []) by reflexivity.
  pose proof (retry_from_no_telemetry "ProcessBlobCompleted" "runDocIntel"
                function_app.doc_retry
                (runDocIntel.extract_text_from_blob svc) blob_metadata
                (max_number_of_attempts function_app.doc_retry - 1) 1 (h ++ [started]))
    as H1.
  fold (call_activity_with_retry "runDocIntel" function_app.doc_retry
          (runDocIntel.extract_text_from_blob svc) blob_metadata) in H1.
  fold (extraction_stage svc blob_metadata) in H1.
  destruct (extraction_stage svc blob_metadata (h ++ [started])) as [[text|e1] tr1];
    cbn [fst snd] in *.
  2:{ split; [|discriminate]. intros _ _.
      change (started :: tr1) with ([started] ++ tr1).
      now rewrite telemetry_app, Hstarted, H1. }
  match goal with
  | |- context [transformation_stage svc ctx text ?h'] =>
      pose proof (retry_from_no_telemetry "ProcessBlobCompleted" "callAoai"
                    function_app.aoai_retry (callAoai.run svc)
                    (PDict [("text_result", text);
                            ("instance_id", PStr (function_app.instance_id ctx))])
                    (max_number_of_attempts function_app.aoai_retry - 1) 1 h') as H2;
      fold (call_activity_with_retry "callAoai" function_app.aoai_retry (callAoai.run svc)
              (PDict [("text_result", text);
                      ("instance_id", PStr (function_app.instance_id ctx))])) in H2;
      fold (transformation_stage svc ctx text) in H2;
      destruct (transformation_stage svc ctx text h') as [[json|e2] tr2]
  end; cbn [fst snd] in *.
  2:{ split; [|discriminate]. intros _ _.
      change (started :: tr1 ++ tr2) with ([started] ++ tr1 ++ tr2).
      now rewrite !telemetry_app, Hstarted, H1, H2. }
  destruct (subscript blob_metadata "name") as [blob_name|e3]; cbn [fst snd].
  2:{ split; [|discriminate]. intros _ _.
      change (started :: tr1 ++ tr2) with ([started] ++ tr1 ++ tr2).
      now rewrite !telemetry_app, Hstarted, H1, H2. }
  match goal with
  | |- context [persistence_stage svc ctx json blob_name ?h'] =>
      pose proof (retry_from_no_telemetry "ProcessBlobCompleted" "writeToBlob"
                    function_app.write_retry
                    (writeToBlob.extract_text_from_blob svc)
                    (PDict [("json_str", json); ("blob_name", blob_name);
                            ("instance_id",
                             PStr (function_app.destination_instance ctx))])
                    (max_number_of_attempts function_app.write_retry - 1) 1 h') as H3;
      fold (call_activity_with_retry "writeToBlob" function_app.write_retry
              (writeToBlob.extract_text_from_blob svc)
              (PDict [("json_str", json); ("blob_name", blob_name);
                      ("instance_id",
                       PStr (function_app.destination_instance ctx))])) in H3;
      fold (persistence_stage svc ctx json blob_name) in H3;
      destruct (persistence_stage svc ctx json blob_name h') as [[result|e4] tr3]
  end; cbn [fst snd] in *.
  - split; [discriminate|]. intros entry Hentry. inversion Hentry; subst.
    exists text, result, (started :: tr1 ++ tr2 ++ tr3). split; [reflexivity|]. split.
    + simpl. now rewrite <- !app_assoc.
    + change (started :: tr1 ++ tr2 ++ tr3 ++ [completed_event ctx result])
        with ([started] ++ tr1 ++ tr2 ++ tr3 ++ [completed_event ctx result]).
      now rewrite !telemetry_app, Hstarted, H1, H2, H3.
  - split; [|discriminate]. intros _ _.
    change (started :: tr1 ++ tr2 ++ tr3) with ([started] ++ tr1 ++ tr2 ++ tr3).
    now rewrite !telemetry_app, Hstarted, H1, H2, H3.
Qed.

(** A reference that is not a dict: the workflow raises and tracks no
    completion; the workflow of the examples tracks one. *)
Lemma workflow_telemetry_witness :
  telemetry "ProcessBlobCompleted"
    (snd (function_app.process_blob Examples.svc_ok Examples.doc_ctx (PInt 7) [])) = []
  /\ length (telemetry "ProcessBlobCompleted"
               (snd (function_app.process_blob Examples.svc_ok Examples.doc_ctx
                       (Examples.ref "a.pdf") []))) = 1.
Proof.
  split.
  - destruct (workflow_telemetry Examples.svc_ok Examples.doc_ctx (PInt 7) [])
      as (Hraised & _).
    eapply Hraised. reflexivity.
  - destruct (workflow_telemetry Examples.svc_ok Examples.doc_ctx (Examples.ref "a.pdf") [])
      as (_ & Hreturned).
    destruct (Hreturned _ eq_refl) as (text_result & task_result & before & _ & _ & Hone).
    rewrite Hone. reflexivity.
Defined.

(** ** The prompts ([load_prompts]) *)



(** ** The text the extraction returns *)

(** X25.  On a reference with a string [container] and [name], [runDocIntel]
    returns [None] or a text.  When it returns a text, the blob was
    downloaded from the container under the normalized name, the analysis
    was run once, on exactly the content downloaded, it found at least one
    paragraph, and the text is the paragraphs in their order joined by line
    feeds.  At most these two services are called, the download first. *)
Theorem runDocIntel_result (svc : services) (d : list (string * pyval))
    (container raw_name : string) (h : history) :
  dict_get d "container" = Some (PStr container) ->
  dict_get d "name" = Some (PStr raw_name) ->
  let r := runDocIntel.extract_text_from_blob svc (PDict d) h in
  let download :=
    Call "download_blob"
      [PStr container; PStr (runDocIntel.normalize_blob_name container raw_name)] in
  (fst r = Returned PNone
   /\ (snd r = [download]
       \/ exists content, snd r = [download; Call "begin_analyze_document" [PStr content]]))
  \/ (exists content p ps h1 h2,
        download_blob svc h1 container
          (runDocIntel.normalize_blob_name container raw_name) = Returned content
        /\ analyze_document svc h2 content = Returned (Some (p :: ps))
        /\ fst r = Returned (PStr (join nl (p :: ps)))
        /\ snd r = [download; Call "begin_analyze_document" [PStr content]]).
Proof.
  intros Hcontainer Hname r download. subst r download.
  unfold runDocIntel.extract_text_from_blob, runDocIntel.analyze, try_except, bind,
    get_blob_content, call, lift_outcome, ret, raise, subscript.
  rewrite Hcontainer, Hname.
  set (key := runDocIntel.normalize_blob_name container raw_name).
  simpl.
  match goal with
  | |- context [download_blob svc ?h1 container key] =>
      destruct (download_blob svc h1 container key) as [content|e] eqn:Hdownload
  end; simpl; [|left; split; [reflexivity|now left]].
  match goal with
  | |- context [analyze_document svc ?h2 content] =>
      destruct (analyze_document svc h2 content) as [[[|p ps]|]|e] eqn:Hanalyze
  end; simpl; try (left; split; [reflexivity|right; eexists; reflexivity]).
  right. do 5 eexists. split; [exact Hdownload|]. split; [exact Hanalyze|].
  split; reflexivity.
Qed.

(** The document of the examples: two paragraphs, two lines. *)
Lemma runDocIntel_result_witness :
  fst (runDocIntel.extract_text_from_blob Examples.svc_ok (Examples.ref "a.pdf") [])
  = Returned (PStr ("Invoice 42" ++ nl ++ "Total: 10")).
Proof.
  destruct (runDocIntel_result Examples.svc_ok
              [("name", PStr "a.pdf"); ("url", PStr "https://store/bronze/a.pdf");
               ("container", PStr "bronze")] "bronze" "a.pdf" [] eq_refl eq_refl)
    as [(Hnone & _) | (content & p & ps & h1 & h2 & _ & _ & Htext & _)].
  - discriminate Hnone.
  - reflexivity.
Defined.

(** ** From an accepted request to a completed batch *)

Lemma first_refusal_none (blobs : list pyval) :
  forall i, http.first_refusal i blobs = None ->
            Forall (fun b => accepted_entry b = true) blobs.
Proof.
  induction blobs as [|b blobs IH]; intros i H; [constructor|].
  cbn [http.first_refusal] in H. destruct b as [| | | | |d]; try discriminate.
  destruct (forallb (http.has_text d) http.required) eqn:Hb; [|discriminate].
  constructor; [exact Hb|]. eapply IH, H.
Qed.

Lemma accepted_has_name (b : pyval) : accepted_entry b = true -> has_name b = true.
Proof.
  destruct b as [| | | | |d]; try discriminate. simpl. unfold http.has_text.
  destruct (dict_get d "name"); [reflexivity|discriminate].
Qed.

(** X26.  What the answer 202 of the batch starter means.  The body was a
    JSON object whose [blobs] is a non-empty list of accepted references;
    exactly one instance of [orchestrator] was started, on that list; and
    the batch of that instance completes, whatever the collaborators answer
    and in whatever order its children finish, with one entry per
    reference.  (The join of the children is modelled.) *)
Theorem accepted_request_completes (env : http.environment) (st st' : http.app_state)
    (req : http.HttpRequest) (response : http.HttpResponse) :
  http.start_orchestrator_http env st req = (Returned response, st') ->
  http.status_code response = 202%Z ->
  exists body blobs,
    http.get_json req = Some body
    /\ py_get body "blobs" = Returned (PList blobs)
    /\ blobs <> []
    /\ Forall (fun b => accepted_entry b = true) blobs
    /\ http.instances st'
       = http.start_new env (http.instances st) "orchestrator" (PList blobs)
    /\ forall (svc : services) (sched : list nat) (h : history),
       exists results children,
         batch_completes_with svc (http.new_instance_id env) sched blobs h results children
         /\ length results = length blobs.
Proof.
  unfold http.start_orchestrator_http.
  destruct (http._authenticate_request env req (http.uuid4 env)) as [[|] auth] eqn:Hauth.
  2:{ pose proof (refused_gets_401 env req (http.uuid4 env)) as H401.
      rewrite Hauth in H401. specialize (H401 eq_refl). simpl in H401. subst auth.
      intros H Hcode. inversion H; subst. discriminate Hcode. }
  destruct (http._enforce_rate_limit (http.rate_hits st) 20 60 (http.monotonic env))
    as [[[|] retry_after] hits].
  2:{ intros H Hcode. inversion H; subst. discriminate Hcode. }
  destruct (http.get_json req) as [body|].
  2:{ intros H Hcode. inversion H; subst. discriminate Hcode. }
  destruct (py_get body "blobs") as [v|e] eqn:Hblobs; [|discriminate].
  destruct v as [| | | |[|b blobs]|];
    try (intros H Hcode; inversion H; subst; discriminate Hcode).
  destruct (http.first_refusal 0 (b :: blobs)) as [message|] eqn:Hvalid.
  { intros H Hcode. inversion H; subst. discriminate Hcode. }
  intros H _. inversion H; subst. clear H.
  pose proof (first_refusal_none _ _ Hvalid) as Haccepted.
  exists body, (b :: blobs). split; [reflexivity|]. split; [exact Hblobs|].
  split; [discriminate|]. split; [exact Haccepted|]. split; [reflexivity|].
  intros svc sched h.
  destruct (batch_run svc (http.new_instance_id env) sched (b :: blobs) h)
    as (results & children & Hrun & Hentries & _).
  { eapply Forall_impl; [|exact Haccepted]. intros x. apply accepted_has_name. }
  exists results, children. split; [exact Hrun|].
  apply Forall2_length in Hentries. rewrite length_seq in Hentries. now symmetry.
Qed.

(** The request of the examples is answered 202; its batch has one entry. *)
Lemma accepted_request_completes_witness :
  exists results children,
    batch_completes_with Examples.svc_ok "batch-1" [] [Examples.ref "a.pdf"] []
      results children
    /\ length results = 1.
Proof.
  destruct (accepted_request_completes Examples.env0 Examples.state0
              (snd (http.start_orchestrator_http Examples.env0 Examples.state0
                      (Examples.start_request [Examples.ref "a.pdf"])))
              (Examples.start_request [Examples.ref "a.pdf"])
              (http._json_response true "Orchestration started." 202 "c0ffee"
                 (Some [("instanceId", PStr "batch-1");
                        ("durableStatus", PDict [("id", PStr "batch-1")])]))
              eq_refl eq_refl)
    as (body & blobs & Hbody & Hblobs & _ & _ & _ & Hbatch).
  inversion Hbody; subst body. inversion Hblobs; subst blobs.
  apply (Hbatch Examples.svc_ok [] []).
Defined.

(** ** The outputs of a batch *)

Lemma startswith_append (p rest : string) : startswith (p ++ rest) p = true.
Proof.
  induction p as [|c p IH]; simpl; [now destruct rest|].
  now rewrite Ascii.eqb_refl.
Qed.

Lemma startswith_prefix (p q rest : string) :
  startswith (p ++ q ++ rest) (p ++ q) = true.
Proof.
  induction p as [|c p IH]; simpl; [apply startswith_append|].
  now rewrite Ascii.eqb_refl.
Qed.

Lemma uploads_terminal (tr : list event) (id : string) (st : terminal_status) :
  uploads (tr ++ [EvTerminal id st]) = uploads tr.
Proof. rewrite uploads_app. unfold uploads at 2. simpl. apply app_nil_r. Qed.

Lemma process_blob_uploads (svc : services) (ctx : function_app.context)
    (blob_metadata : pyval) (batch_id : string) (h : history) :
  function_app.parent_instance_id ctx = Some batch_id ->
  batch_id <> EmptyString ->
  Forall (within_batch svc batch_id)
         (uploads (snd (function_app.process_blob svc ctx blob_metadata h)))
  /\ length (uploads (snd (function_app.process_blob svc ctx blob_metadata h))) <= 1.
Proof.
  intros Hparent Hne.
  assert (Hdest : function_app.destination_instance ctx = batch_id).
  { unfold function_app.destination_instance. rewrite Hparent.
    destruct (String.eqb_spec batch_id ""); [contradiction|reflexivity]. }
  rewrite process_blob_unfold. unfold process_blob_by_stage.
  set (h1 := h ++ [started_event svc ctx blob_metadata]).
  pose proof (extraction_no_upload svc blob_metadata h1) as H1.
  destruct (extraction_stage svc blob_metadata h1) as [[text|e1] tr1]; simpl in H1.
  2:{ simpl snd. unfold started_event, function_app.tracked.
      rewrite uploads_cons_track, H1. split; [constructor|simpl; lia]. }
  pose proof (transformation_no_upload svc ctx text (h1 ++ tr1)) as H2.
  destruct (transformation_stage svc ctx text (h1 ++ tr1)) as [[json|e2] tr2]; simpl in H2.
  2:{ simpl snd. unfold started_event, function_app.tracked.
      rewrite uploads_cons_track, uploads_app, H1, H2. split; [constructor|simpl; lia]. }
  destruct (subscript blob_metadata "name") as [blob_name|e3] eqn:Hname.
  2:{ simpl snd. unfold started_event, function_app.tracked.
      rewrite uploads_cons_track, uploads_app, H1, H2. split; [constructor|simpl; lia]. }
  destruct (persistence_stage_writes svc ctx json blob_name ((h1 ++ tr1) ++ tr2))
    as (result & tr3 & -> & _ & _ & _ & H3).
  simpl snd. unfold started_event, function_app.tracked.
  rewrite uploads_cons_track, !uploads_app, H1, H2. simpl.
  unfold completed_event, function_app.tracked. unfold uploads at 2 4. simpl.
  rewrite app_nil_r.
  destruct H3 as [-> | (name & -> & ->)]; [split; [constructor|simpl; lia]|].
  split; [|simpl; lia]. constructor; [|constructor]. split; [reflexivity|].
  rewrite Hdest. unfold destination_key. simpl snd.
  apply (startswith_prefix batch_id "/"
           (fst (splitext (basename name)) ++ "-output.json")).
Qed.

Lemma completions_uploads (P : string * string -> Prop) (n : nat) :
  forall sched (pending : list (nat * Orch pyval)) h,
    length pending = n ->
    (forall it : nat * Orch pyval, In it pending ->
       forall h', Forall P (uploads (snd (snd it h')))
                  /\ length (uploads (snd (snd it h'))) <= 1) ->
    Forall P (uploads (snd (completions n sched pending h)))
    /\ length (uploads (snd (completions n sched pending h))) <= n.
Proof.
  induction n as [|n IH]; intros sched pending h Hlen Hall.
  - simpl. split; [constructor|reflexivity].
  - cbn [completions].
    assert (Hc : Nat.modulo (hd 0 sched) (length pending) < length pending).
    { apply Nat.mod_upper_bound. lia. }
    match goal with
    | |- context [nth_error pending ?c] =>
        destruct (nth_error pending c) as [[i task]|] eqn:Hnth
    end.
    2:{ apply nth_error_None in Hnth. lia. }
    destruct (pick_split _ _ _ Hnth) as (l1 & l2 & Hpending & Hrest).
    rewrite Hrest.
    destruct (Hall (i, task)) with (h' := h) as (Hp & Hone).
    { rewrite Hpending. apply in_or_app. right. now left. }
    simpl in Hp, Hone. destruct (task h) as [r tr].
    assert (Hlen' : length (l1 ++ l2) = n).
    { rewrite Hpending in Hlen. rewrite length_app in *. simpl in Hlen. lia. }
    destruct (IH (tl sched) (l1 ++ l2) (h ++ tr) Hlen') as (Hp' & Hbound).
    { intros it Hin. apply Hall. rewrite Hpending. apply in_app_or in Hin.
      apply in_or_app. destruct Hin; [now left|right; now right]. }
    destruct (completions n (tl sched) (l1 ++ l2) (h ++ tr)) as [rs l].
    simpl in *. rewrite uploads_app, length_app. split; [|lia].
    apply Forall_app. split; assumption.
Qed.

(** X27.  The outputs of a batch are its own.  Whatever the references are
    (also when a child fails and the join with it), whatever the
    collaborators answer and in whatever order the children finish, every
    upload made during the batch goes to the container of the next stage
    under a key that starts with the id of the batch and a slash, and there
    are at most as many uploads as references.  (The join of the children is
    modelled.) *)
Theorem batch_outputs_are_its_own (svc : services) (batch_id : string)
    (sched : list nat) (blobs : list pyval) (h : history) :
  batch_id <> EmptyString ->
  let tr := snd (function_app.batch svc batch_id sched (PList blobs) h) in
  Forall (within_batch svc batch_id) (uploads tr)
  /\ length (uploads tr) <= length blobs.
Proof.
  intros Hne tr. subst tr.
  unfold function_app.batch, orchestration, function_app.run.
  set (ctx := function_app.mkContext batch_id None).
  set (tasks := map (function_app.call_sub_orchestrator svc ctx) (number_from 0 blobs)).
  assert (Hlen : length (number_from 0 tasks) = length blobs).
  { unfold tasks. clear. generalize 0 at 1 2. induction blobs as [|b blobs IH];
      intros k; simpl; [reflexivity|]. f_equal. apply IH. }
  assert (Htasks : length tasks = length blobs).
  { unfold tasks. rewrite length_map. clear. generalize 0.
    induction blobs; intros k; simpl; auto. }
  assert (Hall : forall it : nat * Orch pyval, In it (number_from 0 tasks) ->
             forall h', Forall (within_batch svc batch_id) (uploads (snd (snd it h')))
                        /\ length (uploads (snd (snd it h'))) <= 1).
  { unfold tasks. rewrite number_from_map. intros it Hin h'.
    apply in_map_iff in Hin as ([i blob] & <- & _). cbn [fst snd].
    unfold function_app.call_sub_orchestrator, orchestration. cbn [fst snd].
    pose proof (process_blob_uploads svc
                  (function_app.mkContext
                     (child_instance_id svc (function_app.instance_id ctx) i)
                     (Some (function_app.instance_id ctx)))
                  blob batch_id h' eq_refl Hne) as Hdoc.
    destruct (function_app.process_blob svc _ blob h') as [r l]. cbn [fst snd] in *.
    now rewrite uploads_terminal. }
  pose proof (completions_uploads (within_batch svc batch_id) (length blobs) sched
                (number_from 0 tasks) (h ++ []) Hlen Hall) as (Hp & Hbound).
  unfold bind, function_app.orch, lift_outcome, function_app.py_iter, task_all,
    function_app._track_event, emit, ret. simpl map. fold tasks.
  rewrite Htasks.
  destruct (completions (length blobs) sched (number_from 0 tasks) (h ++ [])) as [done l].
  cbn [fst snd] in *.
  destruct (collect (map (fun i => lookup_outcome i done) (seq 0 (length blobs))))
    as [results|e]; cbn [fst snd app]; rewrite ?uploads_terminal, ?uploads_app;
    unfold uploads at 2; simpl; rewrite ?app_nil_r; auto.
Qed.

(** The batch of the examples writes under [batch-1/]. *)
Lemma batch_outputs_are_its_own_witness :
  Forall (within_batch Examples.svc_ok "batch-1")
         (uploads (snd (function_app.batch Examples.svc_ok "batch-1" []
                          (PList [Examples.ref "a.pdf"; PInt 7]) []))).
Proof.
  destruct (batch_outputs_are_its_own Examples.svc_ok "batch-1" []
              [Examples.ref "a.pdf"; PInt 7] []) as (Hown & _).
  - discriminate.
  - exact Hown.
Defined.

(** ** Optional settings ([read_env_boolean], [read_env_variable]) *)

(** X28.  Reading optional settings.  [read_env_boolean] never raises; for a
    setting that is set nowhere it returns its default (the default goes
    through [str] and is read back), and [true], [1] and [yes] count as true
    in any letter case and with white space around them.
    [read_env_variable] with a default returns the default, trimmed, when
    the setting is set nowhere, and the default as it is when the setting is
    empty; a value of white space only is not replaced by the default but
    returned as the empty string.  Without a default it raises when the
    setting is set nowhere. *)
Theorem optional_settings (self : configuration.Configuration) (var_name : string) :
  (forall default, exists b,
     configuration.read_env_boolean self var_name default = Returned b)
  /\ (forall default e,
        configuration.get_value self var_name None = Raised e ->
        configuration.read_env_boolean self var_name default = Returned default)
  /\ (forall default value,
        configuration.get_value self var_name None = Returned value ->
        In (lower (strip value)) ["true"; "1"; "yes"]%string ->
        configuration.read_env_boolean self var_name default = Returned true)
  /\ (forall d e,
        configuration.get_value self var_name None = Raised e ->
        configuration.read_env_variable self var_name (Some d)
        = Returned (Some (strip d)))
  /\ (forall d value,
        configuration.get_value self var_name None = Returned value ->
        configuration.read_env_variable self var_name (Some d)
        = Returned (if String.eqb value "" then Some d else Some (strip value)))
  /\ (forall e,
        configuration.get_value self var_name None = Raised e ->
        configuration.read_env_variable self var_name None = Raised e).
Proof.
  unfold configuration.read_env_boolean, configuration.read_env_variable.
  split; [|split; [|split; [|split; [|split]]]].
  - intros default. rewrite get_value_with_default.
    destruct (configuration.get_value self var_name None); eauto.
  - intros default e He. rewrite get_value_with_default, He.
    destruct default; reflexivity.
  - intros default value Hv Hin. rewrite get_value_with_default, Hv. f_equal.
    destruct Hin as [<-|[<-|[<-|[]]]]; reflexivity.
  - intros d e He. rewrite get_value_with_default, He.
    destruct (String.eqb_spec d "") as [->|_]; reflexivity.
  - intros d value Hv. now rewrite get_value_with_default, Hv.
  - intros e ->. reflexivity.
Qed.

(** [DEBUG= Yes ] is true; a [REGION] of a blank and a no-break space is read
    as the empty string. *)
Lemma optional_settings_witness :
  configuration.read_env_boolean
    (configuration.mkConfiguration "local" [("DEBUG", " Yes ")] None) "DEBUG" false
  = Returned true
  /\ configuration.read_env_variable
       (configuration.mkConfiguration "local" [("REGION", (" " ++ nbsp)%string)] None)
       "REGION" (Some "westeurope")
     = Returned (Some "").
Proof.
  split.
  - destruct (optional_settings
                (configuration.mkConfiguration "local" [("DEBUG", " Yes ")] None) "DEBUG")
      as (_ & _ & Htrue & _).
    apply (Htrue false " Yes "); [reflexivity|]. right. right. left. reflexivity.
  - destruct (optional_settings
                (configuration.mkConfiguration "local" [("REGION", (" " ++ nbsp)%string)]
                   None) "REGION")
      as (_ & _ & _ & _ & Hvalue & _).
    apply (Hvalue "westeurope" (" " ++ nbsp)%string). reflexivity.
Defined.
